(** * HR / occupational-health warehouse loader: validation, transformation
    and dimensional load.

    A shallow embedding of [src/etl.py] (DataValidator, DataTransformer and
    the three ETL classes) and of [src/db.py] (DataLoader) over the schema
    of [src/sqlalchemy_models.py], followed by the properties of the
    specification that concern them.

    Conventions of the embedding.
    - Python integers are [Z]; [//] and [%] are [Z.div] and [Z.modulo]
      (both floor towards minus infinity for a positive divisor).
    - A Python [str] is a [string] of the Standard Library: the alphabet is
      the 256 one-byte characters, among which [\d] is the ten ASCII digits
      and [str.strip()] removes twelve blanks. [validate_cpf] is given on
      sequences of code points as well ([CodePoints]), for the strings
      beyond one byte, and the two agree on the one-byte ones.
    - A dynamically typed cell (a DataFrame cell, a dict value) is a
      [value]; an operation applied to a cell of the wrong type raises
      [TypeError] as it does in Python.
    - Code that may raise returns a [result]; the loaders thread the
      database and the log explicitly. *)

From Stdlib Require Import ZArith QArith String Ascii List Bool Lia DecimalString.
From stdpp Require Import base option list gmap strings.
Import ListNotations.

Local Open Scope string_scope.
Local Open Scope list_scope.
Local Open Scope Z_scope.

(** ** Exceptions and results *)

Inductive exn : Type :=
| KeyError (key : string)
| IndexError
| AttributeError
| TypeError
| ValueError
| IntegrityError (constraint : string).

Inductive result (A : Type) : Type :=
| Ok (a : A)
| Raise (e : exn).
Arguments Ok {A} a.
Arguments Raise {A} e.

(** Sequencing: the first exception raised propagates. *)
Global Instance result_ret : MRet result := fun _ a => Ok a.
Global Instance result_bind : MBind result := fun _ _ k r =>
  match r with
  | Ok a => k a
  | Raise e => Raise e
  end.

Global Instance result_fmap : FMap result := fun _ _ f r =>
  match r with
  | Ok a => Ok (f a)
  | Raise e => Raise e
  end.

Definition is_ok {A : Type} (r : result A) : bool :=
  match r with Ok _ => true | Raise _ => false end.

(** ** Calendar dates: [datetime.date] *)

Module Calendar.

Record date : Type := mkdate { year : Z; month : Z; day : Z }.

Definition MINYEAR : Z := 1.
Definition MAXYEAR : Z := 9999.

Definition is_leap (y : Z) : bool :=
  (y mod 4 =? 0) && (negb (y mod 100 =? 0) || (y mod 400 =? 0)).

Definition days_in_month (y m : Z) : Z :=
  if (m =? 2) && is_leap y then 29
  else match m with
       | 1 => 31 | 2 => 28 | 3 => 31 | 4 => 30 | 5 => 31 | 6 => 30
       | 7 => 31 | 8 => 31 | 9 => 30 | 10 => 31 | 11 => 30 | 12 => 31
       | _ => -1
       end.

Definition valid_date (d : date) : bool :=
  (MINYEAR <=? year d) && (year d <=? MAXYEAR) &&
  (1 <=? month d) && (month d <=? 12) &&
  (1 <=? day d) && (day d <=? days_in_month (year d) (month d)).

(** The constructor [date(y, m, d)]: [ValueError] outside the calendar. *)
Definition new_date (y m d : Z) : result date :=
  if valid_date (mkdate y m d) then Ok (mkdate y m d) else Raise ValueError.

(** [d.replace(day=n)] *)
Definition replace_day (d : date) (n : Z) : result date :=
  new_date (year d) (month d) n.

Definition days_before_year (y : Z) : Z :=
  let y1 := y - 1 in y1 * 365 + y1 / 4 - y1 / 100 + y1 / 400.

Definition days_before_month (y m : Z) : Z :=
  match m with
  | 1 => 0 | 2 => 31 | 3 => 59 | 4 => 90 | 5 => 120 | 6 => 151
  | 7 => 181 | 8 => 212 | 9 => 243 | 10 => 273 | 11 => 304 | 12 => 334
  | _ => -1
  end + (if (2 <? m) && is_leap y then 1 else 0).

Definition ymd2ord (y m d : Z) : Z :=
  days_before_year y + days_before_month y m + d.

Definition toordinal (d : date) : Z := ymd2ord (year d) (month d) (day d).

(** [d.weekday()]: Monday is 0, Sunday is 6. *)
Definition weekday (d : date) : Z := (toordinal d + 6) mod 7.

(** [(a - b).days] *)
Definition days_between (a b : date) : Z := toordinal a - toordinal b.

(** Comparison of dates is the lexicographic one on year, month, day. *)
Definition date_ltb (a b : date) : bool :=
  (year a <? year b) ||
  ((year a =? year b) &&
   ((month a <? month b) || ((month a =? month b) && (day a <? day b)))).

Definition date_eqb (a b : date) : bool :=
  (year a =? year b) && (month a =? month b) && (day a =? day b).

Definition date_leb (a b : date) : bool := date_ltb a b || date_eqb a b.

Definition isoweek1monday (y : Z) : Z :=
  let firstday := ymd2ord y 1 1 in
  let firstweekday := (firstday + 6) mod 7 in
  let week1monday := firstday - firstweekday in
  if 3 <? firstweekday then week1monday + 7 else week1monday.

(** [d.isocalendar()[1]], the ISO week number. *)
Definition isoweek (d : date) : Z :=
  let today := toordinal d in
  let week := (today - isoweek1monday (year d)) / 7 in
  if week <? 0 then (today - isoweek1monday (year d - 1)) / 7 + 1
  else if (52 <=? week) && (isoweek1monday (year d + 1) <=? today) then 1
  else week + 1.

(** [strftime('%B')] and [strftime('%A')] in the C locale. *)
Definition month_name (m : Z) : string :=
  match m with
  | 1 => "January" | 2 => "February" | 3 => "March" | 4 => "April"
  | 5 => "May" | 6 => "June" | 7 => "July" | 8 => "August"
  | 9 => "September" | 10 => "October" | 11 => "November"
  | _ => "December"
  end.

Definition weekday_name (wd : Z) : string :=
  match wd with
  | 0 => "Monday" | 1 => "Tuesday" | 2 => "Wednesday" | 3 => "Thursday"
  | 4 => "Friday" | 5 => "Saturday" | _ => "Sunday"
  end.

Global Instance date_eq_dec : EqDecision date.
Proof. solve_decision. Defined.

End Calendar.
Export Calendar.


(** ** Dynamically typed cells *)

Record time : Type := mktime { hour : Z; minute : Z; second : Z }.

Global Instance time_eq_dec : EqDecision time.
Proof. solve_decision. Defined.

Global Instance Q_eq_dec : EqDecision Q.
Proof. solve_decision. Defined.

(** [VNone] is Python's [None]; [VNaN] is the float [nan] that pandas puts
    in a numeric column for a missing cell. A [VFloat] holds the exact
    rational value of the float (rounding is not modelled). *)
Inductive value : Type :=
| VNone
| VNaN
| VBool (b : bool)
| VInt (n : Z)
| VFloat (q : Q)
| VStr (s : string)
| VDate (d : date)
| VTime (t : time).

Global Instance value_eq_dec : EqDecision value.
Proof. solve_decision. Defined.

(** [bool(v)], the truth value Python's [if v] and [not v] test. *)
Definition truthy (v : value) : bool :=
  match v with
  | VNone => false
  | VNaN => true
  | VBool b => b
  | VInt n => negb (n =? 0)
  | VFloat q => negb (Qnum q =? 0)
  | VStr s => negb (String.eqb s "")
  | VDate _ => true
  | VTime _ => true
  end.

(** [pd.isna(v)] on a scalar. *)
Definition isna (v : value) : bool :=
  match v with
  | VNone | VNaN => true
  | _ => false
  end.

(** A number as Python compares it: [None] inside stands for [nan]. *)
Definition as_number (v : value) : option (option Q) :=
  match v with
  | VNaN => Some None
  | VBool b => Some (Some (inject_Z (if b then 1 else 0)))
  | VInt n => Some (Some (inject_Z n))
  | VFloat q => Some (Some q)
  | _ => None
  end.

Definition time_ltb (a b : time) : bool :=
  (hour a <? hour b) ||
  ((hour a =? hour b) &&
   ((minute a <? minute b) || ((minute a =? minute b) && (second a <? second b)))).

(** [a < b]: numbers with numbers (every comparison with [nan] is false),
    strings with strings, dates with dates, times with times; any other
    pairing is a [TypeError]. *)
Definition py_lt (a b : value) : result bool :=
  match as_number a, as_number b with
  | Some x, Some y =>
      match x, y with
      | Some p, Some q => Ok (negb (Qle_bool q p))
      | _, _ => Ok false
      end
  | _, _ =>
      match a, b with
      | VStr s, VStr t => Ok (String.ltb s t)
      | VDate d, VDate e => Ok (date_ltb d e)
      | VTime t, VTime u => Ok (time_ltb t u)
      | _, _ => Raise TypeError
      end
  end.

(** [a <= b] *)
Definition py_le (a b : value) : result bool :=
  match as_number a, as_number b with
  | Some x, Some y =>
      match x, y with
      | Some p, Some q => Ok (Qle_bool p q)
      | _, _ => Ok false
      end
  | _, _ =>
      match a, b with
      | VStr s, VStr t => Ok (String.leb s t)
      | VDate d, VDate e => Ok (date_leb d e)
      | VTime t, VTime u => Ok (time_ltb t u || bool_decide (t = u))
      | _, _ => Raise TypeError
      end
  end.

(** ** Characters and digits *)

Definition is_digit (c : ascii) : bool :=
  let n := N_of_ascii c in ((48 <=? n) && (n <=? 57))%N.

Definition is_lower (c : ascii) : bool :=
  let n := N_of_ascii c in ((97 <=? n) && (n <=? 122))%N.

Definition is_upper (c : ascii) : bool :=
  let n := N_of_ascii c in ((65 <=? n) && (n <=? 90))%N.

Definition is_alpha (c : ascii) : bool := is_lower c || is_upper c.

(** [str.isspace] on the one-byte characters, the ones [str.strip()]
    removes: the controls 9 to 13 and 28 to 31, the space, the next-line
    control U+0085 and the no-break space U+00A0. *)
Definition is_space (c : ascii) : bool :=
  let n := N_of_ascii c in
  ((9 <=? n) && (n <=? 13) || (28 <=? n) && (n <=? 32) ||
   (n =? 133) || (n =? 160))%N.

(** [int(c)] for a digit character. *)
Definition digit_value (c : ascii) : Z := Z.of_N (N_of_ascii c) - 48.

(** The character of a digit [0..9]. *)
Definition digit_char (n : Z) : ascii := ascii_of_N (Z.to_N (n + 48)).

Fixpoint string_filter (p : ascii -> bool) (s : string) : string :=
  match s with
  | EmptyString => EmptyString
  | String c s' => if p c then String c (string_filter p s') else string_filter p s'
  end.

(** [re.sub(r'\D', '', s)] *)
Definition strip_non_digits (s : string) : string := string_filter is_digit s.

(** [c * n] for a one-character string [c] *)
Fixpoint string_repeat (c : ascii) (n : nat) : string :=
  match n with
  | O => EmptyString
  | S n' => String c (string_repeat c n')
  end.

Definition strlen (s : string) : Z := Z.of_nat (String.length s).

(** [s[:n]] for [0 <= n] *)
Definition prefix (n : nat) (s : string) : string := substring 0 n s.

(** [s[-2:]] *)
Definition last_two (s : string) : string :=
  substring (String.length s - 2) 2 s.

(** [str(n)] for an integer *)
Definition str_of_int (n : Z) : string := NilZero.string_of_int (Z.to_int n).

(** [s] with the character at index [i] replaced by [c]; [s] itself when
    [i] is past its end. *)
Fixpoint string_set (i : nat) (c : ascii) (s : string) : string :=
  match s, i with
  | EmptyString, _ => EmptyString
  | String _ s', O => String c s'
  | String a s', S i' => String a (string_set i' c s')
  end.

(** An optional string as a cell. *)
Definition str_cell (o : option string) : value :=
  match o with Some s => VStr s | None => VNone end.

(** ** Regular expressions

    The fragment of [re] the validators use: character classes, sequence,
    alternative and repetition, matched by derivatives. *)

Module Regex.

Inductive regex : Type :=
| Empty
| Epsilon
| Class (p : ascii -> bool)
| Seq (r1 r2 : regex)
| Alt (r1 r2 : regex)
| Star (r : regex).

Fixpoint nullable (r : regex) : bool :=
  match r with
  | Empty => false
  | Epsilon => true
  | Class _ => false
  | Seq r1 r2 => nullable r1 && nullable r2
  | Alt r1 r2 => nullable r1 || nullable r2
  | Star _ => true
  end.

Fixpoint deriv (c : ascii) (r : regex) : regex :=
  match r with
  | Empty => Empty
  | Epsilon => Empty
  | Class p => if p c then Epsilon else Empty
  | Seq r1 r2 =>
      if nullable r1 then Alt (Seq (deriv c r1) r2) (deriv c r2)
      else Seq (deriv c r1) r2
  | Alt r1 r2 => Alt (deriv c r1) (deriv c r2)
  | Star r1 => Seq (deriv c r1) (Star r1)
  end.

(** The whole of [s] is a word of [r]. *)
Fixpoint fullmatch (r : regex) (s : string) : bool :=
  match s with
  | EmptyString => nullable r
  | String c s' => fullmatch (deriv c r) s'
  end.

Definition Char (c : ascii) : regex := Class (Ascii.eqb c).
(** [r+] *)
Definition Plus (r : regex) : regex := Seq r (Star r).
(** [r{2,}] *)
Definition AtLeast2 (r : regex) : regex := Seq r (Seq r (Star r)).

(** [re.match('^' r '$', s)]: without [re.MULTILINE] the [$] matches at the
    end of the string and also just before a newline that ends it. *)
Definition match_anchored (r : regex) (s : string) : bool :=
  fullmatch r s || fullmatch (Seq r (Char "010"%char)) s.

End Regex.

(** ** DataValidator ([src/etl.py]) *)

Module DataValidator.
Import Regex.

(** [sum(int(digit) * (len(cpf_partial) + 1 - i) for i, digit in
    enumerate(cpf_partial))], from index [i] on. *)
Fixpoint cpf_total (len i : Z) (digits : string) : Z :=
  match digits with
  | EmptyString => 0
  | String digit rest => digit_value digit * (len + 1 - i) + cpf_total len (i + 1) rest
  end.

Definition cpf_calculate_digit (cpf_partial : string) : Z :=
  let total := cpf_total (strlen cpf_partial) 0 cpf_partial in
  let remainder := total mod 11 in
  if remainder <? 2 then 0 else 11 - remainder.

Definition validate_cpf (cpf : value) : result bool :=
  if negb (truthy cpf) then Ok false
  else match cpf with
  | VStr s =>
      let cpf := strip_non_digits s in
      if negb (strlen cpf =? 11) then Ok false
      else match cpf with
      | EmptyString => Raise IndexError
      | String c0 _ =>
          if String.eqb cpf (string_repeat c0 11) then Ok false
          else
            let first_digit := cpf_calculate_digit (prefix 9 cpf) in
            let second_digit := cpf_calculate_digit (prefix 10 cpf) in
            Ok (String.eqb (last_two cpf)
                  (str_of_int first_digit ++ str_of_int second_digit))
      end
  | _ => Raise TypeError
  end.

(** [sum(int(digit) * weight for digit, weight in zip(cnpj_partial,
    weights))]: [zip] stops at the shorter of the two. *)
Fixpoint cnpj_total (digits : string) (weights : list Z) : Z :=
  match digits, weights with
  | String digit rest, weight :: ws => digit_value digit * weight + cnpj_total rest ws
  | _, _ => 0
  end.

Definition cnpj_calculate_digit (cnpj_partial : string) (weights : list Z) : Z :=
  let total := cnpj_total cnpj_partial weights in
  let remainder := total mod 11 in
  if remainder <? 2 then 0 else 11 - remainder.

Definition weights1 : list Z := [5; 4; 3; 2; 9; 8; 7; 6; 5; 4; 3; 2].
Definition weights2 : list Z := [6; 7; 8; 9; 2; 3; 4; 5; 6; 7; 8; 9].

Definition validate_cnpj (cnpj : value) : result bool :=
  if negb (truthy cnpj) then Ok false
  else match cnpj with
  | VStr s =>
      let cnpj := strip_non_digits s in
      if negb (strlen cnpj =? 14) then Ok false
      else
        let first_digit := cnpj_calculate_digit (prefix 12 cnpj) weights1 in
        let second_digit := cnpj_calculate_digit (prefix 13 cnpj) weights2 in
        Ok (String.eqb (last_two cnpj)
              (str_of_int first_digit ++ str_of_int second_digit))
  | _ => Raise TypeError
  end.

Definition email_local (c : ascii) : bool :=
  is_alpha c || is_digit c ||
  bool_decide (c ∈ ["."; "_"; "%"; "+"; "-"]%char).

Definition email_domain (c : ascii) : bool :=
  is_alpha c || is_digit c || bool_decide (c ∈ ["."; "-"]%char).

(** [[a-zA-Z0-9._%+-]+@[a-zA-Z0-9.-]+\.[a-zA-Z]{2,}] *)
Definition email_pattern : regex :=
  Seq (Plus (Class email_local))
    (Seq (Char "@")
       (Seq (Plus (Class email_domain))
          (Seq (Char ".") (AtLeast2 (Class is_alpha))))).

Definition validate_email (email : value) : result bool :=
  if negb (truthy email) then Ok true
  else match email with
  | VStr s => Ok (match_anchored email_pattern s)
  | _ => Raise TypeError
  end.

Definition validate_date_range (start_date end_date : value) : result bool :=
  if negb (truthy end_date) then Ok true
  else py_le start_date end_date.

End DataValidator.


(** ** The national identifier as the specification words it

    The digits of the input with everything else stripped; a check digit is
    the weighted sum of the digits before it, the weights descending by one
    from the number of digits plus one down to 2, taken modulo 11, a
    remainder below 2 giving 0 and any other remainder giving 11 minus the
    remainder. *)

Module NationalIdSpec.

Definition digits_of (s : string) : list Z :=
  map digit_value (List.filter is_digit (list_ascii_of_string s)).

Fixpoint weighted_sum (weight : Z) (ds : list Z) : Z :=
  match ds with
  | [] => 0
  | d :: ds' => d * weight + weighted_sum (weight - 1) ds'
  end.

Definition check_digit (ds : list Z) : Z :=
  let remainder := weighted_sum (Z.of_nat (length ds) + 1) ds mod 11 in
  if remainder <? 2 then 0 else 11 - remainder.

Definition all_identical (ds : list Z) : Prop :=
  exists d, ds = replicate (length ds) d.

Definition valid (ds : list Z) : Prop :=
  length ds = 11%nat /\
  ~ all_identical ds /\
  ds !! 9%nat = Some (check_digit (take 9 ds)) /\
  ds !! 10%nat = Some (check_digit (take 10 ds)).

End NationalIdSpec.

(** ** [datetime.strptime] and [strftime]

    [strptime] turns the format into a regular expression, one group of
    alternatives per directive, takes the first match the backtracking
    search finds at the start of the string, and rejects the string when
    that match leaves characters over or the fields are not a calendar date
    or a time of day. *)

Module Strptime.

Inductive directive : Type :=
| Lit (c : ascii)
| Dir_d | Dir_m | Dir_Y | Dir_y | Dir_H | Dir_M | Dir_S.

(** The format string read left to right; [None] on a directive that does
    not exist (a [ValueError] in Python). *)
Fixpoint compile_format (fmt : string) : option (list directive) :=
  match fmt with
  | EmptyString => Some []
  | String "%" (String c rest) =>
      let dir :=
        if Ascii.eqb c "d" then Some Dir_d else
        if Ascii.eqb c "m" then Some Dir_m else
        if Ascii.eqb c "Y" then Some Dir_Y else
        if Ascii.eqb c "y" then Some Dir_y else
        if Ascii.eqb c "H" then Some Dir_H else
        if Ascii.eqb c "M" then Some Dir_M else
        if Ascii.eqb c "S" then Some Dir_S else
        if Ascii.eqb c "%" then Some (Lit "%") else None in
      match dir, compile_format rest with
      | Some d, Some ds => Some (d :: ds)
      | _, _ => None
      end
  | String c rest =>
      match compile_format rest with
      | Some ds => Some (Lit c :: ds)
      | None => None
      end
  end.

Definition between (lo hi : ascii) (c : ascii) : bool :=
  ((N_of_ascii lo <=? N_of_ascii c) && (N_of_ascii c <=? N_of_ascii hi))%N.

(** The alternatives of a directive, in the order the regular expression
    lists them; each is a sequence of character classes. *)
Definition alternatives (d : directive) : list (list (ascii -> bool)) :=
  match d with
  | Lit c => [[Ascii.eqb c]]
  | Dir_d => [ [Ascii.eqb "3"; between "0" "1"]; [between "1" "2"; is_digit];
               [Ascii.eqb "0"; between "1" "9"]; [between "1" "9"];
               [Ascii.eqb " "; between "1" "9"] ]
  | Dir_m => [ [Ascii.eqb "1"; between "0" "2"]; [Ascii.eqb "0"; between "1" "9"];
               [between "1" "9"] ]
  | Dir_Y => [ [is_digit; is_digit; is_digit; is_digit] ]
  | Dir_y => [ [is_digit; is_digit] ]
  | Dir_H => [ [Ascii.eqb "2"; between "0" "3"]; [between "0" "1"; is_digit];
               [is_digit] ]
  | Dir_M => [ [between "0" "5"; is_digit]; [is_digit] ]
  | Dir_S => [ [Ascii.eqb "6"; between "0" "1"]; [between "0" "5"; is_digit];
               [is_digit] ]
  end.

(** One alternative against the start of [s]: the text it captures and what
    is left. *)
Fixpoint match_classes (cs : list (ascii -> bool)) (s : string) : option (string * string) :=
  match cs with
  | [] => Some (EmptyString, s)
  | p :: cs' =>
      match s with
      | String c s' =>
          if p c then
            match match_classes cs' s' with
            | Some (cap, rest) => Some (String c cap, rest)
            | None => None
            end
          else None
      | EmptyString => None
      end
  end.

Definition candidates (d : directive) (s : string) : list (string * string) :=
  omap (fun cs => match_classes cs s) (alternatives d).

(** [int(text)] for a captured group: digits, after leading blanks. *)
Fixpoint int_of_digits (acc : Z) (text : string) : Z :=
  match text with
  | EmptyString => acc
  | String c rest =>
      if is_digit c then int_of_digits (10 * acc + digit_value c) rest
      else int_of_digits acc rest
  end.

(** The fields [_strptime] collects, with its defaults. *)
Record fields : Type := mkfields {
  f_year : Z; f_month : Z; f_day : Z;
  f_hour : Z; f_minute : Z; f_second : Z
}.

Definition default_fields : fields := mkfields 1900 1 1 0 0 0.

Definition set_field (d : directive) (text : string) (f : fields) : fields :=
  let n := int_of_digits 0 text in
  match d with
  | Lit _ => f
  | Dir_d => mkfields (f_year f) (f_month f) n (f_hour f) (f_minute f) (f_second f)
  | Dir_m => mkfields (f_year f) n (f_day f) (f_hour f) (f_minute f) (f_second f)
  | Dir_Y => mkfields n (f_month f) (f_day f) (f_hour f) (f_minute f) (f_second f)
  | Dir_y =>
      let y := if n <=? 68 then n + 2000 else n + 1900 in
      mkfields y (f_month f) (f_day f) (f_hour f) (f_minute f) (f_second f)
  | Dir_H => mkfields (f_year f) (f_month f) (f_day f) n (f_minute f) (f_second f)
  | Dir_M => mkfields (f_year f) (f_month f) (f_day f) (f_hour f) n (f_second f)
  | Dir_S => mkfields (f_year f) (f_month f) (f_day f) (f_hour f) (f_minute f) n
  end.

(** The first success of [k] over the candidates, in order. *)
Fixpoint first_match {A B : Type} (k : A -> option B) (l : list A) : option B :=
  match l with
  | [] => None
  | a :: l' => match k a with Some b => Some b | None => first_match k l' end
  end.

(** [format_regex.match(data_string)]: the fields and the unmatched rest of
    the first match in backtracking order. *)
Fixpoint regex_match (fmt : list directive) (s : string) (f : fields) : option (fields * string) :=
  match fmt with
  | [] => Some (f, s)
  | d :: fmt' =>
      first_match
        (fun cand : string * string =>
           regex_match fmt' (snd cand) (set_field d (fst cand) f))
        (candidates d s)
  end.

Definition valid_time (t : time) : bool :=
  (0 <=? hour t) && (hour t <=? 23) && (0 <=? minute t) && (minute t <=? 59) &&
  (0 <=? second t) && (second t <=? 59).

(** [datetime.strptime(data_string, fmt)] as its date and its time of day. *)
Definition strptime (data_string fmt : string) : result (date * time) :=
  match compile_format fmt with
  | None => Raise ValueError
  | Some ds =>
      match regex_match ds data_string default_fields with
      | None => Raise ValueError
      | Some (f, rest) =>
          if negb (String.eqb rest "") then Raise ValueError
          else
            let d := mkdate (f_year f) (f_month f) (f_day f) in
            let t := mktime (f_hour f) (f_minute f) (f_second f) in
            if valid_date d && valid_time t then Ok (d, t) else Raise ValueError
      end
  end.

(** Zero-padded decimal fields. *)
Definition pad2 (n : Z) : string :=
  String (digit_char (n / 10 mod 10)) (String (digit_char (n mod 10)) EmptyString).

Definition pad4 (n : Z) : string :=
  String (digit_char (n / 1000 mod 10)) (String (digit_char (n / 100 mod 10)) (pad2 n)).

Definition format_directive (d : directive) (x : date) : string :=
  match d with
  | Lit c => String c EmptyString
  | Dir_d => pad2 (day x)
  | Dir_m => pad2 (month x)
  | Dir_Y => pad4 (year x)
  | Dir_y => pad2 (year x mod 100)
  | Dir_H | Dir_M | Dir_S => "00"
  end.

(** [x.strftime(fmt)] for a date: every field zero-padded to its width, the
    year to four digits. *)
Definition strftime (x : date) (fmt : string) : string :=
  match compile_format fmt with
  | Some ds => String.concat "" (map (fun d => format_directive d x) ds)
  | None => EmptyString
  end.

(** What [strftime] prints for the formats of dates: day, month and year
    around a separator, year first or last, with no separator, and with a
    two-digit year. *)
Definition shape_dmY (d : date) (sep : ascii) : string :=
  pad2 (day d) ++ String sep (pad2 (month d) ++ String sep (pad4 (year d))).

Definition shape_Ymd (d : date) (sep : ascii) : string :=
  pad4 (year d) ++ String sep (pad2 (month d) ++ String sep (pad2 (day d))).

Definition shape_compact (d : date) : string :=
  pad4 (year d) ++ (pad2 (month d) ++ pad2 (day d)).

Definition shape_dmy (d : date) : string :=
  pad2 (day d) ++ String "/" (pad2 (month d) ++ String "/" (pad2 (year d mod 100))).

End Strptime.

(** ** DataTransformer ([src/etl.py]) *)

Module DataTransformer.
Import Strptime.

Definition SEXO_MAP : gmap Z string :=
  list_to_map [(1, "MASCULINO"); (2, "FEMININO")].

Definition ESTADO_CIVIL_MAP : gmap Z string :=
  list_to_map [(1, "SOLTEIRO(A)"); (2, "CASADO(A)"); (3, "SEPARADO(A)");
               (4, "DESQUITADO(A)"); (5, "VIUVO(A)"); (6, "OUTROS");
               (7, "DIVORCIADO(A)")].

Definition TIPO_ATESTADO_MAP : gmap Z string :=
  list_to_map [(1, "MEDICO"); (2, "ODONTOLOGICO"); (3, "ACIDENTE_TRABALHO");
               (4, "OUTROS")].

(** [clean_cpf], [clean_cnpj] and [clean_phone] share one body. *)
Definition clean_digits (v : value) : result value :=
  if negb (truthy v) then Ok VNone
  else match v with
  | VStr s => Ok (VStr (strip_non_digits s))
  | _ => Raise TypeError
  end.

Definition clean_cpf : value -> result value := clean_digits.
Definition clean_phone : value -> result value := clean_digits.

Fixpoint lstrip (s : string) : string :=
  match s with
  | String c s' => if is_space c then lstrip s' else s
  | EmptyString => EmptyString
  end.

Fixpoint rstrip (s : string) : string :=
  match s with
  | String c s' =>
      let r := rstrip s' in
      if is_space c && String.eqb r "" then EmptyString else String c r
  | EmptyString => EmptyString
  end.

(** [s.strip()] *)
Definition strip (s : string) : string := rstrip (lstrip s).

Definition date_formats : list string :=
  ["%d/%m/%Y"; "%Y-%m-%d"; "%d-%m-%Y"; "%Y%m%d"; "%d/%m/%y"; "%Y/%m/%d"].

(** The loop over the formats: a [ValueError] moves on to the next one. *)
Fixpoint try_formats {A : Type} (proj : date * time -> A) (s : string)
    (formats : list string) : option A :=
  match formats with
  | [] => None
  | fmt :: rest =>
      match strptime s fmt with
      | Ok dt => Some (proj dt)
      | Raise _ => try_formats proj s rest
      end
  end.

Definition parse_date (date_value : value) : option date :=
  if isna date_value || bool_decide (date_value = VStr "") then None
  else match date_value with
  | VDate d => Some d
  | VStr s => try_formats fst (strip s) date_formats
  | _ => None
  end.

Definition time_formats : list string := ["%H:%M"; "%H%M"; "%H:%M:%S"].

Definition parse_time (time_value : value) : option time :=
  if isna time_value || bool_decide (time_value = VStr "") then None
  else match time_value with
  | VTime t => Some t
  | VStr s => try_formats snd (strip s) time_formats
  | _ => None
  end.

(** An optional date as a cell. *)
Definition date_cell (o : option date) : value :=
  match o with Some d => VDate d | None => VNone end.

Definition time_cell (o : option time) : value :=
  match o with Some t => VTime t | None => VNone end.

(** [calculate_age(birth_date, reference_date)]; [today] is what
    [date.today()] returns. The result is [None] or an integer. *)
Definition calculate_age (today : date) (birth_date reference_date : value) : result (option Z) :=
  if negb (truthy birth_date) then Ok None
  else
    let reference_date := if negb (truthy reference_date) then VDate today else reference_date in
    match reference_date, birth_date with
    | VDate r, VDate b =>
        let age := year r - year b in
        if (month r <? month b) || ((month r =? month b) && (day r <? day b))
        then Ok (Some (age - 1)) else Ok (Some age)
    | _, _ => Raise AttributeError
    end.

(** The number of Mondays to Fridays among [n] consecutive days from the
    ordinal [o]. *)
Fixpoint count_business_days (n : nat) (o : Z) : Z :=
  match n with
  | O => 0
  | S n' => (if (o + 6) mod 7 <? 5 then 1 else 0) + count_business_days n' (o + 1)
  end.

(** [calculate_work_days]: [pd.bdate_range(start_date, end_date).size]. *)
Definition calculate_work_days (start_date end_date : value) : result Z :=
  if negb (truthy start_date) || negb (truthy end_date) then Ok 0
  else match start_date, end_date with
  | VDate s, VDate e =>
      Ok (count_business_days (Z.to_nat (toordinal e - toordinal s + 1)) (toordinal s))
  | _, _ => Raise TypeError
  end.

End DataTransformer.


(** ** DataFrames

    A frame is its column labels and its rows in order, each row with its
    index label and its cells by column. A missing cell reads as [nan]. *)

Module Pandas.

Record DataFrame : Type := mkframe {
  columns : list string;
  records : list (Z * gmap string value)
}.

(** [len(df)] *)
Definition frame_len (df : DataFrame) : nat := length (records df).

(** [col in df.columns] *)
Definition has_column (df : DataFrame) (col : string) : bool :=
  bool_decide (col ∈ columns df).

(** [row[col]] *)
Definition row_item (row : gmap string value) (col : string) : result value :=
  match row !! col with
  | Some v => Ok v
  | None => Raise (KeyError col)
  end.

(** [row.get(col, default)] *)
Definition row_get (row : gmap string value) (col : string) (dflt : value) : value :=
  default dflt (row !! col).

(** [df[col] = df[col].apply(f)] *)
Definition apply_column (f : value -> result value) (col : string) (df : DataFrame) : result DataFrame :=
  if has_column df col then
    rows ← mapM (fun ir : Z * gmap string value =>
                   v ← f (row_get ir.2 col VNaN);
                   Ok (ir.1, <[col := v]> ir.2)) (records df);
    Ok (mkframe (columns df) rows)
  else Raise (KeyError col).

(** [df[col] = df.apply(f, axis=1)]: a column computed row by row, added at
    the right when it is new. *)
Definition assign_column (col : string) (f : gmap string value -> result value)
    (df : DataFrame) : result DataFrame :=
  rows ← mapM (fun ir : Z * gmap string value =>
                 v ← f ir.2; Ok (ir.1, <[col := v]> ir.2)) (records df);
  Ok (mkframe (if has_column df col then columns df else columns df ++ [col]) rows).

(** [df[dst] = df[src].apply(f)], and likewise for [.map], a comparison or
    [pd.cut] of the column [src]: a [KeyError] when [src] is not a column. *)
Definition map_column (src dst : string) (f : value -> result value)
    (df : DataFrame) : result DataFrame :=
  if has_column df src
  then assign_column dst (fun row => f (row_get row src VNaN)) df
  else Raise (KeyError src).

(** [df.rename(columns=mapping)]: labels outside the mapping stay. *)
Definition rename_label (mapping : list (string * string)) (col : string) : string :=
  match list_find (fun kv : string * string => kv.1 = col) mapping with
  | Some (_, kv) => kv.2
  | None => col
  end.

Definition rename_row (mapping : list (string * string)) (row : gmap string value)
    : gmap string value :=
  list_to_map (map (fun kv : string * value => (rename_label mapping kv.1, kv.2))
                 (map_to_list row)).

Definition rename (mapping : list (string * string)) (df : DataFrame) : DataFrame :=
  mkframe (map (rename_label mapping) (columns df))
          (map (fun ir : Z * gmap string value => (ir.1, rename_row mapping ir.2))
               (records df)).

(** [df.dropna(subset=cols)]: the rows with no missing cell among [cols];
    a label that is not a column is a [KeyError]. *)
Definition dropna (subset : list string) (df : DataFrame) : result DataFrame :=
  match list_find (fun col => has_column df col = false) subset with
  | Some (_, col) => Raise (KeyError col)
  | None =>
      Ok (mkframe (columns df)
            (List.filter (fun ir : Z * gmap string value =>
                            forallb (fun col => negb (isna (row_get ir.2 col VNaN))) subset)
                         (records df)))
  end.

(** [series.map(mapping)] on one cell: a key outside the mapping is [nan]. *)
Definition map_cell (mapping : gmap Z string) (v : value) : value :=
  let key :=
    match v with
    | VInt n => Some n
    | VBool b => Some (if b then 1 else 0)
    | VFloat q => if (Zpos (Qden q) =? 1) then Some (Qnum q) else None
    | _ => None
    end in
  match key ≫= (fun n => mapping !! n) with
  | Some label => VStr label
  | None => VNaN
  end.

(** The bins [(lo, e1], (e1, e2], ...] to the right of the first edge; the
    last label's bin reaches infinity. *)
Fixpoint cut_right (edges : list Z) (labels : list string) (x : Q) : value :=
  match labels with
  | [] => VNaN
  | label :: labels' =>
      match edges with
      | [] => VStr label
      | hi :: edges' =>
          if Qle_bool x (inject_Z hi) then VStr label else cut_right edges' labels' x
      end
  end.

(** [pd.cut(x, bins=[lowest] + edges + [inf], labels=labels,
    include_lowest=True)] on one cell. *)
Definition cut (lowest : Z) (edges : list Z) (labels : list string) (v : value) : result value :=
  match as_number v with
  | Some (Some x) =>
      if Qle_bool (inject_Z lowest) x then Ok (cut_right edges labels x) else Ok VNaN
  | Some None => Ok VNaN
  | None => if isna v then Ok VNaN else Raise TypeError
  end.

(** Two frames with the same rows in the same order, a row of the second
    agreeing with its row of the first on every column outside [cols]. *)
Definition same_rows_outside (cols : list string)
    (before after : list (Z * gmap string value)) : Prop :=
  Forall2 (fun ir ir' : Z * gmap string value =>
             ir'.1 = ir.1 /\ forall col, col ∉ cols -> ir'.2 !! col = ir.2 !! col)
          before after.

(** An optional integer as a cell of a numeric column. *)
Definition int_cell (o : option Z) : value :=
  match o with Some n => VInt n | None => VNaN end.

End Pandas.

(** An entry of the error list an ETL returns: the row's index label, the
    message and the offending values. *)
Record etl_error : Type := mkerror {
  err_row : Z;
  err_error : string;
  err_data : list (string * value)
}.

(** The error list holds an entry for the row [idx] with the message
    [message]. *)
Definition recorded (errors : list etl_error) (idx : Z) (message : string) : Prop :=
  exists e, e ∈ errors /\ err_row e = idx /\ err_error e = message.

(** ** AbsenteismoETL ([src/etl.py]) *)

Module AbsenteismoETL.
Import Pandas DataValidator DataTransformer.

Definition column_mapping : list (string * string) :=
  [("UNIDADE", "unidade"); ("SETOR", "setor");
   ("MATRICULA_FUNC", "matricula_funcionario");
   ("DT_NASCIMENTO", "data_nascimento"); ("SEXO", "sexo");
   ("TIPO_ATESTADO", "tipo_atestado");
   ("DT_INICIO_ATESTADO", "data_inicio_atestado");
   ("DT_FIM_ATESTADO", "data_fim_atestado");
   ("HORA_INICIO_ATESTADO", "hora_inicio_atestado");
   ("HORA_FIM_ATESTADO", "hora_fim_atestado");
   ("DIAS_AFASTADOS", "dias_afastados"); ("HORAS_AFASTADO", "horas_afastado");
   ("CID_PRINCIPAL", "cid_principal"); ("DESCRICAO_CID", "descricao_cid");
   ("GRUPO_PATOLOGICO", "grupo_patologico"); ("TIPO_LICENCA", "tipo_licenca")].

(** [for col in cols: if col in df.columns: df[col] = df[col].apply(f)] *)
Fixpoint apply_present (f : value -> result value) (cols : list string)
    (df : DataFrame) : result DataFrame :=
  match cols with
  | [] => Ok df
  | col :: rest =>
      df' ← (if has_column df col then apply_column f col df else Ok df);
      apply_present f rest df'
  end.

(** The body of the validation loop for one row: the errors it appends. *)
Definition validate_row (ir : Z * gmap string value) : result (list etl_error) :=
  let '(idx, row) := ir in
  range_ok ← validate_date_range (row_get row "data_inicio_atestado" VNone)
                                 (row_get row "data_fim_atestado" VNone);
  negative ← py_lt (row_get row "dias_afastados" (VInt 0)) (VInt 0);
  Ok ((if negb range_ok
       then [mkerror idx "Data fim anterior à data início" (map_to_list row)]
       else []) ++
      (if (negative : bool)
       then [mkerror idx "Dias afastados negativo" (map_to_list row)]
       else [])).

(** [a or b] *)
Definition py_or (a b : value) : value := if truthy a then a else b.

Definition fill_missing_days (row : gmap string value) : result value :=
  dias ← row_item row "dias_afastados";
  if isna dias then
    inicio ← row_item row "data_inicio_atestado";
    fim ← row_item row "data_fim_atestado";
    n ← calculate_work_days inicio (py_or fim inicio);
    Ok (VInt n)
  else Ok dias.

Definition calculate_derived_metrics (today : date) (data : DataFrame) : result DataFrame :=
  data ← (if has_column data "dias_afastados"
          then assign_column "dias_afastados" fill_missing_days data
          else Raise (KeyError "dias_afastados"));
  data ← map_column "sexo" "sexo_desc" (fun v => Ok (map_cell SEXO_MAP v)) data;
  data ← map_column "tipo_atestado" "tipo_atestado_desc"
           (fun v => Ok (map_cell TIPO_ATESTADO_MAP v)) data;
  data ← assign_column "idade_na_data_inicio"
           (fun row =>
              nascimento ← row_item row "data_nascimento";
              inicio ← row_item row "data_inicio_atestado";
              int_cell <$> calculate_age today nascimento inicio) data;
  map_column "dias_afastados" "categoria_afastamento"
    (cut 0 [1; 3; 7; 15; 30]
       ["1 dia"; "2-3 dias"; "4-7 dias"; "8-15 dias"; "16-30 dias"; ">30 dias"]) data.

(** The columns [calculate_derived_metrics] adds to those it is given. *)
Definition new_columns : list string :=
  ["sexo_desc"; "tipo_atestado_desc"; "idade_na_data_inicio";
   "categoria_afastamento"].

(** The statements of [process_raw_data] before its validation loop: the
    columns renamed, the dates and the times parsed. *)
Definition parse_columns (raw_data : DataFrame) : result DataFrame :=
  let processed_data := rename column_mapping raw_data in
  processed_data ← apply_present (fun v => Ok (date_cell (parse_date v)))
      ["data_nascimento"; "data_inicio_atestado"; "data_fim_atestado"] processed_data;
  apply_present (fun v => Ok (time_cell (parse_time v)))
      ["hora_inicio_atestado"; "hora_fim_atestado"] processed_data.

(** The rows [dropna] keeps: start date, sex and certificate type present. *)
Definition critical_columns : list string :=
  ["data_inicio_atestado"; "sexo"; "tipo_atestado"].

Definition process_raw_data (today : date) (raw_data : DataFrame)
    : result (DataFrame * list etl_error) :=
  processed_data ← parse_columns raw_data;
  errors ← mapM validate_row (records processed_data);
  valid_rows ← dropna critical_columns processed_data;
  valid_rows ← calculate_derived_metrics today valid_rows;
  Ok (valid_rows, concat errors).

End AbsenteismoETL.


(** ** FuncionarioETL ([src/etl.py]) *)

Module FuncionarioETL.
Import Pandas DataValidator DataTransformer.

(** The body of the validation loop for one row: the errors it appends. *)
Definition validate_row (ir : Z * gmap string value) : result (list etl_error) :=
  let '(idx, row) := ir in
  cpf ← row_item row "CPF";
  bad_cpf ← (if truthy cpf then negb <$> validate_cpf cpf else Ok false);
  bad_email ← (if truthy (row_get row "EMAIL" VNone)
               then email ← row_item row "EMAIL"; negb <$> validate_email email
               else Ok false);
  range_ok ← validate_date_range (row_get row "DATA_ADMISSAO" VNone)
                                 (row_get row "DATA_DEMISSAO" VNone);
  Ok ((if (bad_cpf : bool)
       then [mkerror idx "CPF inválido" [("cpf", cpf)]] else []) ++
      (if (bad_email : bool)
       then [mkerror idx "Email inválido" [("email", row_get row "EMAIL" VNone)]]
       else []) ++
      (if negb range_ok
       then [mkerror idx "Data demissão anterior à data admissão"
               [("admissao", row_get row "DATA_ADMISSAO" VNone);
                ("demissao", row_get row "DATA_DEMISSAO" VNone)]]
       else [])).

(** [(end_date - admission_date).days / 365.25], as the exact quotient. *)
Definition calculate_tenure (today : date) (admission_date termination_date : value)
    : result value :=
  if negb (truthy admission_date) then Ok VNaN
  else
    let end_date := if truthy termination_date then termination_date else VDate today in
    match end_date, admission_date with
    | VDate e, VDate a => Ok (VFloat (Qmake (4 * days_between e a) 1461))
    | _, _ => Raise TypeError
    end.

Definition calculate_derived_metrics (today : date) (data : DataFrame) : result DataFrame :=
  data ← map_column "DATA_NASCIMENTO" "idade_atual"
           (fun birth_date =>
              if truthy birth_date
              then int_cell <$> calculate_age today birth_date VNone
              else Ok VNaN) data;
  data ← assign_column "tempo_empresa"
           (fun row =>
              admissao ← row_item row "DATA_ADMISSAO";
              demissao ← row_item row "DATA_DEMISSAO";
              calculate_tenure today admissao demissao) data;
  data ← map_column "SEXO" "sexo_desc" (fun v => Ok (map_cell SEXO_MAP v)) data;
  data ← map_column "ESTADOCIVIL" "estado_civil_desc"
           (fun v => Ok (map_cell ESTADO_CIVIL_MAP v)) data;
  data ← map_column "idade_atual" "faixa_etaria"
           (cut 0 [25; 35; 45; 55; 65]
              ["<25"; "25-34"; "35-44"; "45-54"; "55-64"; "65+"]) data;
  map_column "DATA_DEMISSAO" "status_ativo" (fun v => Ok (VBool (isna v))) data.

(** The columns [calculate_derived_metrics] adds. *)
Definition new_columns : list string :=
  ["idade_atual"; "tempo_empresa"; "sexo_desc"; "estado_civil_desc";
   "faixa_etaria"; "status_ativo"].

Definition process_raw_data (today : date) (raw_data : DataFrame)
    : result (DataFrame * list etl_error) :=
  processed_data ← apply_column clean_cpf "CPF" raw_data;
  processed_data ← apply_column clean_phone "TELEFONECELULAR" processed_data;
  processed_data ← apply_column clean_phone "TELEFONERESIDENCIAL" processed_data;
  processed_data ← AbsenteismoETL.apply_present (fun v => Ok (date_cell (parse_date v)))
      ["DATA_NASCIMENTO"; "DATA_ADMISSAO"; "DATA_DEMISSAO"; "DATAULTALTERACAO"]
      processed_data;
  errors ← mapM validate_row (records processed_data);
  processed_data ← calculate_derived_metrics today processed_data;
  Ok (processed_data, concat errors).

End FuncionarioETL.

(** ** VencimentoETL ([src/etl.py]) *)

Module VencimentoETL.
Import Pandas DataTransformer.

(** [(venc_date - today).days if venc_date else None] *)
Definition dias_para_vencimento (today : date) (venc_date : value) : result (option Z) :=
  if truthy venc_date then
    match venc_date with
    | VDate d => Ok (Some (days_between d today))
    | _ => Raise TypeError
    end
  else Ok None.

(** [dias < 0] *)
Definition vencido (dias : value) : result bool := py_lt dias (VInt 0).

(** [(dias >= 0) & (dias <= 30)] *)
Definition critico (dias : value) : result bool :=
  ge0 ← py_le (VInt 0) dias;
  le30 ← py_le dias (VInt 30);
  Ok (ge0 && le30).

(** [(dias > 30) & (dias <= 60)] *)
Definition alerta (dias : value) : result bool :=
  gt30 ← py_lt (VInt 30) dias;
  le60 ← py_le dias (VInt 60);
  Ok (gt30 && le60).

Definition categorize_status (days : value) : result string :=
  if isna days then Ok "SEM_DATA"
  else
    lt0 ← py_lt days (VInt 0);
    if (lt0 : bool) then Ok "VENCIDO"
    else
      le15 ← py_le days (VInt 15);
      if (le15 : bool) then Ok "CRITICO"
      else
        le30 ← py_le days (VInt 30);
        if (le30 : bool) then Ok "ATENCAO"
        else
          le60 ← py_le days (VInt 60);
          if (le60 : bool) then Ok "ALERTA" else Ok "OK".

Definition calculate_vencimento_metrics (today : date) (data : DataFrame) : result DataFrame :=
  data ← map_column "dataVencimento" "dias_para_vencimento"
           (fun venc_date => int_cell <$> dias_para_vencimento today venc_date) data;
  data ← map_column "dias_para_vencimento" "vencido"
           (fun dias => VBool <$> vencido dias) data;
  data ← map_column "dias_para_vencimento" "critico"
           (fun dias => VBool <$> critico dias) data;
  data ← map_column "dias_para_vencimento" "alerta"
           (fun dias => VBool <$> alerta dias) data;
  map_column "dias_para_vencimento" "status_vencimento"
    (fun dias => VStr <$> categorize_status dias) data.

Definition process_raw_data (today : date) (raw_data : DataFrame)
    : result (DataFrame * list etl_error) :=
  processed_data ← AbsenteismoETL.apply_present (fun v => Ok (date_cell (parse_date v)))
      ["dataVencimento"; "dataRealizacaoUltimoServicoRealizado";
       "dataPrevisaoUltimoServicoRealizado"] raw_data;
  processed_data ← calculate_vencimento_metrics today processed_data;
  Ok (processed_data, []).

End VencimentoETL.


(** ** The schema ([src/sqlalchemy_models.py])

    Each table is the list of its rows in insertion order. A surrogate key
    is [None] on an object that has not been inserted; the insert assigns
    the next value of the table's counter. Timestamps are abstract
    integers. Columns hold cells, stored and compared as the loaders give
    them, which is what an engine does with a cell of the column's type
    ([ColumnTypes] below); [VNone] is SQL's NULL. *)

Module Schema.

Record DimEmpresa : Type := mkDimEmpresa {
  sk_empresa : option Z;
  emp_codigo_empresa : value;
  nome_empresa : value;
  cnpj : value;
  emp_situacao : value;
  emp_data_carga : Z
}.

Record DimTempo : Type := mkDimTempo {
  sk_tempo : option Z;
  data_completa : date;
  ano : Z;
  trimestre : Z;
  mes : Z;
  dia : Z;
  dia_semana : Z;
  semana_ano : Z;
  nome_mes : string;
  nome_dia_semana : string;
  eh_feriado : bool;
  eh_final_semana : bool;
  tempo_data_carga : option Z
}.

(** The employee dimension. The columns that are NOT NULL, the ones the
    absence lookup reads and the validity columns are fields; the other
    nullable descriptive columns are kept by name in [atributos]. *)
Record DimFuncionario : Type := mkDimFuncionario {
  sk_funcionario : option Z;
  codigo_funcionario : value;
  codigo_empresa : value;
  nome : value;
  cpf : value;
  data_nascimento : option date;
  sexo : value;
  matricula_funcionario : value;
  situacao : value;
  data_admissao : option date;
  data_demissao : option date;
  nome_unidade : value;
  nome_setor : value;
  deficiente : bool;
  data_ultima_alteracao : option date;
  atributos : list (string * value);
  data_inicio_validade : option Z;
  data_fim_validade : option Z;
  registro_ativo : option bool;
  func_data_carga : option Z
}.

Record FatoAbsenteismo : Type := mkFatoAbsenteismo {
  sk_absenteismo : option Z;
  fato_sk_funcionario : option Z;
  sk_tempo_inicio : option Z;
  sk_tempo_fim : option Z;
  fato_codigo_empresa : value;
  unidade : value;
  setor : value;
  fato_data_nascimento : option date;
  fato_sexo : value;
  fato_matricula_funcionario : value;
  tipo_atestado : value;
  data_inicio_atestado : option date;
  data_fim_atestado : option date;
  hora_inicio_atestado : value;
  hora_fim_atestado : value;
  dias_afastados : value;
  horas_afastado : value;
  cid_principal : value;
  descricao_cid : value;
  grupo_patologico : value;
  tipo_licenca : value;
  fato_data_carga : option Z
}.

Record database : Type := mkdatabase {
  dim_empresa : list DimEmpresa;
  dim_tempo : list DimTempo;
  dim_funcionario : list DimFuncionario;
  fato_absenteismo : list FatoAbsenteismo
}.

Definition empty_database : database := mkdatabase [] [] [] [].

(** The next value of an AUTO_INCREMENT counter of a table of [n] rows,
    for the [i]-th object of an insert. *)
Definition next_key (n i : nat) : Z := Z.of_nat n + Z.of_nat i + 1.

Definition not_null (v : value) : bool := negb (bool_decide (v = VNone)).

Global Instance DimTempo_eq_dec : EqDecision DimTempo.
Proof. solve_decision. Defined.

(** *** dim_empresa: [codigo_empresa] is unique and NOT NULL, [nome_empresa]
    is NOT NULL. *)
Definition insert_empresa (now : Z) (db : database) (n : nat) (e : DimEmpresa) : DimEmpresa :=
  mkDimEmpresa (Some (next_key (length (dim_empresa db)) n))
    (emp_codigo_empresa e) (nome_empresa e) (cnpj e) (emp_situacao e) now.

Definition add_all_empresas (now : Z) (db : database) (objs : list DimEmpresa) : result database :=
  let rows := imap (insert_empresa now db) objs in
  let all_rows := dim_empresa db ++ rows in
  if negb (forallb (fun e => not_null (emp_codigo_empresa e) && not_null (nome_empresa e)) rows)
  then Raise (IntegrityError "dim_empresa: NOT NULL")
  else if negb (bool_decide (NoDup (map emp_codigo_empresa all_rows)))
  then Raise (IntegrityError "dim_empresa.codigo_empresa: UNIQUE")
  else Ok (mkdatabase all_rows (dim_tempo db) (dim_funcionario db) (fato_absenteismo db)).

(** *** dim_tempo: [data_completa] is unique; the other columns are set by
    the loader. *)
Definition insert_tempo (now : Z) (db : database) (n : nat) (t : DimTempo) : DimTempo :=
  mkDimTempo (Some (next_key (length (dim_tempo db)) n))
    (data_completa t) (ano t) (trimestre t) (mes t) (dia t) (dia_semana t)
    (semana_ano t) (nome_mes t) (nome_dia_semana t) (eh_feriado t)
    (eh_final_semana t) (Some now).

Definition add_all_tempo (now : Z) (db : database) (objs : list DimTempo) : result database :=
  let rows := imap (insert_tempo now db) objs in
  let all_rows := dim_tempo db ++ rows in
  if negb (bool_decide (NoDup (map data_completa all_rows)))
  then Raise (IntegrityError "dim_tempo.data_completa: UNIQUE")
  else Ok (mkdatabase (dim_empresa db) all_rows (dim_funcionario db) (fato_absenteismo db)).

(** *** dim_funcionario: the defaults of the validity columns are applied
    to what the object leaves unset; NOT NULL columns; [codigo_empresa]
    references [dim_empresa.codigo_empresa]. No uniqueness is declared on
    the natural key. *)
Definition insert_funcionario (now : Z) (db : database) (n : nat) (f : DimFuncionario)
    : DimFuncionario :=
  mkDimFuncionario (Some (next_key (length (dim_funcionario db)) n))
    (codigo_funcionario f) (codigo_empresa f) (nome f) (cpf f)
    (data_nascimento f) (sexo f) (matricula_funcionario f) (situacao f)
    (data_admissao f) (data_demissao f) (nome_unidade f) (nome_setor f)
    (deficiente f) (data_ultima_alteracao f) (atributos f)
    (Some (default now (data_inicio_validade f)))
    (data_fim_validade f)
    (Some (default true (registro_ativo f)))
    (Some (default now (func_data_carga f))).

Definition funcionario_not_null (f : DimFuncionario) : bool :=
  not_null (codigo_funcionario f) && not_null (codigo_empresa f) &&
  not_null (nome f) && not_null (cpf f) && bool_decide (is_Some (data_nascimento f)) &&
  not_null (sexo f) && not_null (matricula_funcionario f) &&
  not_null (situacao f) && bool_decide (is_Some (data_admissao f)).

Definition add_all_funcionarios (now : Z) (db : database) (objs : list DimFuncionario)
    : result database :=
  let rows := imap (insert_funcionario now db) objs in
  if negb (forallb funcionario_not_null rows)
  then Raise (IntegrityError "dim_funcionario: NOT NULL")
  else if negb (forallb (fun f => bool_decide
                           (codigo_empresa f ∈ map emp_codigo_empresa (dim_empresa db))) rows)
  then Raise (IntegrityError "dim_funcionario.codigo_empresa: FOREIGN KEY")
  else Ok (mkdatabase (dim_empresa db) (dim_tempo db) (dim_funcionario db ++ rows)
             (fato_absenteismo db)).

(** *** fato_absenteismo: NOT NULL columns; the foreign keys come from rows
    read in the same transaction. *)
Definition insert_absenteismo (now : Z) (db : database) (n : nat) (a : FatoAbsenteismo)
    : FatoAbsenteismo :=
  mkFatoAbsenteismo (Some (next_key (length (fato_absenteismo db)) n))
    (fato_sk_funcionario a) (sk_tempo_inicio a) (sk_tempo_fim a)
    (fato_codigo_empresa a) (unidade a) (setor a) (fato_data_nascimento a)
    (fato_sexo a) (fato_matricula_funcionario a) (tipo_atestado a)
    (data_inicio_atestado a) (data_fim_atestado a) (hora_inicio_atestado a)
    (hora_fim_atestado a) (dias_afastados a) (horas_afastado a)
    (cid_principal a) (descricao_cid a) (grupo_patologico a) (tipo_licenca a)
    (Some now).

Definition absenteismo_not_null (a : FatoAbsenteismo) : bool :=
  bool_decide (is_Some (fato_sk_funcionario a)) &&
  bool_decide (is_Some (sk_tempo_inicio a)) &&
  not_null (fato_codigo_empresa a) &&
  bool_decide (is_Some (fato_data_nascimento a)) &&
  not_null (fato_sexo a) && not_null (tipo_atestado a) &&
  bool_decide (is_Some (data_inicio_atestado a)).

Definition add_all_absenteismo (now : Z) (db : database) (objs : list FatoAbsenteismo)
    : result database :=
  let rows := imap (insert_absenteismo now db) objs in
  if negb (forallb absenteismo_not_null rows)
  then Raise (IntegrityError "fato_absenteismo: NOT NULL")
  else Ok (mkdatabase (dim_empresa db) (dim_tempo db) (dim_funcionario db)
             (fato_absenteismo db ++ rows)).

End Schema.


(** ** DataLoader ([src/db.py]) *)

Module DataLoader.
Import Schema Strptime.

Inductive log_entry : Type :=
| LogInfo (message : string) (count : nat)
| LogWarning (message : string) (row : gmap string value)
| LogError (message : string) (e : exn).

(** What a loader leaves behind: what it returned or raised, the database
    and the lines it logged. *)
Record outcome : Type := mkoutcome {
  returned : result unit;
  db_after : database;
  logged : list log_entry
}.

(** [with session: try: ... commit() except Exception: rollback(); raise]:
    the body's rows are committed by [add_all]; whatever is raised rolls the
    session back, is logged and raised again. *)
Definition transaction {A : Type} (db : database)
    (body : result (list A) * list log_entry)
    (add_all : database -> list A -> result database)
    (done failed : string) : outcome :=
  match body.1 ≫= (fun objs => db' ← add_all db objs; Ok (db', length objs)) with
  | Ok (db', n) => mkoutcome (Ok tt) db' (body.2 ++ [LogInfo done n])
  | Raise e => mkoutcome (Raise e) db (body.2 ++ [LogError failed e])
  end.

(** [d[key]] *)
Definition item (d : gmap string value) (key : string) : result value :=
  match d !! key with
  | Some v => Ok v
  | None => Raise (KeyError key)
  end.

(** [d.get(key, default)]; [d.get(key)] is [get d key VNone]. *)
Definition get (d : gmap string value) (key : string) (dflt : value) : value :=
  default dflt (d !! key).

Fixpoint try_strptime (s : string) (formats : list string) : option date :=
  match formats with
  | [] => None
  | fmt :: rest =>
      match strptime s fmt with
      | Ok dt => Some dt.1
      | Raise _ => try_strptime s rest
      end
  end.

(** [DataLoader._parse_date] *)
Definition _parse_date (date_str : value) : option date :=
  if negb (truthy date_str) || bool_decide (date_str = VStr "") then None
  else match date_str with
  | VDate d => Some d
  | VStr s => try_strptime s ["%Y-%m-%d"; "%d/%m/%Y"; "%Y%m%d"]
  | _ => None
  end.

(** *** load_dim_tempo *)

Definition tempo_record (current_date : date) : DimTempo :=
  let weekday := weekday current_date + 1 in
  let is_weekend := bool_decide (weekday ∈ [6; 7]) in
  mkDimTempo None current_date (year current_date)
    ((month current_date - 1) / 3 + 1) (month current_date) (day current_date)
    weekday (isoweek current_date) (month_name (month current_date))
    (weekday_name (Calendar.weekday current_date)) false is_weekend None.

(** The step at the end of the loop body. *)
Definition next_date (current_date : date) : result date :=
  if day current_date <? 28 then replace_day current_date (day current_date + 1)
  else new_date (year current_date + month current_date / 12)
                (month current_date mod 12 + 1) 1.

(** The [while current_date <= end_date] loop with a bound on its
    iterations; [None] when the bound is reached. *)
Fixpoint tempo_loop (fuel : nat) (current_date end_date : date)
    (tempo_records : list DimTempo) : option (result (list DimTempo)) :=
  match fuel with
  | O => None
  | S fuel' =>
      if date_leb current_date end_date then
        match next_date current_date with
        | Ok next => tempo_loop fuel' next end_date
                       (tempo_records ++ [tempo_record current_date])
        | Raise e => Some (Raise e)
        end
      else Some (Ok tempo_records)
  end.

(** A position of a date that every step of the loop increases. *)
Definition rank (d : date) : Z := (year d * 12 + month d) * 32 + day d.

Definition loop_bound (start_date end_date : date) : nat :=
  S (Z.to_nat (rank end_date - rank start_date + 1)).

Definition load_dim_tempo (now : Z) (db : database) (start_date end_date : date)
    : option outcome :=
  records ← tempo_loop (loop_bound start_date end_date) start_date end_date [];
  Some (transaction db (records, []) (add_all_tempo now)
          "Carregados registros na dim_tempo" "Erro ao carregar dim_tempo").

(** The dates of the rows a run builds, when its loop ends normally. *)
Definition generated_dates (start_date end_date : date) : list date :=
  match tempo_loop (loop_bound start_date end_date) start_date end_date [] with
  | Some (Ok records) => map data_completa records
  | _ => []
  end.

(** *** load_empresas *)

Definition empresa_record (emp_data : gmap string value) : result DimEmpresa :=
  codigo ← item emp_data "codigo_empresa";
  nome ← item emp_data "nome_empresa";
  Ok (mkDimEmpresa None codigo nome (get emp_data "cnpj" VNone)
        (get emp_data "situacao" (VStr "ATIVA")) 0).

Definition load_empresas (now : Z) (db : database) (empresas_data : list (gmap string value))
    : outcome :=
  transaction db (mapM empresa_record empresas_data, []) (add_all_empresas now)
    "Carregadas empresas" "Erro ao carregar empresas".

(** *** load_funcionarios *)

(** The nullable descriptive columns and the keys they are read from. *)
Definition colunas_opcionais : list (string * string) :=
  [("rg", "RG"); ("uf_rg", "UFRG"); ("orgao_emissor_rg", "ORGAOEMISSORRG");
   ("estado_civil", "ESTADOCIVIL"); ("codigo_unidade", "CODIGOUNIDADE");
   ("codigo_setor", "CODIGOSETOR"); ("codigo_cargo", "CODIGOCARGO");
   ("nome_cargo", "NOMECARGO"); ("cbo_cargo", "CBOCARGO"); ("cc_custo", "CCUSTO");
   ("nome_centro_custo", "NOMECENTROCUSTO"); ("endereco", "ENDERECO");
   ("numero_endereco", "NUMERO_ENDERECO"); ("bairro", "BAIRRO");
   ("cidade", "CIDADE"); ("uf", "UF"); ("cep", "CEP");
   ("telefone_residencial", "TELEFONERESIDENCIAL");
   ("telefone_celular", "TELEFONECELULAR"); ("email", "EMAIL");
   ("deficiencia", "DEFICIENCIA"); ("nome_mae", "NM_MAE_FUNCIONARIO");
   ("matricula_rh", "MATRICULARH"); ("cor", "COR");
   ("escolaridade", "ESCOLARIDADE"); ("naturalidade", "NATURALIDADE");
   ("ramal", "RAMAL"); ("regime_revezamento", "REGIMEREVEZAMENTO");
   ("regime_trabalho", "REGIMETRABALHO"); ("telefone_comercial", "TELCOMERCIAL");
   ("turno_trabalho", "TURNOTRABALHO"); ("rh_unidade", "RHUNIDADE");
   ("rh_setor", "RHSETOR"); ("rh_cargo", "RHCARGO");
   ("rh_centro_custo_unidade", "RHCENTROCUSTOUNIDADE"); ("pis", "PIS");
   ("ctps", "CTPS"); ("serie_ctps", "SERIECTPS");
   ("tipo_contratacao", "TIPOCONTATACAO")].

(** The object built for one input row. The validity columns are not set:
    the insert gives them their defaults. *)
Definition funcionario_record (func_data : gmap string value) : result DimFuncionario :=
  let data_nascimento := _parse_date (get func_data "DATA_NASCIMENTO" VNone) in
  let data_admissao := _parse_date (get func_data "DATA_ADMISSAO" VNone) in
  let data_demissao := _parse_date (get func_data "DATA_DEMISSAO" VNone) in
  let data_ultima_alteracao := _parse_date (get func_data "DATAULTALTERACAO" VNone) in
  codigo ← item func_data "CODIGO";
  empresa ← item func_data "CODIGOEMPRESA";
  nome ← item func_data "NOME";
  cpf ← item func_data "CPF";
  sexo ← item func_data "SEXO";
  matricula ← item func_data "MATRICULAFUNCIONARIO";
  situacao ← item func_data "SITUACAO";
  Ok (mkDimFuncionario None codigo empresa nome cpf data_nascimento sexo
        matricula situacao data_admissao data_demissao
        (get func_data "NOMEUNIDADE" VNone) (get func_data "NOMESETOR" VNone)
        (truthy (get func_data "DEFICIENTE" (VInt 0)))
        data_ultima_alteracao
        (map (fun ck : string * string => (ck.1, get func_data ck.2 VNone))
             colunas_opcionais)
        None None None None).

Definition load_funcionarios (now : Z) (db : database)
    (funcionarios_data : list (gmap string value)) : outcome :=
  transaction db (mapM funcionario_record funcionarios_data, [])
    (add_all_funcionarios now)
    "Carregados funcionários" "Erro ao carregar funcionários".

(** *** load_absenteismo *)

(** The filter of the employee query, on cells of their columns' types. *)
Definition funcionario_matches (empresa unidade setor : value)
    (nascimento : option date) (sexo_ : value) (f : DimFuncionario) : bool :=
  bool_decide (codigo_empresa f = empresa) &&
  bool_decide (nome_unidade f = unidade) &&
  bool_decide (nome_setor f = setor) &&
  bool_decide (data_nascimento f = nascimento) &&
  bool_decide (sexo f = sexo_) &&
  bool_decide (registro_ativo f = Some true).

(** [session.query(...).filter(...).first()] *)
Definition query_first {A : Type} (p : A -> bool) (table : list A) : option A :=
  List.find p table.

(** What the loop body does with one input row. *)
Inductive row_outcome : Type :=
| RowRaise (e : exn)
| RowSkip (warning : log_entry)
| RowFact (fact : FatoAbsenteismo).

Definition absenteismo_fact (db : database) (abs_data : gmap string value)
    (funcionario : DimFuncionario) : result FatoAbsenteismo :=
  inicio ← item abs_data "DT_INICIO_ATESTADO";
  let data_inicio := _parse_date inicio in
  let data_fim := _parse_date (get abs_data "DT_FIM_ATESTADO" VNone) in
  let tempo_inicio :=
    query_first (fun t => bool_decide (Some (data_completa t) = data_inicio)) (dim_tempo db) in
  let tempo_fim :=
    match data_fim with
    | Some _ => query_first (fun t => bool_decide (Some (data_completa t) = data_fim))
                  (dim_tempo db)
    | None => None
    end in
  unidade ← item abs_data "UNIDADE";
  setor ← item abs_data "SETOR";
  nascimento ← item abs_data "DT_NASCIMENTO";
  sexo ← item abs_data "SEXO";
  matricula ← item abs_data "MATRICULA_FUNC";
  tipo ← item abs_data "TIPO_ATESTADO";
  Ok (mkFatoAbsenteismo None
        (sk_funcionario funcionario)
        (tempo_inicio ≫= sk_tempo)
        (tempo_fim ≫= sk_tempo)
        (get abs_data "EMPRESA" (VInt 0)) unidade setor (_parse_date nascimento)
        sexo matricula tipo data_inicio data_fim
        (get abs_data "HORA_INICIO_ATESTADO" VNone)
        (get abs_data "HORA_FIM_ATESTADO" VNone)
        (get abs_data "DIAS_AFASTADOS" (VInt 0))
        (get abs_data "HORAS_AFASTADO" VNone)
        (get abs_data "CID_PRINCIPAL" VNone)
        (get abs_data "DESCRICAO_CID" VNone)
        (get abs_data "GRUPO_PATOLOGICO" VNone)
        (get abs_data "TIPO_LICENCA" VNone)
        None).

Definition find_funcionario (db : database) (abs_data : gmap string value)
    : result (option DimFuncionario) :=
  unidade ← item abs_data "UNIDADE";
  setor ← item abs_data "SETOR";
  nascimento ← item abs_data "DT_NASCIMENTO";
  sexo ← item abs_data "SEXO";
  Ok (query_first
        (funcionario_matches (get abs_data "EMPRESA" (VInt 0)) unidade setor
           (_parse_date nascimento) sexo)
        (dim_funcionario db)).

Definition process_row (db : database) (abs_data : gmap string value) : row_outcome :=
  match find_funcionario db abs_data with
  | Raise e => RowRaise e
  | Ok None =>
      RowSkip (LogWarning "Funcionário não encontrado para absenteísmo" abs_data)
  | Ok (Some funcionario) =>
      match absenteismo_fact db abs_data funcionario with
      | Raise e => RowRaise e
      | Ok fact => RowFact fact
      end
  end.

(** The [for abs_data in absenteismo_data] loop: the facts collected, or
    the exception that ended it, and the warnings logged on the way. *)
Fixpoint absenteismo_loop (db : database) (absenteismo_data : list (gmap string value))
    (absenteismo_records : list FatoAbsenteismo) (log : list log_entry)
    : result (list FatoAbsenteismo) * list log_entry :=
  match absenteismo_data with
  | [] => (Ok absenteismo_records, log)
  | abs_data :: rest =>
      match process_row db abs_data with
      | RowRaise e => (Raise e, log)
      | RowSkip w => absenteismo_loop db rest absenteismo_records (log ++ [w])
      | RowFact fact => absenteismo_loop db rest (absenteismo_records ++ [fact]) log
      end
  end.

Definition load_absenteismo (now : Z) (db : database)
    (absenteismo_data : list (gmap string value)) : outcome :=
  transaction db (absenteismo_loop db absenteismo_data [] [])
    (add_all_absenteismo now)
    "Carregados registros de absenteísmo" "Erro ao carregar absenteísmo".

End DataLoader.


(** ** The absence loader's contract, in the words of the specification *)

Module AbsenteismoContract.
Import Schema DataLoader.

(** The keys the loader reads with [abs_data[key]]. *)
Definition required_keys : list string :=
  ["UNIDADE"; "SETOR"; "DT_NASCIMENTO"; "SEXO"; "DT_INICIO_ATESTADO";
   "MATRICULA_FUNC"; "TIPO_ATESTADO"].

(** The keys of the employee lookup among them. *)
Definition lookup_keys : list string :=
  ["UNIDADE"; "SETOR"; "DT_NASCIMENTO"; "SEXO"].

Definition has_keys (keys : list string) (abs_data : gmap string value) : Prop :=
  forall key, key ∈ keys -> is_Some (abs_data !! key).

(** The stored version [f] answers the composite key of the input row:
    company, unit name, sector name, birth date and sex. *)
Definition composite_key_matches (abs_data : gmap string value) (f : DimFuncionario) : Prop :=
  codigo_empresa f = get abs_data "EMPRESA" (VInt 0) /\
  nome_unidade f = get abs_data "UNIDADE" VNone /\
  nome_setor f = get abs_data "SETOR" VNone /\
  data_nascimento f = _parse_date (get abs_data "DT_NASCIMENTO" VNone) /\
  sexo f = get abs_data "SEXO" VNone.

End AbsenteismoContract.

(** ** Sample inputs *)

Module Samples.
Import Schema DataLoader.

Definition no_run : outcome := mkoutcome (Raise ValueError) empty_database [].

(** The time dimension loaded for 1 to 10 January 2020, and again for 5 to
    15 January. *)
Definition jan_1_10 : outcome :=
  default no_run (load_dim_tempo 1 empty_database (mkdate 2020 1 1) (mkdate 2020 1 10)).

Definition jan_5_15 : outcome :=
  default no_run
    (load_dim_tempo 2 (db_after jan_1_10) (mkdate 2020 1 5) (mkdate 2020 1 15)).

Definition empresa_a : gmap string value :=
  list_to_map [("codigo_empresa", VInt 1); ("nome_empresa", VStr "Empresa A")].

(** One employee, natural key (1, 10), in the sector [setor_]. *)
Definition funcionario_10 (setor_ : string) : gmap string value :=
  list_to_map
    [("CODIGO", VInt 10); ("CODIGOEMPRESA", VInt 1); ("NOME", VStr "Ana");
     ("CPF", VStr "11144477735"); ("DATA_NASCIMENTO", VStr "1990-05-17");
     ("SEXO", VInt 2); ("MATRICULAFUNCIONARIO", VStr "M-10");
     ("SITUACAO", VStr "ATIVO"); ("DATA_ADMISSAO", VStr "2015-03-02");
     ("NOMEUNIDADE", VStr "Matriz"); ("NOMESETOR", VStr setor_)].

Definition with_empresa : database :=
  db_after (load_empresas 1 empty_database [empresa_a]).

Definition first_load : outcome :=
  load_funcionarios 100 with_empresa [funcionario_10 "Financeiro"].

Definition second_load : outcome :=
  load_funcionarios 200 (db_after first_load) [funcionario_10 "Compras"].

Definition with_calendar : database :=
  from_option db_after empty_database
    (load_dim_tempo 50 (db_after first_load) (mkdate 2020 1 1) (mkdate 2020 1 31)).

Definition atestado : gmap string value :=
  list_to_map
    [("EMPRESA", VInt 1); ("UNIDADE", VStr "Matriz"); ("SETOR", VStr "Financeiro");
     ("DT_NASCIMENTO", VStr "1990-05-17"); ("SEXO", VInt 2);
     ("MATRICULA_FUNC", VStr "M-10"); ("TIPO_ATESTADO", VInt 1);
     ("DT_INICIO_ATESTADO", VStr "2020-01-06");
     ("DT_FIM_ATESTADO", VStr "2020-01-08"); ("DIAS_AFASTADOS", VInt 3)].

(** A good row followed by the same row without its unit. *)
Definition batch_with_bad_row : outcome :=
  load_absenteismo 300 with_calendar [atestado; delete "UNIDADE" atestado].

(** Two employees; the first has a CPF of eleven equal digits. *)
Definition funcionarios_frame : Pandas.DataFrame :=
  Pandas.mkframe
    ["CPF"; "TELEFONECELULAR"; "TELEFONERESIDENCIAL"; "EMAIL"; "DATA_NASCIMENTO";
     "DATA_ADMISSAO"; "DATA_DEMISSAO"; "SEXO"; "ESTADOCIVIL"]
    [(0, list_to_map
           [("CPF", VStr "111.111.111-11"); ("TELEFONECELULAR", VNone);
            ("TELEFONERESIDENCIAL", VNone); ("EMAIL", VStr "ana@example.com");
            ("DATA_NASCIMENTO", VStr "01/02/1990"); ("DATA_ADMISSAO", VStr "2020-01-01");
            ("DATA_DEMISSAO", VNone); ("SEXO", VInt 2); ("ESTADOCIVIL", VInt 1)]);
     (1, list_to_map
           [("CPF", VStr "111.444.777-35"); ("TELEFONECELULAR", VNone);
            ("TELEFONERESIDENCIAL", VNone); ("EMAIL", VStr "rui@example.com");
            ("DATA_NASCIMENTO", VStr "17/05/1985"); ("DATA_ADMISSAO", VStr "2018-06-01");
            ("DATA_DEMISSAO", VNone); ("SEXO", VInt 1); ("ESTADOCIVIL", VInt 2)])].

(** One absence whose end precedes its start and whose days are negative. *)
Definition absenteismo_frame : Pandas.DataFrame :=
  Pandas.mkframe
    ["DT_INICIO_ATESTADO"; "DT_FIM_ATESTADO"; "DT_NASCIMENTO"; "SEXO";
     "TIPO_ATESTADO"; "DIAS_AFASTADOS"]
    [(0, list_to_map
           [("DT_INICIO_ATESTADO", VStr "02/11/2026"); ("DT_FIM_ATESTADO", VStr "01/11/2026");
            ("DT_NASCIMENTO", VStr "01/01/1990"); ("SEXO", VInt 1);
            ("TIPO_ATESTADO", VInt 1); ("DIAS_AFASTADOS", VInt (-3))])].


End Samples.

(** ** The words of a regular expression

    The language a regular expression denotes, as the documentation of [re]
    describes matching; the derivative matcher of [Regex] is compared with
    it. *)

Module RegexLang.
Import Regex.

Inductive matches : regex -> string -> Prop :=
| matches_epsilon : matches Epsilon EmptyString
| matches_class (p : ascii -> bool) (c : ascii) :
    p c = true -> matches (Class p) (String c EmptyString)
| matches_seq (r1 r2 : regex) (s1 s2 : string) :
    matches r1 s1 -> matches r2 s2 -> matches (Seq r1 r2) (s1 +:+ s2)
| matches_alt_l (r1 r2 : regex) (s : string) :
    matches r1 s -> matches (Alt r1 r2) s
| matches_alt_r (r1 r2 : regex) (s : string) :
    matches r2 s -> matches (Alt r1 r2) s
| matches_star_nil (r : regex) : matches (Star r) EmptyString
| matches_star_cons (r : regex) (s1 s2 : string) :
    matches r s1 -> matches (Star r) s2 -> matches (Star r) (s1 +:+ s2).

(** Every character of [s] is in the class [p]. *)
Definition all_chars (p : ascii -> bool) (s : string) : Prop :=
  Forall (fun c => p c = true) (list_ascii_of_string s).

End RegexLang.

(** ** Strings beyond one byte: [validate_cpf] on code points

    A [str] is a sequence of code points. The class [\D] of [re] leaves in
    place every character that is a decimal digit, of whatever script, and
    [int] reads every one of them. Which code points these are is the
    table of the interpreter's Unicode database, a parameter here:
    [decimal c] is the value of the decimal digit [c], and [None] when [c]
    is no decimal digit. Among the one-byte characters the decimal digits
    are the ten ASCII ones, which is what [is_digit] says. *)

Module CodePoints.

(** The code points of a string of one-byte characters. *)
Definition codepoints (s : string) : list Z :=
  map (fun c => Z.of_N (N_of_ascii c)) (list_ascii_of_string s).

(** [f"{n}"] for an integer. *)
Definition format_int (n : Z) : list Z := codepoints (str_of_int n).

Section Digits.
Variable decimal : Z -> option Z.

(** [re.sub(r'\D', '', s)] *)
Definition strip_non_digits (s : list Z) : list Z :=
  List.filter (fun c => bool_decide (is_Some (decimal c))) s.

(** [int(digit)] for one character: [ValueError] when it is no digit. *)
Definition int_char (digit : Z) : result Z :=
  match decimal digit with
  | Some v => Ok v
  | None => Raise ValueError
  end.

(** [sum(int(digit) * (len(cpf_partial) + 1 - i) for i, digit in
    enumerate(cpf_partial))], from index [i] on. *)
Fixpoint cpf_total (len i : Z) (digits : list Z) : result Z :=
  match digits with
  | [] => Ok 0
  | digit :: rest =>
      v ← int_char digit;
      total ← cpf_total len (i + 1) rest;
      Ok (v * (len + 1 - i) + total)
  end.

Definition cpf_calculate_digit (cpf_partial : list Z) : result Z :=
  total ← cpf_total (Z.of_nat (length cpf_partial)) 0 cpf_partial;
  let remainder := total mod 11 in
  Ok (if remainder <? 2 then 0 else 11 - remainder).

(** [validate_cpf] on a [str]. *)
Definition validate_cpf (cpf : list Z) : result bool :=
  match cpf with
  | [] => Ok false
  | _ :: _ =>
      let cpf := strip_non_digits cpf in
      if negb (Z.of_nat (length cpf) =? 11) then Ok false
      else match cpf with
      | [] => Raise IndexError
      | c0 :: _ =>
          if bool_decide (cpf = replicate 11 c0) then Ok false
          else
            first_digit ← cpf_calculate_digit (take 9 cpf);
            second_digit ← cpf_calculate_digit (take 10 cpf);
            Ok (bool_decide (drop (length cpf - 2) cpf =
                             format_int first_digit ++ format_int second_digit))
      end
  end.

(** The values of the digits of a string of digits. *)
Definition digit_values (s : list Z) : list Z :=
  map (fun c => default 0 (decimal c)) s.

(** What [validate_cpf] accepts, in the words of the specification made
    exact: the characters left after stripping are eleven, are not eleven
    times the same character, and the last two are the ASCII digits of the
    check digits of the first nine and of the first ten. *)
Definition accepted (s : list Z) : Prop :=
  let cpf := strip_non_digits s in
  length cpf = 11%nat /\
  ~ (exists c, cpf = replicate 11 c) /\
  cpf !! 9%nat = Some (48 + NationalIdSpec.check_digit (digit_values (take 9 cpf))) /\
  cpf !! 10%nat = Some (48 + NationalIdSpec.check_digit (digit_values (take 10 cpf))).

End Digits.

(** What every version of the table has: the ASCII digits with their
    values, and no value outside 0 to 9. *)
Definition decimal_table (decimal : Z -> option Z) : Prop :=
  (forall c, 48 <= c <= 57 -> decimal c = Some (c - 48)) /\
  (forall c v, decimal c = Some v -> 0 <= v <= 9).

(** The ASCII digits and the Arabic-Indic digits U+0660 to U+0669, two
    ranges of the table in every version of the database: a table to run
    the examples with. *)
Definition ascii_and_arabic_indic (c : Z) : option Z :=
  if (48 <=? c) && (c <=? 57) then Some (c - 48)
  else if (1632 <=? c) && (c <=? 1641) then Some (c - 1632)
  else None.

(** The identifier of the specification, "11144477735". *)
Definition known_id : list Z := codepoints "11144477735".

End CodePoints.

(** ** What the employee table asks of an input row *)

Module FuncionarioContract.
Import Schema DataLoader.

(** The keys the loader reads with [func_data[key]]; their columns are NOT
    NULL. *)
Definition required_keys : list string :=
  ["CODIGO"; "CODIGOEMPRESA"; "NOME"; "CPF"; "SEXO"; "MATRICULAFUNCIONARIO";
   "SITUACAO"].

(** The indexed keys are present and not [None], the birth and admission
    dates are readable, and the company is stored. *)
Definition loadable (db : database) (func_data : gmap string value) : Prop :=
  (forall key, key ∈ required_keys ->
               exists v, func_data !! key = Some v /\ v <> VNone) /\
  is_Some (_parse_date (get func_data "DATA_NASCIMENTO" VNone)) /\
  is_Some (_parse_date (get func_data "DATA_ADMISSAO" VNone)) /\
  get func_data "CODIGOEMPRESA" VNone ∈ map emp_codigo_empresa (dim_empresa db).

End FuncionarioContract.

(** ** Column types ([src/sqlalchemy_models.py])

    The schema gives every column a type. The loaders hand the cells of
    their input to the engine as they are; a cell that has the type of its
    column is stored and compared as it is, whatever the engine, while a
    cell of another type is converted or refused by the engine, each in
    its way, and that is not code of the repository. The embedding stores
    and compares cells as they are, text character by character: the
    properties of the loaders that depend on how a cell is stored or
    compared are stated for cells that have the type of their column. *)

Module ColumnTypes.
Import Schema DataLoader.

Inductive column_type : Type :=
| TInteger
| TString (length : nat)
| TNumeric (precision scale : nat).

(** [v] is NULL or a value of the type: a 32-bit integer for [Integer], a
    string of at most [length] characters for [String(length)], a number
    with at most [precision - scale] digits before the point for
    [Numeric(precision, scale)]. *)
Definition has_type (t : column_type) (v : value) : bool :=
  match t, v with
  | _, VNone => true
  | TInteger, VInt n => (-2147483648 <=? n) && (n <=? 2147483647)
  | TString len, VStr s => (String.length s <=? len)%nat
  | TNumeric p s, VInt n => Z.abs n <? 10 ^ Z.of_nat (p - s)
  | TNumeric p s, VFloat q =>
      let bound := inject_Z (10 ^ Z.of_nat (p - s) - 1) in
      Qle_bool (Qopp bound) q && Qle_bool q bound
  | _, _ => false
  end.

(** The keys of an input row that go to a typed column, with the type. *)
Definition empresa_columns : list (string * column_type) :=
  [("codigo_empresa", TInteger); ("nome_empresa", TString 200);
   ("cnpj", TString 20); ("situacao", TString 20)].

Definition absenteismo_columns : list (string * column_type) :=
  [("EMPRESA", TInteger); ("UNIDADE", TString 130); ("SETOR", TString 130);
   ("SEXO", TInteger); ("MATRICULA_FUNC", TString 30); ("TIPO_ATESTADO", TInteger);
   ("HORA_INICIO_ATESTADO", TString 5); ("HORA_FIM_ATESTADO", TString 5);
   ("DIAS_AFASTADOS", TNumeric 8 2); ("HORAS_AFASTADO", TString 5);
   ("CID_PRINCIPAL", TString 10); ("DESCRICAO_CID", TString 264);
   ("GRUPO_PATOLOGICO", TString 80); ("TIPO_LICENCA", TString 100)].

(** Every cell of the row under one of the keys has the key's type. *)
Definition typed_row (cols : list (string * column_type)) (row : gmap string value) : bool :=
  forallb (fun kt : string * column_type => has_type kt.2 (get row kt.1 VNone)) cols.

(** A stored company: its code is of the column's type. *)
Definition typed_empresa (e : DimEmpresa) : bool :=
  has_type TInteger (emp_codigo_empresa e).

(** A stored employee version: the columns the absence lookup compares are
    of their types. *)
Definition typed_funcionario (f : DimFuncionario) : bool :=
  has_type TInteger (codigo_empresa f) && has_type (TString 130) (nome_unidade f) &&
  has_type (TString 130) (nome_setor f) && has_type TInteger (sexo f).

End ColumnTypes.

(** ** A batch of absences against what the load leaves

    The rows of a batch, the facts stored for them and the warnings logged
    for them, each in the order of the rows: a row that an active stored
    version answers has a fact with the surrogate key of such a version, a
    row that no active version answers has a warning. *)

Module AbsenteismoBatch.
Import Schema DataLoader AbsenteismoContract.

Definition not_found : string := "Funcionário não encontrado para absenteísmo".

Inductive emitted_or_skipped (db : database)
    : list (gmap string value) -> list FatoAbsenteismo -> list log_entry -> Prop :=
| batch_end : emitted_or_skipped db [] [] []
| batch_fact (abs_data : gmap string value) (f : DimFuncionario) (fact : FatoAbsenteismo)
    (rows : list (gmap string value)) (facts : list FatoAbsenteismo)
    (warnings : list log_entry) :
    f ∈ dim_funcionario db -> registro_ativo f = Some true ->
    composite_key_matches abs_data f ->
    fato_sk_funcionario fact = sk_funcionario f ->
    emitted_or_skipped db rows facts warnings ->
    emitted_or_skipped db (abs_data :: rows) (fact :: facts) warnings
| batch_skip (abs_data : gmap string value)
    (rows : list (gmap string value)) (facts : list FatoAbsenteismo)
    (warnings : list log_entry) :
    (forall f, f ∈ dim_funcionario db -> registro_ativo f = Some true ->
               ~ composite_key_matches abs_data f) ->
    emitted_or_skipped db rows facts warnings ->
    emitted_or_skipped db (abs_data :: rows) facts
      (LogWarning not_found abs_data :: warnings).

End AbsenteismoBatch.

(** ** More sample inputs *)

Module MoreSamples.
Import Schema DataLoader Samples.

(** The absence of [atestado], starting on the 29th: a date the calendar
    of [with_calendar] has no row for. *)
Definition atestado_dia_29 : gmap string value :=
  <["DT_INICIO_ATESTADO" := VStr "2020-01-29"]>
    (<["DT_FIM_ATESTADO" := VStr "2020-01-30"]> atestado).

End MoreSamples.

(** ** The pipeline ([run_etl_pipeline], [src/etl.py]) *)

Module Pipeline.
Import Pandas.

(** One entry of [results['summary']]. *)
Record summary_entry : Type := mksummary {
  total_records : nat;
  clean_records : nat;
  errors : nat
}.

(** The dictionary the pipeline returns: the three frames under ['data'],
    the three error lists under ['errors'] and the three counts under
    ['summary']. *)
Record results : Type := mkresults {
  data_funcionarios : DataFrame;
  data_absenteismo : DataFrame;
  data_vencimentos : DataFrame;
  errors_funcionarios : list etl_error;
  errors_absenteismo : list etl_error;
  errors_vencimentos : list etl_error;
  summary_funcionarios : summary_entry;
  summary_absenteismo : summary_entry;
  summary_vencimentos : summary_entry
}.

(** The three ETLs in order; the call-up and accident frames are taken and
    not read. *)
Definition run_etl_pipeline (today : date)
    (funcionarios_df absenteismo_df vencimentos_df convocacoes_df cat_df : DataFrame)
    : result results :=
  '(funcionarios_clean, func_errors) ← FuncionarioETL.process_raw_data today funcionarios_df;
  '(absenteismo_clean, abs_errors) ← AbsenteismoETL.process_raw_data today absenteismo_df;
  '(vencimentos_clean, venc_errors) ← VencimentoETL.process_raw_data today vencimentos_df;
  Ok (mkresults funcionarios_clean absenteismo_clean vencimentos_clean
        func_errors abs_errors venc_errors
        (mksummary (frame_len funcionarios_df) (frame_len funcionarios_clean)
           (length func_errors))
        (mksummary (frame_len absenteismo_df) (frame_len absenteismo_clean)
           (length abs_errors))
        (mksummary (frame_len vencimentos_df) (frame_len vencimentos_clean)
           (length venc_errors))).

End Pipeline.

(** ** Sample frames *)

Module SampleFrames.
Import Pandas.

Definition today : date := mkdate 2026 11 3.

(** The first row of a frame. *)
Definition first_row (df : DataFrame) : gmap string value :=
  match records df with
  | (_, row) :: _ => row
  | [] => ∅
  end.

Definition frame_or (r : result DataFrame) (dflt : DataFrame) : DataFrame :=
  match r with Ok df => df | Raise _ => dflt end.

(** One absence of three days, dates already parsed. *)
Definition absences : DataFrame :=
  mkframe ["data_nascimento"; "sexo"; "tipo_atestado"; "data_inicio_atestado";
           "data_fim_atestado"; "dias_afastados"]
    [(0, list_to_map
           [("data_nascimento", VDate (mkdate 1990 5 17)); ("sexo", VInt 2);
            ("tipo_atestado", VInt 1);
            ("data_inicio_atestado", VDate (mkdate 2026 10 5));
            ("data_fim_atestado", VDate (mkdate 2026 10 7));
            ("dias_afastados", VInt 3)])].

Definition absences_out : DataFrame :=
  frame_or (AbsenteismoETL.calculate_derived_metrics today absences) absences.

(** One employee born on 17 May 1990, admitted on 2 March 2015 and still
    employed, dates already parsed. *)
Definition employees : DataFrame :=
  mkframe ["DATA_NASCIMENTO"; "DATA_ADMISSAO"; "DATA_DEMISSAO"; "SEXO"; "ESTADOCIVIL"]
    [(0, list_to_map
           [("DATA_NASCIMENTO", VDate (mkdate 1990 5 17));
            ("DATA_ADMISSAO", VDate (mkdate 2015 3 2)); ("DATA_DEMISSAO", VNone);
            ("SEXO", VInt 2); ("ESTADOCIVIL", VInt 2)])].

Definition employees_out : DataFrame :=
  frame_or (FuncionarioETL.calculate_derived_metrics today employees) employees.

(** Two documents, one with an expiry date. *)
Definition documents : DataFrame :=
  mkframe ["dataVencimento"; "nomeProduto"]
    [(0, list_to_map [("dataVencimento", VStr "20/11/2026"); ("nomeProduto", VStr "PCMSO")]);
     (1, list_to_map [("dataVencimento", VNone); ("nomeProduto", VStr "PPRA")])].

Definition documents_out : DataFrame :=
  match VencimentoETL.process_raw_data today documents with
  | Ok (out, _) => out
  | Raise _ => documents
  end.

Definition empty_frame : DataFrame := mkframe [] [].

(** The pipeline over the sample frames. *)
Definition no_results : Pipeline.results :=
  Pipeline.mkresults empty_frame empty_frame empty_frame [] [] []
    (Pipeline.mksummary 0 0 0) (Pipeline.mksummary 0 0 0) (Pipeline.mksummary 0 0 0).

Definition pipeline_results : Pipeline.results :=
  match Pipeline.run_etl_pipeline today Samples.funcionarios_frame
          Samples.absenteismo_frame documents empty_frame empty_frame with
  | Ok r => r
  | Raise _ => no_results
  end.

End SampleFrames.


(** * Properties *)

(** ** Cells and comparisons *)

Lemma Qle_bool_inject_Z (a b : Z) :
  Qle_bool (inject_Z a) (inject_Z b) = (a <=? b).
Proof. unfold Qle_bool, inject_Z; simpl. by rewrite !Z.mul_1_r. Qed.

Lemma py_lt_int (a b : Z) : py_lt (VInt a) (VInt b) = Ok (a <? b).
Proof.
  unfold py_lt; simpl. rewrite Qle_bool_inject_Z.
  f_equal. rewrite Z.ltb_antisym. done.
Qed.


Lemma py_le_date (a b : date) : py_le (VDate a) (VDate b) = Ok (date_leb a b).
Proof. reflexivity. Qed.

(** ** Digit characters *)

Lemma is_digit_char (v : Z) : 0 <= v <= 9 -> is_digit (digit_char v) = true.
Proof.
  intros H.
  assert (v = 0 \/ v = 1 \/ v = 2 \/ v = 3 \/ v = 4 \/ v = 5 \/ v = 6 \/
          v = 7 \/ v = 8 \/ v = 9) as Hv by lia.
  repeat (destruct Hv as [-> | Hv]; [reflexivity|]). by subst.
Qed.

Lemma digit_value_char (v : Z) : 0 <= v <= 9 -> digit_value (digit_char v) = v.
Proof.
  intros H.
  assert (v = 0 \/ v = 1 \/ v = 2 \/ v = 3 \/ v = 4 \/ v = 5 \/ v = 6 \/
          v = 7 \/ v = 8 \/ v = 9) as Hv by lia.
  repeat (destruct Hv as [-> | Hv]; [reflexivity|]). by subst.
Qed.

Lemma is_digit_inv (c : ascii) :
  is_digit c = true -> 0 <= digit_value c <= 9 /\ c = digit_char (digit_value c).
Proof.
  destruct c as [[] [] [] [] [] [] [] []]; intros H; vm_compute in H;
    try discriminate H; vm_compute; (split; [split; discriminate | reflexivity]).
Qed.

Lemma str_of_digit (v : Z) :
  0 <= v <= 9 -> str_of_int v = String (digit_char v) EmptyString.
Proof.
  intros H.
  assert (v = 0 \/ v = 1 \/ v = 2 \/ v = 3 \/ v = 4 \/ v = 5 \/ v = 6 \/
          v = 7 \/ v = 8 \/ v = 9) as Hv by lia.
  repeat (destruct Hv as [-> | Hv]; [reflexivity|]). by subst.
Qed.

Lemma list_ascii_of_filter (p : ascii -> bool) (s : string) :
  list_ascii_of_string (string_filter p s) = List.filter p (list_ascii_of_string s).
Proof.
  induction s as [|c s IH]; simpl; [done|].
  destruct (p c); simpl; by rewrite IH.
Qed.

Lemma string_filter_all (p : ascii -> bool) (s : string) :
  Forall (fun c => p c = true) (list_ascii_of_string (string_filter p s)).
Proof.
  induction s as [|c s IH]; simpl; [constructor|].
  destruct (p c) eqn:Hc; simpl; [constructor|]; done.
Qed.

Lemma length_list_ascii (s : string) :
  length (list_ascii_of_string s) = String.length s.
Proof. induction s; simpl; congruence. Qed.

(** ** Sequencing *)

Lemma mapM_Ok_inv {A B : Type} (f : A -> result B) (l : list A) (k : list B) :
  mapM f l = Ok k -> Forall2 (fun a b => f a = Ok b) l k.
Proof.
  revert k; induction l as [|a l IH]; intros k; simpl.
  - intros [= <-]. constructor.
  - destruct (f a) as [b|] eqn:Hb; [|done]. simpl.
    destruct (mapM f l) as [k'|]; [|done]. simpl.
    intros [= <-]. constructor; [done|]. by apply IH.
Qed.

Lemma mapM_Ok_intro {A B : Type} (f : A -> result B) (l : list A) (k : list B) :
  Forall2 (fun a b => f a = Ok b) l k -> mapM f l = Ok k.
Proof.
  induction 1 as [|a b l k Hab _ IH]; simpl; [done|].
  by rewrite Hab; simpl; rewrite IH.
Qed.

Lemma Forall2_imap {A B : Type} (P : A -> B -> Prop) (g : nat -> A -> B) (l : list A) :
  (forall i x, P x (g i x)) -> Forall2 P l (imap g l).
Proof.
  revert g; induction l as [|x l IH]; intros g Hg; simpl; constructor.
  - apply Hg.
  - apply IH. intros i y. apply Hg.
Qed.

(** ** The national identifier *)

Module NationalIdFacts.
Import DataValidator NationalIdSpec.

Lemma check_digit_range (ds : list Z) : 0 <= check_digit ds <= 9.
Proof.
  unfold check_digit.
  pose proof (Z.mod_pos_bound (weighted_sum (Z.of_nat (length ds) + 1) ds) 11).
  case_match; [lia|]. apply Z.ltb_ge in H0. lia.
Qed.

Lemma cpf_total_weighted (len i : Z) (s : string) :
  cpf_total len i s =
  weighted_sum (len + 1 - i) (map digit_value (list_ascii_of_string s)).
Proof.
  revert i; induction s as [|c s IH]; intros i; simpl; [done|].
  rewrite IH. do 2 f_equal. lia.
Qed.

Lemma cpf_calculate_digit_spec (s : string) :
  cpf_calculate_digit s = check_digit (map digit_value (list_ascii_of_string s)).
Proof.
  unfold cpf_calculate_digit, check_digit.
  rewrite cpf_total_weighted, length_map, length_list_ascii.
  unfold strlen. by rewrite Z.sub_0_r.
Qed.

Lemma digit_value_inj (a b : ascii) :
  is_digit a = true -> is_digit b = true -> digit_value a = digit_value b -> a = b.
Proof.
  intros Ha Hb Hab.
  destruct (is_digit_inv a Ha) as [_ ->], (is_digit_inv b Hb) as [_ ->].
  by rewrite Hab.
Qed.

Lemma validate_cpf_eleven (c0 c1 c2 c3 c4 c5 c6 c7 c8 c9 c10 : ascii) :
  let cs := [c0; c1; c2; c3; c4; c5; c6; c7; c8; c9; c10] in
  let cpf := string_of_list_ascii cs in
  Forall (fun c => is_digit c = true) cs ->
  forall b : bool,
    (if String.eqb cpf (string_repeat c0 11) then false
     else String.eqb (last_two cpf)
            (str_of_int (cpf_calculate_digit (prefix 9 cpf)) ++
             str_of_int (cpf_calculate_digit (prefix 10 cpf)))) = b ->
    b = true <-> valid (map digit_value cs).
Proof.
  intros cs cpf Hd b <-.
  rewrite !cpf_calculate_digit_spec.
  change (list_ascii_of_string (prefix 9 cpf)) with (take 9 cs).
  change (list_ascii_of_string (prefix 10 cpf)) with (take 10 cs).
  change (last_two cpf) with (String c9 (String c10 EmptyString)).
  rewrite <- !(firstn_map digit_value).
  set (ds := map digit_value cs).
  pose proof (check_digit_range (take 9 ds)) as H1.
  pose proof (check_digit_range (take 10 ds)) as H2.
  rewrite (str_of_digit _ H1), (str_of_digit _ H2).
  unfold valid. change (length ds) with 11%nat.
  assert (Hrep : String.eqb cpf (string_repeat c0 11) = true <-> all_identical ds).
  { rewrite String.eqb_eq. unfold all_identical. change (length ds) with 11%nat.
    split.
    - intros [= -> -> -> -> -> -> -> -> -> ->]. by exists (digit_value c0).
    - intros [d Hds]. injection Hds as E0 E1 E2 E3 E4 E5 E6 E7 E8 E9 E10.
      subst cpf cs; simpl.
      repeat match goal with H : Forall _ (_ :: _) |- _ => inversion_clear H end.
      repeat f_equal; apply digit_value_inj; congruence. }
  change (ds !! 9%nat) with (Some (digit_value c9)).
  change (ds !! 10%nat) with (Some (digit_value c10)).
  assert (H9 : is_digit c9 = true /\ is_digit c10 = true).
  { subst cs. repeat match goal with H : Forall _ (_ :: _) |- _ => inversion_clear H end. done. }
  destruct H9 as [H9 H10].
  destruct (String.eqb cpf (string_repeat c0 11)) eqn:E.
  - split; [done|]. intros (_ & Hn & _). destruct Hn. by apply Hrep.
  - simpl String.append. rewrite String.eqb_eq. split.
    + intros [= E9 E10]. split; [done|]. split.
      * intros Hall. apply Hrep in Hall. discriminate.
      * apply (f_equal digit_value) in E9, E10.
        rewrite digit_value_char in E9, E10 by done. by rewrite E9, E10.
    + intros (_ & _ & [= E9] & [= E10]).
      rewrite <- E9, <- E10.
      by rewrite <- (proj2 (is_digit_inv c9 H9)), <- (proj2 (is_digit_inv c10 H10)).
Qed.

Lemma validate_cpf_spec (s : string) :
  exists b : bool,
    validate_cpf (VStr s) = Ok b /\ (b = true <-> valid (digits_of s)).
Proof.
  unfold validate_cpf, digits_of.
  destruct s as [|a s0] eqn:Hs.
  { exists false; split; [reflexivity|]. split; [done|]. by intros [? _]. }
  rewrite <- Hs. replace (truthy (VStr s)) with true by (by subst s).
  cbv beta iota; simpl negb; cbv iota.
  rewrite <- list_ascii_of_filter. fold (strip_non_digits s).
  pose proof (string_filter_all is_digit s) as Hd. fold (strip_non_digits s) in Hd.
  generalize dependent (strip_non_digits s). clear. intros cpf Hd.
  unfold strlen.
  destruct (Z.of_nat (String.length cpf) =? 11) eqn:E; simpl negb; cbv iota.
  2:{ exists false; split; [reflexivity|]. split; [done|].
      intros [Hl _]. rewrite length_map, length_list_ascii in Hl.
      apply Z.eqb_neq in E. lia. }
  apply Z.eqb_eq in E.
  do 11 (destruct cpf as [|? cpf]; [simpl in E; lia|]).
  destruct cpf; [|simpl in E; lia].
  match goal with
  | |- exists b, (if ?c then Ok false else Ok ?x) = Ok b /\ _ =>
      exists (if c then false else x); split; [by destruct c|]
  end.
  by apply validate_cpf_eleven.
Qed.

End NationalIdFacts.

(** ** Totality of the validators *)

Module ValidatorFacts.
Import DataValidator DataTransformer.

Lemma validate_cpf_total (o : option string) :
  exists b : bool, validate_cpf (str_cell o) = Ok b.
Proof.
  destruct o as [s|]; [|by exists false].
  destruct (NationalIdFacts.validate_cpf_spec s) as (b & Hb & _). by exists b.
Qed.

Lemma validate_cnpj_total (o : option string) :
  exists b : bool, validate_cnpj (str_cell o) = Ok b.
Proof.
  destruct o as [s|]; [|by exists false].
  unfold validate_cnpj; simpl str_cell.
  destruct (negb (truthy (VStr s))); [by eexists|].
  destruct (negb (strlen (strip_non_digits s) =? 14)); by eexists.
Qed.

Lemma validate_email_total (o : option string) :
  exists b : bool, validate_email (str_cell o) = Ok b.
Proof.
  destruct o as [s|]; [|by exists true].
  unfold validate_email; simpl str_cell.
  destruct (negb (truthy (VStr s))); by eexists.
Qed.

(** The pairing that raises: no start, an end. *)
Lemma validate_date_range_absent_start :
  ~ exists b : bool,
      validate_date_range (date_cell None) (date_cell (Some (mkdate 2024 1 31))) = Ok b.
Proof. intros [b Hb]. discriminate Hb. Qed.

(** C9, as the code has it. The validators of identifiers and e-mail
    addresses return a boolean on every optional string. The validator of
    date order returns a boolean whenever the start is present or the end
    is absent: true when the end is absent, and otherwise whether the start
    is on or before the end; with the start absent and the end present it
    raises [TypeError]. *)
Theorem validators_total_except_absent_start :
  (forall o : option string, exists b : bool, validate_cpf (str_cell o) = Ok b) /\
  (forall o : option string, exists b : bool, validate_cnpj (str_cell o) = Ok b) /\
  (forall o : option string, exists b : bool, validate_email (str_cell o) = Ok b) /\
  (forall start_date : option date,
     validate_date_range (date_cell start_date) (date_cell None) = Ok true) /\
  (forall start_date end_date : date,
     validate_date_range (date_cell (Some start_date)) (date_cell (Some end_date)) =
     Ok (date_leb start_date end_date)) /\
  (forall end_date : date,
     validate_date_range (date_cell None) (date_cell (Some end_date)) = Raise TypeError).
Proof.
  split; [exact validate_cpf_total|].
  split; [exact validate_cnpj_total|].
  split; [exact validate_email_total|].
  split; [by intros [d|]|].
  split; reflexivity.
Qed.

End ValidatorFacts.

(** ** The national identifier on every string *)

Module CodePointFacts.
Import CodePoints NationalIdSpec.

Section Digits.
Variable decimal : Z -> option Z.

Lemma strip_non_digits_all (s : list Z) :
  Forall (fun c => is_Some (decimal c)) (strip_non_digits decimal s).
Proof.
  unfold strip_non_digits. apply Forall_forall. intros c Hc.
  apply list_elem_of_In, filter_In in Hc as [_ Hc]. by apply bool_decide_eq_true in Hc.
Qed.

Lemma strip_non_digits_digits (s : list Z) :
  Forall (fun c => is_Some (decimal c)) s -> strip_non_digits decimal s = s.
Proof.
  unfold strip_non_digits. induction 1 as [|c s Hc _ IH]; simpl; [done|].
  by rewrite bool_decide_eq_true_2, IH.
Qed.

Lemma cpf_total_digits (len i : Z) (s : list Z) :
  Forall (fun c => is_Some (decimal c)) s ->
  cpf_total decimal len i s = Ok (weighted_sum (len + 1 - i) (digit_values decimal s)).
Proof.
  intros H. revert i. induction H as [|c s [v Hv] _ IH]; intros i; simpl; [done|].
  unfold int_char. rewrite Hv. cbn [mbind result_bind]. rewrite IH.
  cbn [mbind result_bind default]. do 3 f_equal. lia.
Qed.

Lemma cpf_calculate_digit_digits (s : list Z) :
  Forall (fun c => is_Some (decimal c)) s ->
  cpf_calculate_digit decimal s = Ok (check_digit (digit_values decimal s)).
Proof.
  intros H. unfold cpf_calculate_digit, check_digit.
  rewrite (cpf_total_digits _ _ _ H). cbn [mbind result_bind].
  unfold digit_values. by rewrite length_map, Z.sub_0_r.
Qed.

Lemma format_digit (v : Z) : 0 <= v <= 9 -> format_int v = [48 + v].
Proof.
  intros H.
  assert (v = 0 \/ v = 1 \/ v = 2 \/ v = 3 \/ v = 4 \/ v = 5 \/ v = 6 \/
          v = 7 \/ v = 8 \/ v = 9) as Hv by lia.
  repeat (destruct Hv as [-> | Hv]; [reflexivity|]). by subst.
Qed.

(** [validate_cpf] returns on every string, and returns true on the
    strings of [accepted]. *)
Lemma validate_cpf_accepted (s : list Z) :
  exists b : bool, validate_cpf decimal s = Ok b /\ (b = true <-> accepted decimal s).
Proof.
  unfold validate_cpf, accepted.
  destruct s as [|a s0] eqn:Hs.
  { exists false. split; [done|]. split; [done|]. by intros [? _]. }
  rewrite <- Hs. clear Hs a s0.
  pose proof (strip_non_digits_all s) as Hd.
  generalize dependent (strip_non_digits decimal s). clear s. intros cpf Hd.
  destruct (Z.of_nat (length cpf) =? 11) eqn:E; simpl negb; cbv iota.
  2:{ exists false. split; [done|]. split; [done|].
      intros [Hl _]. apply Z.eqb_neq in E. lia. }
  apply Z.eqb_eq in E.
  do 11 (destruct cpf as [|? cpf]; [simpl in E; lia|]).
  destruct cpf; [|simpl in E; lia]. clear E.
  set (cpf := [z; z0; z1; z2; z3; z4; z5; z6; z7; z8; z9]) in *.
  assert (Forall (fun c => is_Some (decimal c)) (take 9 cpf)) as H9
    by (by apply Forall_take).
  assert (Forall (fun c => is_Some (decimal c)) (take 10 cpf)) as H10
    by (by apply Forall_take).
  rewrite (cpf_calculate_digit_digits _ H9), (cpf_calculate_digit_digits _ H10).
  cbn [mbind result_bind].
  pose proof (NationalIdFacts.check_digit_range (digit_values decimal (take 9 cpf))) as R9.
  pose proof (NationalIdFacts.check_digit_range (digit_values decimal (take 10 cpf))) as R10.
  rewrite (format_digit _ R9), (format_digit _ R10).
  case_bool_decide as Hrep.
  - exists false. split; [done|]. split; [done|].
    intros (_ & Hn & _). destruct Hn. by exists z.
  - eexists. split; [reflexivity|].
    rewrite bool_decide_eq_true.
    change (drop (length cpf - 2) cpf) with [z8; z9].
    change (cpf !! 9%nat) with (Some z8). change (cpf !! 10%nat) with (Some z9).
    split.
    + intros [= -> ->]. split; [done|]. split; [|done].
      intros [c Hc]. apply Hrep. rewrite Hc. f_equal.
      by injection Hc as ->.
    + intros (_ & _ & [= ->] & [= ->]). done.
Qed.

(** On a string whose digits are the ASCII ones, [accepted] is the rule of
    the specification on the values of the digits. *)
Lemma accepted_ascii (s : list Z) :
  decimal_table decimal ->
  Forall (fun c => 48 <= c <= 57) (strip_non_digits decimal s) ->
  accepted decimal s <-> valid (digit_values decimal (strip_non_digits decimal s)).
Proof.
  intros [Hascii _] Hs. unfold accepted, valid, all_identical.
  generalize dependent (strip_non_digits decimal s). clear s. intros cpf Hs.
  assert (forall l, Forall (fun c => 48 <= c <= 57) l ->
                    digit_values decimal l = (fun c => c - 48) <$> l) as Hval.
  { intros l Hl. unfold digit_values. apply map_ext_Forall.
    eapply Forall_impl; [exact Hl|]. intros c Hc. simpl. by rewrite (Hascii c Hc). }
  assert (Forall (fun c => 48 <= c <= 57) (take 9 cpf)) as Hs9 by (by apply Forall_take).
  assert (Forall (fun c => 48 <= c <= 57) (take 10 cpf)) as Hs10 by (by apply Forall_take).
  rewrite (Hval _ Hs), (Hval _ Hs9), (Hval _ Hs10).
  rewrite length_fmap, !list_lookup_fmap, <- !fmap_take.
  set (ds := (fun c => c - 48) <$> cpf).
  assert (cpf = (fun v => v + 48) <$> ds) as Hcpf.
  { subst ds. rewrite <- list_fmap_compose.
    rewrite <- (list_fmap_id cpf) at 1. apply list_fmap_ext.
    intros i c _. simpl. lia. }
  split; intros (Hl & Hn & H9 & H10); (split; [done|]); split.
  - intros [d Hd]. apply Hn. exists (d + 48).
    rewrite Hcpf, Hd, Hl. by rewrite fmap_replicate.
  - rewrite H9, H10. simpl. split; f_equal; lia.
  - intros [c Hc]. apply Hn. exists (c - 48).
    subst ds. rewrite Hc at 1. by rewrite fmap_replicate, Hl.
  - destruct (cpf !! 9%nat) as [c9|]; [|done].
    destruct (cpf !! 10%nat) as [c10|]; [|done].
    simpl in H9, H10. injection H9 as H9. injection H10 as H10.
    split; f_equal; lia.
Qed.

Lemma known_id_chars : known_id = [49; 49; 49; 52; 52; 52; 55; 55; 55; 51; 53].
Proof. reflexivity. Qed.

Lemma digit_values_ascii (l : list Z) :
  decimal_table decimal -> Forall (fun c => 48 <= c <= 57) l ->
  Forall (fun c => is_Some (decimal c)) l /\
  digit_values decimal l = (fun c => c - 48) <$> l.
Proof.
  intros [Hascii _] Hl. split.
  - eapply Forall_impl; [exact Hl|]. intros c Hc. simpl. by rewrite (Hascii c Hc).
  - unfold digit_values. apply map_ext_Forall.
    eapply Forall_impl; [exact Hl|]. intros c Hc. simpl. by rewrite (Hascii c Hc).
Qed.

Lemma known_id_ascii : Forall (fun c => 48 <= c <= 57) known_id.
Proof. rewrite known_id_chars. repeat constructor; lia. Qed.

(** The check digits of the known identifier with the value at one place
    replaced: they stay 3 and 5 when the value stays, or when the place is
    the last one, which neither of them reads, and in no other case. *)
Lemma known_values_replaced (i : nat) (v : Z) :
  (i < 11)%nat -> 0 <= v <= 9 ->
  check_digit (take 9 (<[i := v]> [1; 1; 1; 4; 4; 4; 7; 7; 7; 3; 5])) = 3 /\
  check_digit (take 10 (<[i := v]> [1; 1; 1; 4; 4; 4; 7; 7; 7; 3; 5])) = 5 <->
  [1; 1; 1; 4; 4; 4; 7; 7; 7; 3; 5] !! i = Some v \/ i = 10%nat.
Proof.
  intros Hi Hv.
  assert (forallb (fun i : nat =>
            forallb (fun v : Z =>
              Bool.eqb
                ((check_digit (take 9 (<[i := v]> [1; 1; 1; 4; 4; 4; 7; 7; 7; 3; 5])) =? 3) &&
                 (check_digit (take 10 (<[i := v]> [1; 1; 1; 4; 4; 4; 7; 7; 7; 3; 5])) =? 5))
                (bool_decide ([1; 1; 1; 4; 4; 4; 7; 7; 7; 3; 5] !! i = Some v) ||
                 (i =? 10)%nat))
              (seqZ 0 10))
            (seq 0 11) = true) as Hall by (vm_compute; reflexivity).
  rewrite forallb_forall in Hall.
  specialize (Hall i ltac:(apply in_seq; lia)).
  rewrite forallb_forall in Hall.
  specialize (Hall v ltac:(apply list_elem_of_In, elem_of_seqZ; lia)).
  apply eqb_prop in Hall.
  rewrite <- Z.eqb_eq, <- (Z.eqb_eq _ 5), <- andb_true_iff, Hall.
  by rewrite orb_true_iff, bool_decide_eq_true, Nat.eqb_eq.
Qed.

Lemma strip_non_digits_insert (l : list Z) (i : nat) (c' : Z) :
  Forall (fun c => is_Some (decimal c)) l -> decimal c' = None -> (i < length l)%nat ->
  S (length (strip_non_digits decimal (<[i := c']> l))) = length l.
Proof.
  intros Hl Hc'. revert i. induction Hl as [|c l Hc Hl IH]; intros i Hi; simpl in *; [lia|].
  destruct i as [|i]; simpl.
  - rewrite Hc'. rewrite bool_decide_eq_false_2 by (by intros [? ?]).
    fold (strip_non_digits decimal l). by rewrite strip_non_digits_digits.
  - rewrite bool_decide_eq_true_2 by done. simpl.
    fold (strip_non_digits decimal (<[i := c']> l)). rewrite IH; lia.
Qed.

Lemma known_id_not_repeated (i : nat) (c' : Z) :
  ~ exists c, <[i := c']> known_id = replicate 11 c.
Proof.
  intros [c Hc]. rewrite known_id_chars in Hc.
  assert (forall j x, (<[i := c']> [49; 49; 49; 52; 52; 52; 55; 55; 55; 51; 53]) !! j = Some x ->
                      x = c) as Hall.
  { intros j x. rewrite Hc. intros H. by apply lookup_replicate in H as [-> _]. }
  destruct (decide (i = 0%nat)) as [->|H0].
  { pose proof (Hall 3%nat 52 eq_refl). pose proof (Hall 6%nat 55 eq_refl). lia. }
  destruct (decide (i = 3%nat)) as [->|H3].
  { pose proof (Hall 0%nat 49 eq_refl). pose proof (Hall 6%nat 55 eq_refl). lia. }
  pose proof (Hall 0%nat 49 ltac:(by rewrite list_lookup_insert_ne)).
  pose proof (Hall 3%nat 52 ltac:(by rewrite list_lookup_insert_ne)). lia.
Qed.

(** One character of the known identifier replaced: what comes out is
    accepted when the character is the one that was there, or a decimal
    digit of the same value in one of the first nine places, and in no
    other case. *)
Lemma known_id_replaced (i : nat) (c' : Z) :
  decimal_table decimal -> (i < 11)%nat ->
  exists b : bool,
    validate_cpf decimal (<[i := c']> known_id) = Ok b /\
    (b = true <->
     known_id !! i = Some c' \/
     (i < 9)%nat /\ exists c, known_id !! i = Some c /\ decimal c' = decimal c).
Proof.
  intros Htable Hi.
  destruct (validate_cpf_accepted (<[i := c']> known_id)) as (b & Hb & Hiff).
  exists b. split; [done|]. rewrite Hiff. clear b Hb Hiff.
  destruct (digit_values_ascii known_id Htable known_id_ascii) as [Hdig Hvals].
  assert (digit_values decimal known_id = [1; 1; 1; 4; 4; 4; 7; 7; 7; 3; 5]) as Hknown
    by (rewrite Hvals; reflexivity).
  (* the character that was there, and its value *)
  assert (exists c0 v0, known_id !! i = Some c0 /\ decimal c0 = Some v0 /\
            [1; 1; 1; 4; 4; 4; 7; 7; 7; 3; 5] !! i = Some v0) as (c0 & v0 & Hc0 & Hd0 & Hv0).
  { destruct (lookup_lt_is_Some_2 known_id i ltac:(done)) as [c0 Hc0].
    pose proof Htable as [Hascii _].
    pose proof known_id_ascii as Ha. rewrite Forall_forall in Ha.
    pose proof (Ha c0 (list_elem_of_lookup_2 _ _ _ Hc0)) as Hr.
    exists c0, (c0 - 48). split; [done|]. split; [by apply Hascii|].
    rewrite <- Hknown, Hvals, list_lookup_fmap, Hc0. done. }
  unfold accepted.
  destruct (decimal c') as [v'|] eqn:Hc'.
  2:{ (* no digit: ten characters are left *)
      pose proof (strip_non_digits_insert known_id i c' Hdig Hc' Hi) as Hlen.
      split.
      - intros [Hl _]. rewrite Hl in Hlen. simpl in Hlen. lia.
      - intros [H | (_ & c & H & Hd)].
        + rewrite Hc0 in H. injection H as ->. congruence.
        + rewrite Hc0 in H. injection H as <-. congruence. }
  pose proof Htable as [Hascii Hrange]. pose proof (Hrange c' v' Hc') as Hv.
  assert (Forall (fun c => is_Some (decimal c)) (<[i := c']> known_id)) as Hdig'
    by (apply Forall_insert; [done|by rewrite Hc']).
  rewrite (strip_non_digits_digits _ Hdig').
  assert (digit_values decimal (<[i := c']> known_id) =
          <[i := v']> [1; 1; 1; 4; 4; 4; 7; 7; 7; 3; 5]) as Hvals'.
  { rewrite <- Hknown. unfold digit_values.
    change (map ?f ?l) with (f <$> l). rewrite list_fmap_insert. by rewrite Hc'. }
  assert (forall n, digit_values decimal (take n (<[i := c']> known_id)) =
                    take n (<[i := v']> [1; 1; 1; 4; 4; 4; 7; 7; 7; 3; 5])) as Htake.
  { intros n. rewrite <- Hvals'. unfold digit_values.
    change (map ?f ?l) with (f <$> l). by rewrite fmap_take. }
  rewrite !Htake, length_insert.
  pose proof (known_values_replaced i v' Hi Hv) as Hvalue.
  pose proof (known_id_not_repeated i c') as Hrep.
  assert ((i < 9)%nat \/ i = 9%nat \/ i = 10%nat) as [Hlt | [-> | ->]] by lia.
  - (* one of the first nine: the last two characters are the old ones *)
    rewrite !list_lookup_insert_ne by lia. rewrite known_id_chars at 2 3.
    change ([49; 49; 49; 52; 52; 52; 55; 55; 55; 51; 53] !! 9%nat) with (Some 51).
    change ([49; 49; 49; 52; 52; 52; 55; 55; 55; 51; 53] !! 10%nat) with (Some 53).
    split.
    + intros (_ & _ & [= H9] & [= H10]).
      destruct (proj1 Hvalue) as [H | H]; [split; lia| |lia].
      right. split; [done|]. exists c0. split; [done|]. congruence.
    + intros H.
      assert (decimal c' = Some v0) as Hsame.
      { destruct H as [H | (_ & c & H & Hd)].
        - rewrite Hc0 in H. injection H as <-. done.
        - rewrite Hc0 in H. injection H as <-. congruence. }
      assert (v' = v0) as -> by congruence.
      destruct (proj2 Hvalue (or_introl Hv0)) as [-> ->]. done.
  - (* the tenth: the first check digit itself *)
    rewrite list_lookup_insert_eq by (rewrite known_id_chars; simpl; lia).
    rewrite list_lookup_insert_ne by lia. rewrite known_id_chars at 2.
    change ([49; 49; 49; 52; 52; 52; 55; 55; 55; 51; 53] !! 10%nat) with (Some 53).
    injection Hv0 as <-. change (known_id !! 9%nat) with (Some 51) in Hc0.
    injection Hc0 as <-.
    change (check_digit (take 9 (<[9%nat := v']> [1; 1; 1; 4; 4; 4; 7; 7; 7; 3; 5])))
      with 3 in *.
    change (known_id !! 9%nat) with (Some 51).
    split.
    + intros (_ & _ & [= ->] & _). by left.
    + intros [[= <-] | (Hlt & _)]; [|lia].
      assert (v' = 3) as -> by congruence.
      destruct (proj2 Hvalue (or_introl eq_refl)) as [_ ->]. done.
  - (* the eleventh: the second check digit itself *)
    rewrite list_lookup_insert_eq by (rewrite known_id_chars; simpl; lia).
    rewrite list_lookup_insert_ne by lia. rewrite known_id_chars at 2.
    change ([49; 49; 49; 52; 52; 52; 55; 55; 55; 51; 53] !! 9%nat) with (Some 51).
    change (known_id !! 10%nat) with (Some 53).
    destruct (proj2 Hvalue (or_intror eq_refl)) as [-> ->].
    split.
    + intros (_ & _ & _ & [= ->]). by left.
    + intros [[= <-] | (Hlt & _)]; [done|lia].
Qed.

End Digits.

(** *** One-byte strings

    Among the one-byte characters the decimal digits are the ASCII ones;
    with a table that says so, [validate_cpf] on a string of one-byte
    characters, as the rest of the development has it, is [validate_cpf]
    on its code points. *)

Lemma codepoint_range (c : ascii) : 0 <= Z.of_N (N_of_ascii c) < 256.
Proof. pose proof (N_ascii_bounded c). lia. Qed.

Lemma one_byte_digits (decimal : Z -> option Z) (s : string) :
  decimal_table decimal ->
  (forall c, 0 <= c < 256 -> is_Some (decimal c) -> 48 <= c <= 57) ->
  Forall (fun c => 48 <= c <= 57) (strip_non_digits decimal (codepoints s)) /\
  digit_values decimal (strip_non_digits decimal (codepoints s)) = digits_of s.
Proof.
  intros [Hascii _] Hbyte. unfold codepoints, digits_of, strip_non_digits, digit_values.
  induction (list_ascii_of_string s) as [|c l [IH1 IH2]]; simpl; [by split|].
  pose proof (codepoint_range c) as Hc.
  assert (is_digit c = true <-> 48 <= Z.of_N (N_of_ascii c) <= 57) as Hd.
  { unfold is_digit. rewrite andb_true_iff, !N.leb_le. lia. }
  destruct (is_digit c) eqn:E.
  - pose proof (proj1 Hd eq_refl) as Hr.
    rewrite bool_decide_eq_true_2 by (rewrite (Hascii _ Hr); by eexists).
    simpl. rewrite (Hascii _ Hr). simpl. split; [by constructor|].
    rewrite IH2. unfold digit_value. done.
  - rewrite bool_decide_eq_false_2; [done|].
    intros Hsome. pose proof (Hbyte _ Hc Hsome) as Hr.
    apply Hd in Hr. discriminate.
Qed.

Lemma validate_cpf_one_byte (decimal : Z -> option Z) (s : string) :
  decimal_table decimal ->
  (forall c, 0 <= c < 256 -> is_Some (decimal c) -> 48 <= c <= 57) ->
  DataValidator.validate_cpf (VStr s) = validate_cpf decimal (codepoints s).
Proof.
  intros Htable Hbyte.
  destruct (NationalIdFacts.validate_cpf_spec s) as (b & -> & Hb).
  destruct (validate_cpf_accepted decimal (codepoints s)) as (b' & -> & Hb').
  destruct (one_byte_digits decimal s Htable Hbyte) as [Hascii Hvals].
  rewrite (accepted_ascii decimal _ Htable Hascii), Hvals in Hb'.
  f_equal. destruct b, b'; try done.
  - symmetry. by apply Hb', Hb.
  - by apply Hb, Hb'.
Qed.

(** *** The claim *)

(** The identifier of the specification with its first character replaced
    by the Arabic-Indic digit one, U+0661: one character changed, and the
    result accepted. The same identifier with its two check digits written
    in Arabic-Indic digits, U+0663 and U+0665: eleven digits of the same
    values, not all identical, the check digits computed from the first
    nine and ten equal to the last two, and the result rejected. *)
Lemma non_ascii_digits_break_the_rule :
  <[0%nat := 1633]> known_id <> known_id /\
  validate_cpf ascii_and_arabic_indic (<[0%nat := 1633]> known_id) = Ok true /\
  strip_non_digits ascii_and_arabic_indic (codepoints "111444777" ++ [1635; 1637]) =
    codepoints "111444777" ++ [1635; 1637] /\
  valid (digit_values ascii_and_arabic_indic (codepoints "111444777" ++ [1635; 1637])) /\
  validate_cpf ascii_and_arabic_indic (codepoints "111444777" ++ [1635; 1637]) = Ok false.
Proof.
  split; [discriminate|]. split; [reflexivity|]. split; [reflexivity|].
  split; [|reflexivity].
  repeat split.
  intros [d Hd]. vm_compute in Hd. injection Hd. intros. lia.
Qed.

(** C6, as the code has it. With the decimal digits of the interpreter's
    table, the ASCII ones among them: [validate_cpf] returns on every
    string, and returns true exactly when the decimal digits of the
    string, taken as characters, are eleven, are not eleven times one
    character, and end with the ASCII digits of the two check digits
    computed from the values of the first nine and of the first ten. On a
    string whose decimal digits are ASCII ones this is the rule of the
    specification: eleven digits, not all identical, the two check digits
    equal to the last two digits. "11144477735" is accepted, and with one
    of its characters replaced it is accepted only when the new character
    is the old one or, in one of the first nine places, a decimal digit of
    the same value. *)
Theorem validate_cpf_every_string (decimal : Z -> option Z) :
  decimal_table decimal ->
  (forall s : list Z,
     exists b : bool,
       validate_cpf decimal s = Ok b /\ (b = true <-> accepted decimal s)) /\
  (forall s : list Z,
     Forall (fun c => 48 <= c <= 57) (strip_non_digits decimal s) ->
     accepted decimal s <-> valid (digit_values decimal (strip_non_digits decimal s))) /\
  validate_cpf decimal known_id = Ok true /\
  (forall (i : nat) (c' : Z),
     (i < 11)%nat ->
     exists b : bool,
       validate_cpf decimal (<[i := c']> known_id) = Ok b /\
       (b = true <->
        known_id !! i = Some c' \/
        (i < 9)%nat /\ exists c, known_id !! i = Some c /\ decimal c' = decimal c)).
Proof.
  intros Htable. split; [apply validate_cpf_accepted|].
  split; [intros s; by apply accepted_ascii|]. split.
  - destruct (known_id_replaced decimal 0 49 Htable ltac:(lia)) as (b & Hb & Hiff).
    change (<[0%nat := 49]> known_id) with known_id in Hb.
    rewrite Hb. f_equal. apply Hiff. by left.
  - intros i c' Hi. by apply known_id_replaced.
Qed.

Lemma validate_cpf_every_string_sample :
  (forall s : list Z,
     exists b : bool,
       validate_cpf ascii_and_arabic_indic s = Ok b /\
       (b = true <-> accepted ascii_and_arabic_indic s)) /\
  (forall s : list Z,
     Forall (fun c => 48 <= c <= 57) (strip_non_digits ascii_and_arabic_indic s) ->
     accepted ascii_and_arabic_indic s <->
     valid (digit_values ascii_and_arabic_indic
              (strip_non_digits ascii_and_arabic_indic s))) /\
  validate_cpf ascii_and_arabic_indic known_id = Ok true /\
  (forall (i : nat) (c' : Z),
     (i < 11)%nat ->
     exists b : bool,
       validate_cpf ascii_and_arabic_indic (<[i := c']> known_id) = Ok b /\
       (b = true <->
        known_id !! i = Some c' \/
        (i < 9)%nat /\
        exists c, known_id !! i = Some c /\
                  ascii_and_arabic_indic c' = ascii_and_arabic_indic c)).
Proof.
  apply (validate_cpf_every_string ascii_and_arabic_indic).
  unfold decimal_table, ascii_and_arabic_indic. split.
  - intros c Hc.
    destruct (Z.leb_spec 48 c), (Z.leb_spec c 57); simpl; first [done | lia].
  - intros c v.
    destruct (Z.leb_spec 48 c), (Z.leb_spec c 57); simpl;
      [intros [= <-]; lia|..];
      (destruct (Z.leb_spec 1632 c), (Z.leb_spec c 1641); simpl;
       [intros [= <-]; lia|done..]).
Defined.

End CodePointFacts.

(** ** The time dimension *)

Module TempoFacts.
Import Schema DataLoader.

Lemma valid_date_bounds (d : date) :
  valid_date d = true ->
  1 <= year d <= 9999 /\ 1 <= month d <= 12 /\ 1 <= day d <= 31.
Proof.
  unfold valid_date, MINYEAR, MAXYEAR, days_in_month.
  rewrite !andb_true_iff, !Z.leb_le. intros [[[[[? ?] ?] ?] ?] Hd].
  repeat split; try lia.
  destruct ((month d =? 2) && is_leap (year d)); [lia|].
  assert (month d = 1 \/ month d = 2 \/ month d = 3 \/ month d = 4 \/
          month d = 5 \/ month d = 6 \/ month d = 7 \/ month d = 8 \/
          month d = 9 \/ month d = 10 \/ month d = 11 \/ month d = 12) as Hm by lia.
  repeat (destruct Hm as [Hm | Hm]; [rewrite Hm in Hd; lia|]).
  rewrite Hm in Hd; lia.
Qed.

Lemma new_date_inv (y m d : Z) (x : date) :
  new_date y m d = Ok x -> x = mkdate y m d /\ valid_date x = true.
Proof.
  unfold new_date. destruct (valid_date (mkdate y m d)) eqn:E; [|done].
  by intros [= <-].
Qed.

Lemma next_date_inv (d d' : date) :
  next_date d = Ok d' ->
  valid_date d' = true /\
  (day d < 28 /\ d' = mkdate (year d) (month d) (day d + 1) \/
   28 <= day d /\ d' = mkdate (year d + month d / 12) (month d mod 12 + 1) 1).
Proof.
  unfold next_date, replace_day.
  destruct (day d <? 28) eqn:E; intros H; apply new_date_inv in H as [-> Hv];
    (split; [done|]); [left | right]; (split; [|done]).
  - by apply Z.ltb_lt.
  - by apply Z.ltb_ge.
Qed.

(** No step of the loop lands on a day past the 28th. *)
Lemma next_date_day (d d' : date) : next_date d = Ok d' -> day d' <= 28.
Proof.
  intros H. apply next_date_inv in H as [_ [[? ->] | [? ->]]]; simpl; lia.
Qed.

Lemma next_date_rank (d d' : date) :
  1 <= month d <= 12 -> day d <= 31 ->
  next_date d = Ok d' -> rank d < rank d'.
Proof.
  intros Hm Hd H. apply next_date_inv in H as [_ [[? ->] | [? ->]]];
    unfold rank; simpl; [lia|].
  pose proof (Z.div_mod (month d) 12 ltac:(lia)).
  pose proof (Z.mod_pos_bound (month d) 12 ltac:(lia)). lia.
Qed.

Lemma date_leb_rank (a b : date) :
  1 <= month a <= 12 -> 1 <= day a <= 31 ->
  1 <= month b <= 12 -> 1 <= day b <= 31 ->
  date_leb a b = true -> rank a <= rank b.
Proof.
  intros ? ? ? ?. unfold date_leb, date_ltb, date_eqb, rank.
  rewrite !orb_true_iff, !andb_true_iff, !orb_true_iff, !andb_true_iff,
    !Z.ltb_lt, !Z.eqb_eq. lia.
Qed.

(** The loop ends within its bound on every pair of calendar dates. *)
Lemma tempo_loop_terminates (fuel : nat) (current_date end_date : date)
    (acc : list DimTempo) :
  valid_date current_date = true -> valid_date end_date = true ->
  Z.max 0 (rank end_date - rank current_date + 1) < Z.of_nat fuel ->
  is_Some (tempo_loop fuel current_date end_date acc).
Proof.
  revert current_date acc.
  induction fuel as [|fuel IH]; intros cur acc Hc He Hf; simpl.
  - lia.
  - destruct (date_leb cur end_date) eqn:Hle; [|by eexists].
    destruct (next_date cur) as [next|e] eqn:Hn; [|by eexists].
    pose proof (valid_date_bounds _ Hc) as (_ & ? & ?).
    pose proof (valid_date_bounds _ He) as (_ & ? & ?).
    apply IH; [by apply next_date_inv in Hn as [? _] | done |].
    pose proof (next_date_rank cur next ltac:(done) ltac:(lia) Hn).
    pose proof (date_leb_rank cur end_date ltac:(done) ltac:(done)
                  ltac:(done) ltac:(done) Hle). lia.
Qed.

Lemma load_dim_tempo_total (now : Z) (db : database) (start_date end_date : date) :
  valid_date start_date = true -> valid_date end_date = true ->
  is_Some (load_dim_tempo now db start_date end_date).
Proof.
  intros Hs He. unfold load_dim_tempo.
  destruct (tempo_loop_terminates (loop_bound start_date end_date)
              start_date end_date [] Hs He) as [r ->]; [|by eexists].
  unfold loop_bound. lia.
Qed.

(** C2, at the inputs where the code departs from it. Over 27 January to
    2 February 2020 the load stores four rows, for 27 and 28 January and 1
    and 2 February: 29, 30 and 31 January get no row. Over 27 February to
    1 March 2020 it stores 27 and 28 February and 1 March: the leap day gets
    no row. In general the step that is commented as adding one day never
    yields a day of the month past the 28th. *)
Theorem load_dim_tempo_skips_days_after_28 :
  (fun o => (returned o, map data_completa (dim_tempo (db_after o)))) <$>
    load_dim_tempo 0 empty_database (mkdate 2020 1 27) (mkdate 2020 2 2) =
  Some (Ok tt, [mkdate 2020 1 27; mkdate 2020 1 28; mkdate 2020 2 1; mkdate 2020 2 2]) /\
  (fun o => (returned o, map data_completa (dim_tempo (db_after o)))) <$>
    load_dim_tempo 0 empty_database (mkdate 2020 2 27) (mkdate 2020 3 1) =
  Some (Ok tt, [mkdate 2020 2 27; mkdate 2020 2 28; mkdate 2020 3 1]) /\
  valid_date (mkdate 2020 2 29) = true /\
  (forall d d' : date, next_date d = Ok d' -> day d' <= 28).
Proof.
  split; [vm_compute; reflexivity|].
  split; [vm_compute; reflexivity|].
  split; [reflexivity|exact next_date_day].
Qed.

Lemma data_completa_imap (now : Z) (db : database) (objs : list DimTempo) :
  map data_completa (imap (insert_tempo now db) objs) = map data_completa objs.
Proof.
  unfold insert_tempo. generalize (length (dim_tempo db)). revert objs.
  induction objs as [|t objs IH]; intros n; [done|].
  simpl. f_equal. rewrite <- (IH (S n)). f_equal.
  apply imap_ext. intros i x _. simpl. unfold next_key. do 2 f_equal. lia.
Qed.

(** What a run does, by the result of its loop and the uniqueness of
    [data_completa]. *)
Lemma load_dim_tempo_inv (now : Z) (db : database) (start_date end_date : date)
    (o : outcome) :
  load_dim_tempo now db start_date end_date = Some o ->
  exists r, tempo_loop (loop_bound start_date end_date) start_date end_date [] = Some r /\
    match r with
    | Raise e => returned o = Raise e /\ db_after o = db
    | Ok records =>
        if bool_decide (NoDup (map data_completa (dim_tempo db) ++ map data_completa records))
        then returned o = Ok tt /\
             map data_completa (dim_tempo (db_after o)) =
               map data_completa (dim_tempo db) ++ map data_completa records /\
             dim_empresa (db_after o) = dim_empresa db /\
             dim_funcionario (db_after o) = dim_funcionario db /\
             fato_absenteismo (db_after o) = fato_absenteismo db
        else returned o = Raise (IntegrityError "dim_tempo.data_completa: UNIQUE") /\
             db_after o = db
    end.
Proof.
  unfold load_dim_tempo.
  destruct (tempo_loop _ _ _ _) as [r|]; [|done].
  simpl. intros [= <-]. exists r; split; [done|].
  destruct r as [records|e]; [|done].
  unfold transaction, add_all_tempo; simpl.
  rewrite map_app, data_completa_imap.
  case_bool_decide; simpl; [|done].
  by rewrite map_app, data_completa_imap.
Qed.

Lemma load_dim_tempo_unique (now : Z) (db : database) (start_date end_date : date)
    (o : outcome) :
  NoDup (map data_completa (dim_tempo db)) ->
  load_dim_tempo now db start_date end_date = Some o ->
  NoDup (map data_completa (dim_tempo (db_after o))).
Proof.
  intros Hdb H. apply load_dim_tempo_inv in H as (r & _ & H).
  destruct r as [records|e]; [|by destruct H as [_ ->]].
  case_bool_decide as Hnd.
  - destruct H as (_ & -> & _). done.
  - by destruct H as [_ ->].
Qed.

(** The rows of one run carry dates of strictly increasing rank. *)
Lemma tempo_loop_increasing (fuel : nat) (current_date end_date : date)
    (acc records : list DimTempo) :
  valid_date current_date = true ->
  tempo_loop fuel current_date end_date acc = Some (Ok records) ->
  exists new, records = acc ++ new /\
    Forall (fun r => rank current_date <= rank (data_completa r)) new /\
    NoDup (map data_completa new).
Proof.
  revert current_date acc.
  induction fuel as [|fuel IH]; intros cur acc Hc; simpl; [done|].
  destruct (date_leb cur end_date).
  2:{ intros [= <-]. exists []. rewrite app_nil_r. repeat constructor. }
  destruct (next_date cur) as [next|e] eqn:Hn; [|done].
  intros H. pose proof (next_date_inv _ _ Hn) as [Hv _].
  apply IH in H as (new & -> & Hall & Hnd); [|done].
  pose proof (valid_date_bounds _ Hc) as (_ & ? & ?).
  pose proof (next_date_rank cur next ltac:(done) ltac:(lia) Hn) as Hlt.
  exists (tempo_record cur :: new). split; [by rewrite <- app_assoc|]. split.
  - constructor; [simpl; lia|].
    eapply Forall_impl; [exact Hall|]. simpl; intros; lia.
  - simpl. constructor; [|done].
    rewrite list_elem_of_fmap. intros (r & Hr & Hin).
    rewrite Forall_forall in Hall. specialize (Hall r Hin).
    rewrite <- Hr in Hall. lia.
Qed.

Lemma generated_dates_NoDup (start_date end_date : date) :
  valid_date start_date = true -> NoDup (generated_dates start_date end_date).
Proof.
  intros Hs. unfold generated_dates.
  destruct (tempo_loop _ _ _ _) as [[records|]|] eqn:H; try constructor.
  apply tempo_loop_increasing in H as (new & -> & _ & Hnd); done.
Qed.

(** The second of two runs over ranges that share a stored date fails. *)
Lemma rerun_overlapping_fails :
  load_dim_tempo 1 empty_database (mkdate 2020 1 1) (mkdate 2020 1 10) =
    Some Samples.jan_1_10 /\
  returned Samples.jan_1_10 = Ok tt /\
  load_dim_tempo 2 (db_after Samples.jan_1_10) (mkdate 2020 1 5) (mkdate 2020 1 15) =
    Some Samples.jan_5_15 /\
  returned Samples.jan_5_15 = Raise (IntegrityError "dim_tempo.data_completa: UNIQUE").
Proof. repeat split; vm_compute; reflexivity. Qed.

(** C3, as the code has it. On calendar dates both runs of the load return.
    From a table with one row per date, they leave one row per date at
    most. When the loop of the second run builds a row for a date that is
    already stored, the second run raises the integrity error of the unique
    date column and the database stays as the first run left it; when none
    of its dates is stored, it succeeds and adds one row for each of its
    dates. *)
Theorem load_dim_tempo_rerun (now1 now2 : Z) (db : database)
    (start1 end1 start2 end2 : date) :
  valid_date start1 = true -> valid_date end1 = true ->
  valid_date start2 = true -> valid_date end2 = true ->
  NoDup (map data_completa (dim_tempo db)) ->
  exists o1 o2 : outcome,
    load_dim_tempo now1 db start1 end1 = Some o1 /\
    load_dim_tempo now2 (db_after o1) start2 end2 = Some o2 /\
    NoDup (map data_completa (dim_tempo (db_after o2))) /\
    forall records : list DimTempo,
      tempo_loop (loop_bound start2 end2) start2 end2 [] = Some (Ok records) ->
      let stored := map data_completa (dim_tempo (db_after o1)) in
      ((exists d, d ∈ map data_completa records /\ d ∈ stored) ->
         returned o2 = Raise (IntegrityError "dim_tempo.data_completa: UNIQUE") /\
         db_after o2 = db_after o1) /\
      ((forall d, d ∈ map data_completa records -> d ∉ stored) ->
         returned o2 = Ok tt /\
         map data_completa (dim_tempo (db_after o2)) =
           stored ++ map data_completa records).
Proof.
  intros Hs1 He1 Hv He2 Hdb.
  destruct (load_dim_tempo_total now1 db start1 end1 Hs1 He1) as [o1 H1].
  destruct (load_dim_tempo_total now2 (db_after o1) start2 end2 Hv He2) as [o2 H2].
  exists o1, o2. split; [done|]. split; [done|].
  pose proof (load_dim_tempo_unique _ _ _ _ _ Hdb H1) as Hdb1.
  split; [by eapply load_dim_tempo_unique|].
  intros records Hloop stored.
  apply load_dim_tempo_inv in H2 as (r & Hr & H2).
  rewrite Hloop in Hr. injection Hr as <-.
  pose proof (generated_dates_NoDup start2 end2 Hv) as Hgen.
  unfold generated_dates in Hgen. rewrite Hloop in Hgen.
  fold stored in H2. case_bool_decide as Hnd.
  - split.
    + intros (d & Hd1 & Hd2). exfalso.
      apply NoDup_app in Hnd as (_ & Hdisj & _). by apply (Hdisj d).
    + intros _. by destruct H2 as (? & ? & _).
  - split; [done|].
    intros Hdisj. exfalso. apply Hnd. apply NoDup_app.
    split; [done|]. split; [|done]. intros d Hd1 Hd2. by apply (Hdisj d).
Qed.

(** The theorem at the two runs of January 2020 and an empty database. *)
Lemma load_dim_tempo_rerun_sample :
  exists o1 o2 : outcome,
    load_dim_tempo 1 empty_database (mkdate 2020 1 1) (mkdate 2020 1 10) = Some o1 /\
    load_dim_tempo 2 (db_after o1) (mkdate 2020 1 5) (mkdate 2020 1 15) = Some o2 /\
    NoDup (map data_completa (dim_tempo (db_after o2))) /\
    forall records : list DimTempo,
      tempo_loop (loop_bound (mkdate 2020 1 5) (mkdate 2020 1 15))
        (mkdate 2020 1 5) (mkdate 2020 1 15) [] = Some (Ok records) ->
      let stored := map data_completa (dim_tempo (db_after o1)) in
      ((exists d, d ∈ map data_completa records /\ d ∈ stored) ->
         returned o2 = Raise (IntegrityError "dim_tempo.data_completa: UNIQUE") /\
         db_after o2 = db_after o1) /\
      ((forall d, d ∈ map data_completa records -> d ∉ stored) ->
         returned o2 = Ok tt /\
         map data_completa (dim_tempo (db_after o2)) =
           stored ++ map data_completa records).
Proof.
  apply (load_dim_tempo_rerun 1 2 empty_database
           (mkdate 2020 1 1) (mkdate 2020 1 10) (mkdate 2020 1 5) (mkdate 2020 1 15));
    [reflexivity | reflexivity | reflexivity | reflexivity | constructor].
Defined.

End TempoFacts.

(** ** The employee dimension *)

Module FuncionarioFacts.
Import Schema DataLoader.

Lemma funcionario_record_unset (func_data : gmap string value) (f : DimFuncionario) :
  funcionario_record func_data = Ok f ->
  registro_ativo f = None /\ data_fim_validade f = None /\
  item func_data "CODIGO" = Ok (codigo_funcionario f) /\
  item func_data "CODIGOEMPRESA" = Ok (codigo_empresa f).
Proof.
  unfold funcionario_record.
  repeat (match goal with
          | |- context [item func_data ?k] => destruct (item func_data k); simpl; [|done]
          end).
  by intros [= <-].
Qed.

Lemma imap_insert_funcionario (now : Z) (db : database) (objs : list DimFuncionario) :
  Forall2 (fun obj row =>
             registro_ativo row = Some (default true (registro_ativo obj)) /\
             data_fim_validade row = data_fim_validade obj /\
             codigo_funcionario row = codigo_funcionario obj /\
             codigo_empresa row = codigo_empresa obj)
    objs (imap (insert_funcionario now db) objs).
Proof. by apply Forall2_imap. Qed.

(** Every load appends: the rows already stored stay as they are, and each
    input row becomes one new row that is active and open-ended. *)
Lemma load_funcionarios_appends (now : Z) (db : database)
    (funcionarios_data : list (gmap string value)) :
  returned (load_funcionarios now db funcionarios_data) = Ok tt ->
  exists rows,
    dim_funcionario (db_after (load_funcionarios now db funcionarios_data)) =
      dim_funcionario db ++ rows /\
    Forall2 (fun func_data row =>
               registro_ativo row = Some true /\ data_fim_validade row = None /\
               item func_data "CODIGO" = Ok (codigo_funcionario row) /\
               item func_data "CODIGOEMPRESA" = Ok (codigo_empresa row))
      funcionarios_data rows.
Proof.
  unfold load_funcionarios, transaction; simpl.
  destruct (mapM funcionario_record funcionarios_data) as [objs|] eqn:Hobjs; [|done].
  simpl. unfold add_all_funcionarios.
  destruct (negb (forallb _ _)); [done|].
  destruct (negb (forallb _ _)); [done|].
  simpl. intros _. eexists; split; [reflexivity|].
  apply mapM_Ok_inv in Hobjs.
  pose proof (imap_insert_funcionario now db objs) as Hrows.
  revert Hobjs Hrows. generalize (imap (insert_funcionario now db) objs).
  intros rows Hobjs. revert rows.
  induction Hobjs as [|d obj ds objs Hd _ IH]; intros rows Hrows;
    inversion Hrows; subst; constructor.
  - apply funcionario_record_unset in Hd as (Ha & Hf & Hc & He).
    destruct H1 as (-> & -> & -> & ->). by rewrite Ha, Hf.
  - by apply IH.
Qed.

(** C1, at an input where the code departs from it. An employee with
    natural key (company 1, employee 10) is loaded in sector Financeiro and
    loaded again in sector Compras: both loads succeed, and the table then
    holds two versions of that key, both with [registro_ativo] true and no
    end of validity. The first version was not closed. In general a load
    only appends rows, each of them active and open-ended. *)
Theorem load_funcionarios_keeps_two_active :
  returned Samples.first_load = Ok tt /\
  returned Samples.second_load = Ok tt /\
  map (fun f => (codigo_empresa f, codigo_funcionario f, nome_setor f,
                 registro_ativo f, data_fim_validade f))
      (dim_funcionario (db_after Samples.second_load)) =
  [(VInt 1, VInt 10, VStr "Financeiro", Some true, None);
   (VInt 1, VInt 10, VStr "Compras", Some true, None)] /\
  (forall (now : Z) (db : database) (funcionarios_data : list (gmap string value)),
     returned (load_funcionarios now db funcionarios_data) = Ok tt ->
     exists rows,
       dim_funcionario (db_after (load_funcionarios now db funcionarios_data)) =
         dim_funcionario db ++ rows /\
       length rows = length funcionarios_data /\
       Forall (fun row => registro_ativo row = Some true /\ data_fim_validade row = None)
         rows).
Proof.
  split; [vm_compute; reflexivity|].
  split; [vm_compute; reflexivity|].
  split; [vm_compute; reflexivity|].
  intros now db data H.
  destruct (load_funcionarios_appends now db data H) as (rows & Hrows & Hall).
  exists rows. split; [done|]. split.
  - symmetry. by eapply Forall2_length.
  - clear Hrows H. induction Hall as [|d row ds rows' (? & ? & _) _ IH];
      [constructor|by constructor].
Qed.

End FuncionarioFacts.

(** ** The absence fact loader *)

Module AbsenteismoFacts.
Import Schema DataLoader AbsenteismoContract ColumnTypes AbsenteismoBatch.

Lemma item_Some (d : gmap string value) (key : string) (v : value) :
  d !! key = Some v -> item d key = Ok v /\ forall dflt, get d key dflt = v.
Proof. intros H. unfold item, get. by rewrite H. Qed.

Lemma item_None (d : gmap string value) (key : string) :
  d !! key = None -> item d key = Raise (KeyError key).
Proof. intros H. unfold item. by rewrite H. Qed.

Lemma funcionario_matches_true (abs_data : gmap string value) (f : DimFuncionario) :
  funcionario_matches (get abs_data "EMPRESA" (VInt 0)) (get abs_data "UNIDADE" VNone)
    (get abs_data "SETOR" VNone) (_parse_date (get abs_data "DT_NASCIMENTO" VNone))
    (get abs_data "SEXO" VNone) f = true <->
  composite_key_matches abs_data f /\ registro_ativo f = Some true.
Proof.
  unfold funcionario_matches, composite_key_matches.
  rewrite !andb_true_iff, !bool_decide_eq_true. tauto.
Qed.

(** One row that carries the keys the loader indexes is never the end of
    the loop: it becomes a fact that points at an active version with its
    composite key, or a skip with a warning when there is no such version. *)
Lemma process_row_required (db : database) (abs_data : gmap string value) :
  has_keys required_keys abs_data ->
  (exists fact funcionario,
     process_row db abs_data = RowFact fact /\
     funcionario ∈ dim_funcionario db /\
     registro_ativo funcionario = Some true /\
     composite_key_matches abs_data funcionario /\
     fato_sk_funcionario fact = sk_funcionario funcionario) \/
  (process_row db abs_data =
     RowSkip (LogWarning "Funcionário não encontrado para absenteísmo" abs_data) /\
   forall f, f ∈ dim_funcionario db -> registro_ativo f = Some true ->
             ~ composite_key_matches abs_data f).
Proof.
  intros Hk.
  destruct (Hk "UNIDADE") as [unidade Hu]; [set_solver|].
  destruct (Hk "SETOR") as [setor Hs]; [set_solver|].
  destruct (Hk "DT_NASCIMENTO") as [nasc Hn]; [set_solver|].
  destruct (Hk "SEXO") as [sexo Hx]; [set_solver|].
  destruct (Hk "DT_INICIO_ATESTADO") as [inicio Hi]; [set_solver|].
  destruct (Hk "MATRICULA_FUNC") as [matr Hm]; [set_solver|].
  destruct (Hk "TIPO_ATESTADO") as [tipo Ht]; [set_solver|].
  apply item_Some in Hu as [Hu Hu'], Hs as [Hs Hs'], Hn as [Hn Hn'],
    Hx as [Hx Hx'], Hi as [Hi _], Hm as [Hm _], Ht as [Ht _].
  unfold process_row, find_funcionario.
  rewrite Hu, Hs, Hn, Hx; simpl.
  rewrite <- (Hu' VNone), <- (Hs' VNone), <- (Hn' VNone), <- (Hx' VNone).
  unfold query_first.
  destruct (List.find _ (dim_funcionario db)) as [f|] eqn:Hf.
  - left. apply find_some in Hf as [Hin Hmatch].
    apply funcionario_matches_true in Hmatch as [Hkey Hact].
    unfold absenteismo_fact. rewrite Hi, Hu, Hs, Hn, Hx, Hm, Ht; simpl.
    eexists _, f. split; [reflexivity|].
    split; [by apply list_elem_of_In|]. done.
  - right. split; [done|]. intros f Hin Hact Hkey.
    pose proof (find_none _ _ Hf f (proj1 (list_elem_of_In _ _) Hin)) as Hnone.
    simpl in Hnone.
    assert (funcionario_matches (get abs_data "EMPRESA" (VInt 0))
              (get abs_data "UNIDADE" VNone) (get abs_data "SETOR" VNone)
              (_parse_date (get abs_data "DT_NASCIMENTO" VNone))
              (get abs_data "SEXO" VNone) f = true) as Ht'
      by (by apply funcionario_matches_true).
    congruence.
Qed.

Lemma process_row_missing_key (db : database) (abs_data : gmap string value) (key : string) :
  key ∈ lookup_keys -> abs_data !! key = None ->
  exists key', key' ∈ lookup_keys /\ process_row db abs_data = RowRaise (KeyError key').
Proof.
  intros H Hnone. unfold process_row, find_funcionario, item.
  destruct (abs_data !! "UNIDADE") eqn:Hu; simpl;
    [|exists "UNIDADE"; split; [repeat constructor|done]].
  destruct (abs_data !! "SETOR") eqn:Hs; simpl;
    [|exists "SETOR"; split; [repeat constructor|done]].
  destruct (abs_data !! "DT_NASCIMENTO") eqn:Hn; simpl;
    [|exists "DT_NASCIMENTO"; split; [repeat constructor|done]].
  destruct (abs_data !! "SEXO") eqn:Hx; simpl;
    [|exists "SEXO"; split; [repeat constructor|done]].
  exfalso. unfold lookup_keys in H.
  repeat (apply elem_of_cons in H as [-> | H]; [congruence|]).
  by apply elem_of_nil in H.
Qed.

Lemma absenteismo_loop_app (db : database) (before rest : list (gmap string value))
    (facts : list FatoAbsenteismo) (log : list log_entry) :
  absenteismo_loop db (before ++ rest) facts log =
  match absenteismo_loop db before facts log with
  | (Ok facts', log') => absenteismo_loop db rest facts' log'
  | (Raise e, log') => (Raise e, log')
  end.
Proof.
  revert facts log; induction before as [|row before IH]; intros facts log;
    simpl; [done|].
  destruct (process_row db row); [done|apply IH..].
Qed.

(** Over rows that carry the indexed keys the loop runs to its end: every
    row is one fact or one warning. *)
Lemma absenteismo_loop_continues (db : database) (data : list (gmap string value))
    (facts : list FatoAbsenteismo) (log : list log_entry) :
  Forall (has_keys required_keys) data ->
  exists facts' log',
    absenteismo_loop db data facts log = (Ok facts', log') /\
    (length facts' + length log' = length facts + length log + length data)%nat.
Proof.
  intros Hall. revert facts log.
  induction Hall as [|row data Hrow _ IH]; intros facts log; simpl.
  - exists facts, log. split; [done|lia].
  - destruct (process_row_required db row Hrow)
      as [(fact & f & -> & _) | [-> _]].
    + destruct (IH (facts ++ [fact]) log) as (facts' & log' & -> & Hlen).
      exists facts', log'. split; [done|]. rewrite length_app in Hlen. simpl in Hlen. lia.
    + destruct (IH facts (log ++ [LogWarning "Funcionário não encontrado para absenteísmo" row]))
        as (facts' & log' & -> & Hlen).
      exists facts', log'. split; [done|]. rewrite length_app in Hlen. simpl in Hlen. lia.
Qed.

(** A row whose processing raises ends the load: nothing of the batch is
    stored. *)
Lemma load_absenteismo_aborts (now : Z) (db : database)
    (before rest : list (gmap string value)) (bad : gmap string value) (e : exn) :
  Forall (has_keys required_keys) before ->
  process_row db bad = RowRaise e ->
  returned (load_absenteismo now db (before ++ bad :: rest)) = Raise e /\
  db_after (load_absenteismo now db (before ++ bad :: rest)) = db.
Proof.
  intros Hall Hbad. unfold load_absenteismo, transaction.
  rewrite absenteismo_loop_app.
  destruct (absenteismo_loop_continues db before [] [] Hall) as (facts & log & -> & _).
  simpl. by rewrite Hbad.
Qed.

(** *** The batch as a whole *)

(** The loop over rows that carry the indexed keys: the facts it collects
    and the warnings it logs are one per row, in the order of the rows. *)
Lemma absenteismo_loop_emits (db : database) (data : list (gmap string value))
    (facts0 : list FatoAbsenteismo) (log0 : list log_entry) :
  Forall (has_keys required_keys) data ->
  exists facts warnings,
    absenteismo_loop db data facts0 log0 = (Ok (facts0 ++ facts), log0 ++ warnings) /\
    emitted_or_skipped db data facts warnings /\
    Forall (fun fact => exists abs_data,
              abs_data ∈ data /\ process_row db abs_data = RowFact fact) facts.
Proof.
  intros Hall. revert facts0 log0.
  induction Hall as [|row data Hrow _ IH]; intros facts0 log0; simpl.
  - exists [], []. rewrite !app_nil_r. repeat split; constructor.
  - destruct (process_row_required db row Hrow)
      as [(fact & f & Hp & Hin & Hact & Hkey & Hsk) | [Hp Hnone]]; rewrite Hp.
    + destruct (IH (facts0 ++ [fact]) log0) as (facts & warnings & -> & Hrel & Hfrom).
      exists (fact :: facts), warnings. rewrite <- app_assoc. split; [done|]. split.
      * by apply (batch_fact db row f).
      * constructor; [exists row; split; [constructor|done]|].
        eapply Forall_impl; [exact Hfrom|].
        intros x (a & Ha & Hx). exists a. split; [by constructor|done].
    + destruct (IH facts0 (log0 ++ [LogWarning not_found row]))
        as (facts & warnings & Hloop & Hrel & Hfrom).
      unfold not_found in Hloop at 1. rewrite Hloop.
      exists facts, (LogWarning not_found row :: warnings).
      rewrite <- app_assoc. split; [done|]. split.
      * by apply batch_skip.
      * eapply Forall_impl; [exact Hfrom|].
        intros x (a & Ha & Hx). exists a. split; [by constructor|done].
Qed.

(** The relation looks at the employee key of a fact only: the insert,
    which sets the fact's own key and its load time, keeps it. *)
Lemma emitted_or_skipped_insert (now : Z) (db : database)
    (data : list (gmap string value)) (facts : list FatoAbsenteismo)
    (warnings : list log_entry) (g : nat -> nat) :
  emitted_or_skipped db data facts warnings ->
  emitted_or_skipped db data
    (imap (fun i => insert_absenteismo now db (g i)) facts) warnings.
Proof.
  intros H. revert g.
  induction H as [|abs_data f fact rows facts warnings Hin Hact Hkey Hsk _ IH
                  |abs_data rows facts warnings Hnone _ IH]; intros g; simpl.
  - constructor.
  - apply (batch_fact db abs_data f); [done..|].
    apply (IH (fun i => g (S i))).
  - apply batch_skip; [done|]. apply IH.
Qed.

Lemma absenteismo_not_null_insert (now : Z) (db : database) (n : nat)
    (fact : FatoAbsenteismo) :
  absenteismo_not_null (insert_absenteismo now db n fact) = absenteismo_not_null fact.
Proof. reflexivity. Qed.

Lemma absenteismo_not_null_imap (now : Z) (db : database) (g : nat -> nat)
    (facts : list FatoAbsenteismo) :
  forallb absenteismo_not_null (imap (fun i => insert_absenteismo now db (g i)) facts) =
  forallb absenteismo_not_null facts.
Proof.
  revert g. induction facts as [|fact facts IH]; intros g; simpl; [done|].
  rewrite absenteismo_not_null_insert. f_equal. apply (IH (fun i => g (S i))).
Qed.

Lemma absenteismo_not_null_keys (fact : FatoAbsenteismo) :
  absenteismo_not_null fact = true ->
  is_Some (fato_sk_funcionario fact) /\ is_Some (sk_tempo_inicio fact).
Proof.
  unfold absenteismo_not_null.
  rewrite !andb_true_iff, !bool_decide_eq_true. tauto.
Qed.

(** One row without its unit ends the batch: the good row before it is not
    stored either, though on its own it loads. *)
Lemma bad_row_aborts_batch :
  returned (load_absenteismo 300 Samples.with_calendar [Samples.atestado]) = Ok tt /\
  returned Samples.batch_with_bad_row = Raise (KeyError "UNIDADE") /\
  fato_absenteismo (db_after Samples.batch_with_bad_row) = [].
Proof. repeat split; vm_compute; reflexivity. Qed.

(** C4, as the code has it. Over rows that carry the keys the loader
    indexes, with cells of their columns' types, the load ends in one of
    two ways. Either it returns: then the table holds what it held
    followed by one fact for every row that an active employee version
    answers, each with the surrogate key of such a version and the key of
    a calendar row, never a null one, and the log holds one warning for
    every row that no active version answers, the rows taken in order and
    none left out. Or one of the facts it built lacks a NOT NULL column:
    the commit raises the integrity error, and nothing of the batch is
    stored. A row that lacks a key of the lookup, after such rows, raises
    [KeyError]: the load re-raises it and stores nothing of the batch. *)
Theorem load_absenteismo_fact_or_skip (now : Z) (db : database)
    (data : list (gmap string value)) :
  Forall (fun f => typed_funcionario f = true) (dim_funcionario db) ->
  Forall (fun abs_data => typed_row absenteismo_columns abs_data = true) data ->
  Forall (has_keys required_keys) data ->
  ((returned (load_absenteismo now db data) = Ok tt /\
    exists facts warnings,
      fato_absenteismo (db_after (load_absenteismo now db data)) =
        fato_absenteismo db ++ facts /\
      logged (load_absenteismo now db data) =
        warnings ++ [LogInfo "Carregados registros de absenteísmo" (length facts)] /\
      emitted_or_skipped db data facts warnings /\
      Forall (fun fact => is_Some (fato_sk_funcionario fact) /\
                          is_Some (sk_tempo_inicio fact)) facts) \/
   (returned (load_absenteismo now db data) =
      Raise (IntegrityError "fato_absenteismo: NOT NULL") /\
    db_after (load_absenteismo now db data) = db /\
    exists abs_data fact,
      abs_data ∈ data /\ process_row db abs_data = RowFact fact /\
      absenteismo_not_null fact = false)) /\
  (forall (bad : gmap string value) (rest : list (gmap string value)) (key : string),
     key ∈ lookup_keys -> bad !! key = None ->
     exists key',
       returned (load_absenteismo now db (data ++ bad :: rest)) = Raise (KeyError key') /\
       db_after (load_absenteismo now db (data ++ bad :: rest)) = db).
Proof.
  intros _ _ Hall. split.
  - unfold load_absenteismo, transaction.
    destruct (absenteismo_loop_emits db data [] [] Hall)
      as (facts & warnings & Hloop & Hrel & Hfrom).
    rewrite Hloop. simpl. unfold add_all_absenteismo.
    destruct (forallb absenteismo_not_null (imap (insert_absenteismo now db) facts))
      eqn:Hnn; simpl.
    + left. split; [done|].
      exists (imap (insert_absenteismo now db) facts), warnings.
      split; [done|]. rewrite length_imap. split; [done|]. split.
      * by apply (emitted_or_skipped_insert now db data facts warnings (fun i => i)).
      * rewrite forallb_forall in Hnn. apply Forall_forall. intros fact Hin.
        apply absenteismo_not_null_keys, Hnn. by apply list_elem_of_In.
    + right. split; [done|]. split; [done|].
      assert (forallb absenteismo_not_null facts = false) as Hsome.
      { rewrite <- Hnn. symmetry.
        apply (absenteismo_not_null_imap now db (fun i => i)). }
      apply not_true_iff_false in Hsome. rewrite forallb_forall in Hsome.
      rewrite Forall_forall in Hfrom.
      destruct (existsb (fun fact => negb (absenteismo_not_null fact)) facts) eqn:Hex.
      * apply existsb_exists in Hex as (fact & Hin & Hbad).
        apply list_elem_of_In in Hin.
        destruct (Hfrom fact Hin) as (abs_data & Ha & Hp).
        exists abs_data, fact. split; [done|]. split; [done|].
        by apply negb_true_iff.
      * exfalso. apply Hsome. intros fact Hin.
        assert (negb (absenteismo_not_null fact) = false) as Hn.
        { destruct (negb (absenteismo_not_null fact)) eqn:E; [|done].
          assert (existsb (fun fact => negb (absenteismo_not_null fact)) facts = true)
            as Hex' by (apply existsb_exists; by exists fact).
          congruence. }
        by apply negb_false_iff.
  - intros bad rest key Hkey Hnone.
    destruct (process_row_missing_key db bad key Hkey Hnone) as (key' & _ & Hraise).
    exists key'. by apply load_absenteismo_aborts.
Qed.

(** The sample absence against the sample employee and calendar: the load
    returns and stores its fact. *)
Lemma load_absenteismo_fact_or_skip_sample :
  ((returned (load_absenteismo 300 Samples.with_calendar [Samples.atestado]) = Ok tt /\
    exists facts warnings,
      fato_absenteismo (db_after (load_absenteismo 300 Samples.with_calendar
                                    [Samples.atestado])) =
        fato_absenteismo Samples.with_calendar ++ facts /\
      logged (load_absenteismo 300 Samples.with_calendar [Samples.atestado]) =
        warnings ++ [LogInfo "Carregados registros de absenteísmo" (length facts)] /\
      emitted_or_skipped Samples.with_calendar [Samples.atestado] facts warnings /\
      Forall (fun fact => is_Some (fato_sk_funcionario fact) /\
                          is_Some (sk_tempo_inicio fact)) facts) \/
   (returned (load_absenteismo 300 Samples.with_calendar [Samples.atestado]) =
      Raise (IntegrityError "fato_absenteismo: NOT NULL") /\
    db_after (load_absenteismo 300 Samples.with_calendar [Samples.atestado]) =
      Samples.with_calendar /\
    exists abs_data fact,
      abs_data ∈ [Samples.atestado] /\
      process_row Samples.with_calendar abs_data = RowFact fact /\
      absenteismo_not_null fact = false)) /\
  (forall (bad : gmap string value) (rest : list (gmap string value)) (key : string),
     key ∈ lookup_keys -> bad !! key = None ->
     exists key',
       returned (load_absenteismo 300 Samples.with_calendar
                   ([Samples.atestado] ++ bad :: rest)) = Raise (KeyError key') /\
       db_after (load_absenteismo 300 Samples.with_calendar
                   ([Samples.atestado] ++ bad :: rest)) = Samples.with_calendar).
Proof.
  apply (load_absenteismo_fact_or_skip 300 Samples.with_calendar [Samples.atestado]).
  - assert (forallb typed_funcionario (dim_funcionario Samples.with_calendar) = true)
      as H by (vm_compute; reflexivity).
    rewrite forallb_forall in H. apply Forall_forall.
    intros f Hf. by apply H, list_elem_of_In.
  - repeat constructor.
  - repeat constructor. intros key Hkey.
    repeat (apply elem_of_cons in Hkey as [-> | Hkey]; [vm_compute; by eexists|]).
    apply elem_of_nil in Hkey. destruct Hkey.
Defined.

End AbsenteismoFacts.

(** ** Parsing and printing dates *)

Module DateFacts.
Import Strptime DataTransformer.

(** Enumeration of an interval of integers. *)
Lemma forall_range (P : Z -> Prop) (lo : Z) (len : nat) :
  Forall P (seqZ lo (Z.of_nat len)) ->
  forall n, lo <= n < lo + Z.of_nat len -> P n.
Proof.
  intros H n Hn. rewrite Forall_forall in H. apply H.
  apply elem_of_seqZ. lia.
Qed.

Ltac by_range lo len :=
  let n := fresh "n" in let Hn := fresh "Hn" in
  intros n Hn; pattern n; revert n Hn;
  apply (forall_range _ lo len);
  let l := eval vm_compute in (seqZ lo (Z.of_nat len)) in
  change (seqZ lo (Z.of_nat len)) with l.

Lemma regex_match_cons (d : directive) (fmt : list directive) (s : string) (f : fields) :
  regex_match (d :: fmt) s f =
  first_match (fun cand : string * string =>
                 regex_match fmt (snd cand) (set_field d (fst cand) f))
              (candidates d s).
Proof. reflexivity. Qed.

(** One step of the search with the candidates computed. *)
Ltac step :=
  rewrite regex_match_cons;
  match goal with
  | |- context [candidates ?d ?s] =>
      let c := eval vm_compute in (candidates d s) in
      change (candidates d s) with c
  end;
  cbn [first_match fst snd].

Ltac finish :=
  repeat match goal with
         | |- context [set_field (Lit ?l) ?t ?f] => change (set_field (Lit l) t f) with f
         end;
  repeat match goal with
         | |- context [pad2 ?n] =>
             let v := eval vm_compute in (pad2 n) in change (pad2 n) with v
         end;
  repeat match goal with
         | |- context [match ?x with Some _ => _ | None => _ end] =>
             lazymatch x with
             | regex_match _ _ _ => destruct x
             end
         end;
  reflexivity.

Lemma regex_match_lit (l c : ascii) (fmt : list directive) (rest : string) (f : fields) :
  regex_match (Lit l :: fmt) (String c rest) f =
  if Ascii.eqb l c then regex_match fmt rest f else None.
Proof.
  rewrite regex_match_cons. unfold candidates; simpl.
  destruct (Ascii.eqb l c); simpl; [|done]. by destruct (regex_match fmt rest f).
Qed.

(** A day of the month followed by a separator. *)
Lemma regex_match_day_sep (n : Z) :
  1 <= n < 1 + Z.of_nat 31 ->
  forall (l : ascii) (fmt : list directive) (rest : string) (f : fields),
    l = "/"%char \/ l = "-"%char ->
    regex_match (Dir_d :: Lit l :: fmt) (pad2 n ++ String l rest) f =
    regex_match fmt rest (set_field Dir_d (pad2 n) f).
Proof.
  revert n. by_range 1 31%nat; cbv beta.
  repeat (apply Forall_cons_2;
          [intros l fmt rest f [-> | ->]; step; repeat step; finish|]).
  apply Forall_nil_2.
Qed.

Lemma regex_match_month_sep (n : Z) :
  1 <= n < 1 + Z.of_nat 12 ->
  forall (l : ascii) (fmt : list directive) (rest : string) (f : fields),
    l = "/"%char \/ l = "-"%char ->
    regex_match (Dir_m :: Lit l :: fmt) (pad2 n ++ String l rest) f =
    regex_match fmt rest (set_field Dir_m (pad2 n) f).
Proof.
  revert n. by_range 1 12%nat; cbv beta.
  repeat (apply Forall_cons_2;
          [intros l fmt rest f [-> | ->]; step; repeat step; finish|]).
  apply Forall_nil_2.
Qed.

(** The characters of a year written on four digits. *)
Lemma regex_match_year (a b c e : ascii) (fmt : list directive) (rest : string) (f : fields) :
  is_digit a = true -> is_digit b = true -> is_digit c = true -> is_digit e = true ->
  regex_match (Dir_Y :: fmt) (String a (String b (String c (String e rest)))) f =
  regex_match fmt rest
    (set_field Dir_Y (String a (String b (String c (String e EmptyString)))) f).
Proof.
  intros Ha Hb Hc He. rewrite regex_match_cons.
  unfold candidates, alternatives. cbn [omap list_omap match_classes].
  rewrite Ha, Hb, Hc, He. cbn [omap list_omap first_match fst snd].
  by destruct (regex_match fmt rest _).
Qed.

Lemma regex_match_year2 (a b : ascii) (fmt : list directive) (rest : string) (f : fields) :
  is_digit a = true -> is_digit b = true ->
  regex_match (Dir_y :: fmt) (String a (String b rest)) f =
  regex_match fmt rest (set_field Dir_y (String a (String b EmptyString)) f).
Proof.
  intros Ha Hb. rewrite regex_match_cons.
  unfold candidates, alternatives. cbn [omap list_omap match_classes].
  rewrite Ha, Hb. cbn [omap list_omap first_match fst snd].
  by destruct (regex_match fmt rest _).
Qed.

(** A day of the month at the end of the string. *)
Lemma regex_match_day_end (n : Z) :
  1 <= n < 1 + Z.of_nat 31 ->
  forall f : fields,
    regex_match [Dir_d] (pad2 n) f = Some (set_field Dir_d (pad2 n) f, EmptyString).
Proof.
  revert n. by_range 1 31%nat; cbv beta.
  repeat (apply Forall_cons_2; [intros f; step; reflexivity|]).
  apply Forall_nil_2.
Qed.

(** A month directly followed by the rest of the format. *)
Lemma regex_match_month_first (n : Z) :
  1 <= n < 1 + Z.of_nat 12 ->
  forall (fmt : list directive) (rest : string) (f : fields) (r : fields * string),
    regex_match fmt rest (set_field Dir_m (pad2 n) f) = Some r ->
    regex_match (Dir_m :: fmt) (pad2 n ++ rest) f = Some r.
Proof.
  revert n. by_range 1 12%nat; cbv beta.
  repeat (apply Forall_cons_2;
          [intros fmt rest f r Hr; step;
           match type of Hr with
           | context [pad2 ?n] =>
               let v := eval vm_compute in (pad2 n) in change (pad2 n) with v in Hr
           end; by rewrite Hr|]).
  apply Forall_nil_2.
Qed.

Lemma first_match_None {A B : Type} (k : A -> option B) (l : list A) :
  (forall a, a ∈ l -> k a = None) -> first_match k l = None.
Proof.
  induction l as [|a l IH]; intros H; simpl; [done|].
  rewrite (H a) by constructor. apply IH. intros b Hb. apply H. by constructor.
Qed.

(** Every alternative of the day directive takes one or two characters. *)
Lemma candidates_day_rest (a b : ascii) (tail : string) (cand : string * string) :
  cand ∈ candidates Dir_d (String a (String b tail)) ->
  snd cand = String b tail \/ snd cand = tail.
Proof.
  unfold candidates; simpl.
  repeat match goal with
         | |- context [if ?t then _ else _] => destruct t
         end; simpl;
    intros H;
    repeat (apply elem_of_cons in H as [-> | H]; [simpl; tauto|]);
    by apply elem_of_nil in H.
Qed.

(** A day directive and a separator fail on a string whose second and
    third characters are not that separator. *)
Lemma regex_match_day_sep_mismatch (l a b c : ascii) (fmt : list directive)
    (rest : string) (f : fields) :
  Ascii.eqb l b = false -> Ascii.eqb l c = false ->
  regex_match (Dir_d :: Lit l :: fmt) (String a (String b (String c rest))) f = None.
Proof.
  intros Hb Hc. rewrite regex_match_cons. apply first_match_None.
  intros cand Hin. apply candidates_day_rest in Hin as [-> | ->];
    rewrite regex_match_lit; by rewrite ?Hb, ?Hc.
Qed.

(** The year directive fails when one of the first four characters is not
    a digit, or there are fewer than four. *)
Lemma regex_match_year_third (a b c : ascii) (fmt : list directive) (rest : string)
    (f : fields) :
  is_digit c = false ->
  regex_match (Dir_Y :: fmt) (String a (String b (String c rest))) f = None.
Proof.
  intros Hc. rewrite regex_match_cons. unfold candidates; simpl.
  destruct (is_digit a), (is_digit b); rewrite ?Hc; reflexivity.
Qed.

Lemma regex_match_year_short (a b : ascii) (fmt : list directive) (f : fields) :
  regex_match (Dir_Y :: fmt) (String a (String b EmptyString)) f = None.
Proof.
  rewrite regex_match_cons. unfold candidates; simpl.
  destruct (is_digit a), (is_digit b); reflexivity.
Qed.

Lemma separator_not_digit (c : ascii) :
  is_digit c = true -> Ascii.eqb "/" c = false /\ Ascii.eqb "-" c = false.
Proof.
  intros H. destruct (is_digit_inv c H) as [Hv ->].
  revert Hv. generalize (digit_value c). intros v Hv.
  assert (v = 0 \/ v = 1 \/ v = 2 \/ v = 3 \/ v = 4 \/ v = 5 \/ v = 6 \/
          v = 7 \/ v = 8 \/ v = 9) as Hc by lia.
  repeat (destruct Hc as [-> | Hc]; [by split|]). by subst.
Qed.

(** The digits of the padded fields. *)
Lemma digit_char_mod (n : Z) : is_digit (digit_char (n mod 10)) = true.
Proof. apply is_digit_char. pose proof (Z.mod_pos_bound n 10). lia. Qed.

Lemma mod10_digit (n : Z) : 0 <= n mod 10 <= 9.
Proof. pose proof (Z.mod_pos_bound n 10). lia. Qed.

Lemma int_of_pad2 (n : Z) : 0 <= n <= 99 -> int_of_digits 0 (pad2 n) = n.
Proof.
  intros H. unfold pad2; simpl. rewrite !digit_char_mod.
  rewrite !digit_value_char by apply mod10_digit.
  pose proof (Z.div_mod n 10 ltac:(lia)).
  rewrite (Z.mod_small (n / 10) 10); [lia|].
  split; [apply Z.div_pos; lia|]. apply Z.div_lt_upper_bound; lia.
Qed.

Lemma int_of_pad4 (n : Z) : 0 <= n <= 9999 -> int_of_digits 0 (pad4 n) = n.
Proof.
  intros H. unfold pad4, pad2; simpl. rewrite !digit_char_mod.
  rewrite !digit_value_char by apply mod10_digit.
  Z.div_mod_to_equations. lia.
Qed.

Lemma regex_match_pad4 (n : Z) (fmt : list directive) (rest : string) (f : fields) :
  regex_match (Dir_Y :: fmt) (pad4 n ++ rest) f =
  regex_match fmt rest (set_field Dir_Y (pad4 n) f).
Proof. apply regex_match_year; apply digit_char_mod. Qed.

Lemma regex_match_pad2_year (n : Z) (fmt : list directive) (rest : string) (f : fields) :
  regex_match (Dir_y :: fmt) (pad2 n ++ rest) f =
  regex_match fmt rest (set_field Dir_y (pad2 n) f).
Proof. apply regex_match_year2; apply digit_char_mod. Qed.

(** A year where a day is expected, a day where a year is expected, and a
    day before the other separator. *)
Lemma regex_match_day_on_year (l : ascii) (n : Z) (fmt : list directive)
    (rest : string) (f : fields) :
  l = "/"%char \/ l = "-"%char ->
  regex_match (Dir_d :: Lit l :: fmt) (pad4 n ++ rest) f = None.
Proof.
  intros Hl. apply regex_match_day_sep_mismatch;
    destruct Hl as [-> | ->]; apply separator_not_digit, digit_char_mod.
Qed.

Lemma regex_match_year_on_day (l : ascii) (n : Z) (fmt : list directive)
    (rest : string) (f : fields) :
  l = "/"%char \/ l = "-"%char ->
  regex_match (Dir_Y :: fmt) (pad2 n ++ String l rest) f = None.
Proof.
  intros Hl. apply regex_match_year_third. by destruct Hl as [-> | ->].
Qed.

Lemma regex_match_day_other_sep (l l' : ascii) (n : Z) (fmt : list directive)
    (rest : string) (f : fields) :
  l = "/"%char /\ l' = "-"%char \/ l = "-"%char /\ l' = "/"%char ->
  regex_match (Dir_d :: Lit l :: fmt) (pad2 n ++ String l' rest) f = None.
Proof.
  intros Hl. apply regex_match_day_sep_mismatch.
  - destruct Hl as [[-> _] | [-> _]]; apply separator_not_digit, digit_char_mod.
  - by destruct Hl as [[-> ->] | [-> ->]].
Qed.

(** From the search to [strptime]. *)
Lemma strptime_no_match (s fmt : string) (ds : list directive) :
  compile_format fmt = Some ds ->
  regex_match ds s default_fields = None ->
  strptime s fmt = Raise ValueError.
Proof. intros Hc Hm. unfold strptime. by rewrite Hc, Hm. Qed.

Lemma strptime_match (s fmt : string) (ds : list directive) (y m d : Z) :
  compile_format fmt = Some ds ->
  regex_match ds s default_fields = Some (mkfields y m d 0 0 0, EmptyString) ->
  strptime s fmt =
  if valid_date (mkdate y m d) then Ok (mkdate y m d, mktime 0 0 0) else Raise ValueError.
Proof.
  intros Hc Hm. unfold strptime. rewrite Hc, Hm. simpl.
  by destruct (valid_date (mkdate y m d)).
Qed.

Section Shapes.
Variable d : date.
Hypothesis Hvalid : valid_date d = true.

Let Hbounds := TempoFacts.valid_date_bounds d Hvalid.

Lemma day_range : 1 <= day d < 1 + Z.of_nat 31.
Proof. destruct Hbounds as (_ & _ & ?). lia. Qed.

Lemma month_range : 1 <= month d < 1 + Z.of_nat 12.
Proof. destruct Hbounds as (_ & ? & _). lia. Qed.

Ltac fields_eq :=
  unfold set_field, default_fields;
  cbn [f_year f_month f_day f_hour f_minute f_second];
  rewrite ?int_of_pad2, ?int_of_pad4
    by (pose proof day_range; pose proof month_range;
        destruct Hbounds as (? & _ & _); lia);
  reflexivity.

Lemma match_dmY (sep : ascii) :
  sep = "/"%char \/ sep = "-"%char ->
  regex_match [Dir_d; Lit sep; Dir_m; Lit sep; Dir_Y] (shape_dmY d sep) default_fields =
  Some (mkfields (year d) (month d) (day d) 0 0 0, EmptyString).
Proof.
  intros Hs. unfold shape_dmY.
  rewrite regex_match_day_sep by (apply day_range || done).
  rewrite regex_match_month_sep by (apply month_range || done).
  change (pad4 (year d)) with (String.append (pad4 (year d)) EmptyString).
  rewrite regex_match_pad4. cbn [regex_match]. do 2 f_equal. fields_eq.
Qed.

Lemma match_Ymd (sep : ascii) :
  sep = "/"%char \/ sep = "-"%char ->
  regex_match [Dir_Y; Lit sep; Dir_m; Lit sep; Dir_d] (shape_Ymd d sep) default_fields =
  Some (mkfields (year d) (month d) (day d) 0 0 0, EmptyString).
Proof.
  intros Hs. unfold shape_Ymd.
  rewrite regex_match_pad4, regex_match_lit, Ascii.eqb_refl.
  rewrite regex_match_month_sep by (apply month_range || done).
  rewrite regex_match_day_end by apply day_range. do 2 f_equal. fields_eq.
Qed.

Lemma match_compact :
  regex_match [Dir_Y; Dir_m; Dir_d] (shape_compact d) default_fields =
  Some (mkfields (year d) (month d) (day d) 0 0 0, EmptyString).
Proof.
  unfold shape_compact. rewrite regex_match_pad4.
  erewrite regex_match_month_first;
    [reflexivity | apply month_range |].
  rewrite regex_match_day_end by apply day_range. do 2 f_equal. fields_eq.
Qed.

Lemma match_dmy :
  regex_match [Dir_d; Lit "/"; Dir_m; Lit "/"; Dir_y] (shape_dmy d) default_fields =
  Some (mkfields (if year d mod 100 <=? 68 then year d mod 100 + 2000
                  else year d mod 100 + 1900) (month d) (day d) 0 0 0, EmptyString).
Proof.
  unfold shape_dmy.
  rewrite regex_match_day_sep by (apply day_range || auto).
  rewrite regex_match_month_sep by (apply month_range || auto).
  change (pad2 (year d mod 100)) with (String.append (pad2 (year d mod 100)) EmptyString).
  rewrite regex_match_pad2_year. cbn [regex_match]. do 2 f_equal.
  unfold set_field, default_fields;
    cbn [f_year f_month f_day f_hour f_minute f_second].
  pose proof (Z.mod_pos_bound (year d) 100 ltac:(lia)).
  rewrite !int_of_pad2
    by (pose proof day_range; pose proof month_range; lia).
  reflexivity.
Qed.

Ltac no_match tac :=
  eapply strptime_no_match; [vm_compute; reflexivity | tac].

Ltac matched lem :=
  erewrite strptime_match; [| vm_compute; reflexivity | lem];
  destruct d as [y m dd]; simpl in *; by rewrite Hvalid.

(** *** Day, month, year around a slash *)

Lemma strptime_dmY_slash :
  strptime (shape_dmY d "/") "%d/%m/%Y" = Ok (d, mktime 0 0 0).
Proof. matched ltac:(apply match_dmY; auto). Qed.

(** *** Year, month, day around a hyphen *)

Lemma strptime_Ymd_day_first (sep l : ascii) (fmt : string) (ds : list directive) :
  l = "/"%char \/ l = "-"%char ->
  compile_format fmt = Some (Dir_d :: Lit l :: ds) ->
  strptime (shape_Ymd d sep) fmt = Raise ValueError.
Proof.
  intros Hl Hc. eapply strptime_no_match; [exact Hc|].
  by apply regex_match_day_on_year.
Qed.

Lemma strptime_Ymd_hyphen :
  strptime (shape_Ymd d "-") "%Y-%m-%d" = Ok (d, mktime 0 0 0).
Proof. matched ltac:(apply match_Ymd; auto). Qed.

(** *** Day, month, year around a hyphen *)

Lemma strptime_dmY_hyphen_slash :
  strptime (shape_dmY d "-") "%d/%m/%Y" = Raise ValueError.
Proof. no_match ltac:(apply regex_match_day_other_sep; auto). Qed.

Lemma strptime_dmY_year_first (sep : ascii) (fmt : string) (ds : list directive) :
  sep = "/"%char \/ sep = "-"%char ->
  compile_format fmt = Some (Dir_Y :: ds) ->
  strptime (shape_dmY d sep) fmt = Raise ValueError.
Proof.
  intros Hs Hc. eapply strptime_no_match; [exact Hc|].
  by apply regex_match_year_on_day.
Qed.

Lemma strptime_dmY_hyphen :
  strptime (shape_dmY d "-") "%d-%m-%Y" = Ok (d, mktime 0 0 0).
Proof. matched ltac:(apply match_dmY; auto). Qed.

(** *** Year, month, day with no separator *)

Lemma strptime_compact_day_first (l : ascii) (fmt : string) (ds : list directive) :
  l = "/"%char \/ l = "-"%char ->
  compile_format fmt = Some (Dir_d :: Lit l :: ds) ->
  strptime (shape_compact d) fmt = Raise ValueError.
Proof.
  intros Hl Hc. eapply strptime_no_match; [exact Hc|].
  by apply regex_match_day_on_year.
Qed.

Lemma strptime_compact_hyphen :
  strptime (shape_compact d) "%Y-%m-%d" = Raise ValueError.
Proof.
  no_match ltac:(unfold shape_compact; rewrite regex_match_pad4).
  change (pad2 (month d) +:+ pad2 (day d))
    with (String (digit_char (month d / 10 mod 10))
            (String (digit_char (month d mod 10)) (pad2 (day d)))).
  rewrite regex_match_lit.
  by rewrite (proj2 (separator_not_digit _ (digit_char_mod (month d / 10)))).
Qed.

Lemma strptime_compact :
  strptime (shape_compact d) "%Y%m%d" = Ok (d, mktime 0 0 0).
Proof. matched ltac:(apply match_compact). Qed.

(** *** Day, month and two-digit year around a slash *)

Lemma strptime_dmy_four_digit_year :
  strptime (shape_dmy d) "%d/%m/%Y" = Raise ValueError.
Proof.
  no_match ltac:(unfold shape_dmy).
  rewrite regex_match_day_sep by (apply day_range || auto).
  rewrite regex_match_month_sep by (apply month_range || auto).
  apply regex_match_year_short.
Qed.

Lemma strptime_dmy_year_first (fmt : string) (ds : list directive) :
  compile_format fmt = Some (Dir_Y :: ds) ->
  strptime (shape_dmy d) fmt = Raise ValueError.
Proof.
  intros Hc. eapply strptime_no_match; [exact Hc|].
  apply regex_match_year_on_day. auto.
Qed.

Lemma strptime_dmy_hyphen :
  strptime (shape_dmy d) "%d-%m-%Y" = Raise ValueError.
Proof. no_match ltac:(apply regex_match_day_other_sep; auto). Qed.

Lemma strptime_dmy :
  strptime (shape_dmy d) "%d/%m/%y" =
  let y := if year d mod 100 <=? 68 then year d mod 100 + 2000
           else year d mod 100 + 1900 in
  if valid_date (mkdate y (month d) (day d))
  then Ok (mkdate y (month d) (day d), mktime 0 0 0) else Raise ValueError.
Proof.
  erewrite strptime_match; [reflexivity | vm_compute; reflexivity | apply match_dmy].
Qed.

(** *** Year, month, day around a slash *)

Lemma strptime_Ymd_slash_hyphen :
  strptime (shape_Ymd d "/") "%Y-%m-%d" = Raise ValueError.
Proof.
  no_match ltac:(unfold shape_Ymd; rewrite regex_match_pad4, regex_match_lit).
  reflexivity.
Qed.

Lemma strptime_Ymd_slash_compact :
  strptime (shape_Ymd d "/") "%Y%m%d" = Raise ValueError.
Proof.
  no_match ltac:(unfold shape_Ymd; rewrite regex_match_pad4).
  reflexivity.
Qed.

Lemma strptime_Ymd_slash :
  strptime (shape_Ymd d "/") "%Y/%m/%d" = Ok (d, mktime 0 0 0).
Proof. matched ltac:(apply match_Ymd; auto). Qed.

End Shapes.

(** *** Stripping *)

Lemma digit_not_space (c : ascii) : is_digit c = true -> is_space c = false.
Proof.
  intros H. destruct (is_digit_inv c H) as [Hv ->].
  revert Hv. generalize (digit_value c). intros v Hv.
  assert (v = 0 \/ v = 1 \/ v = 2 \/ v = 3 \/ v = 4 \/ v = 5 \/ v = 6 \/
          v = 7 \/ v = 8 \/ v = 9) as Hc by lia.
  repeat (destruct Hc as [-> | Hc]; [reflexivity|]). by subst.
Qed.

Lemma rstrip_clean (s : string) :
  Forall (fun c => is_space c = false) (list_ascii_of_string s) -> rstrip s = s.
Proof.
  induction s as [|c s IH]; simpl; [done|].
  intros H. inversion_clear H as [|? ? Hc Hs]. by rewrite Hc, IH.
Qed.

Lemma strip_clean (s : string) :
  Forall (fun c => is_space c = false) (list_ascii_of_string s) -> strip s = s.
Proof.
  intros H. unfold strip.
  replace (lstrip s) with s; [by apply rstrip_clean|].
  destruct s as [|c s]; [done|]. simpl. inversion_clear H as [|? ? Hc Hs]. by rewrite Hc.
Qed.

Ltac clean_shape :=
  apply strip_clean; cbv [shape_dmY shape_Ymd shape_compact shape_dmy pad4 pad2];
  cbn [String.append list_ascii_of_string];
  repeat (apply Forall_cons_2;
          [first [reflexivity | apply digit_not_space, digit_char_mod]|]);
  apply Forall_nil_2.

Lemma strip_shape_dmY (d : date) (sep : ascii) :
  sep = "/"%char \/ sep = "-"%char -> strip (shape_dmY d sep) = shape_dmY d sep.
Proof. intros [-> | ->]; clean_shape. Qed.

Lemma strip_shape_Ymd (d : date) (sep : ascii) :
  sep = "/"%char \/ sep = "-"%char -> strip (shape_Ymd d sep) = shape_Ymd d sep.
Proof. intros [-> | ->]; clean_shape. Qed.

Lemma strip_shape_compact (d : date) : strip (shape_compact d) = shape_compact d.
Proof. clean_shape. Qed.

Lemma strip_shape_dmy (d : date) : strip (shape_dmy d) = shape_dmy d.
Proof. clean_shape. Qed.

(** [parse_date] on a non-empty string is the loop over the formats. *)
Lemma parse_date_string (c : ascii) (s : string) :
  parse_date (VStr (String c s)) = try_formats fst (strip (String c s)) date_formats.
Proof. reflexivity. Qed.

Lemma shape_nonempty (d : date) :
  (forall sep, exists c s, shape_dmY d sep = String c s) /\
  (forall sep, exists c s, shape_Ymd d sep = String c s) /\
  (exists c s, shape_compact d = String c s) /\
  (exists c s, shape_dmy d = String c s).
Proof. repeat split; intros; by eexists _, _. Qed.

Section ParseShapes.
Variable d : date.
Hypothesis Hvalid : valid_date d = true.

Ltac open_shape H :=
  let c := fresh "c" in let s := fresh "s" in let E := fresh "E" in
  destruct H as (c & s & E);
  rewrite E, parse_date_string, <- E; clear c s E.

Lemma parse_date_dmY_slash : parse_date (VStr (shape_dmY d "/")) = Some d.
Proof.
  open_shape (proj1 (shape_nonempty d) "/"%char).
  rewrite strip_shape_dmY by auto. unfold date_formats; cbn [try_formats].
  by rewrite strptime_dmY_slash.
Qed.

Lemma parse_date_Ymd_hyphen : parse_date (VStr (shape_Ymd d "-")) = Some d.
Proof.
  open_shape (proj1 (proj2 (shape_nonempty d)) "-"%char).
  rewrite strip_shape_Ymd by auto. unfold date_formats; cbn [try_formats].
  rewrite (strptime_Ymd_day_first d "-" "/" "%d/%m/%Y" _ ltac:(auto) eq_refl).
  by rewrite strptime_Ymd_hyphen.
Qed.

Lemma parse_date_dmY_hyphen : parse_date (VStr (shape_dmY d "-")) = Some d.
Proof.
  open_shape (proj1 (shape_nonempty d) "-"%char).
  rewrite strip_shape_dmY by auto. unfold date_formats; cbn [try_formats].
  rewrite strptime_dmY_hyphen_slash.
  rewrite (strptime_dmY_year_first d "-" "%Y-%m-%d" _ ltac:(auto) eq_refl).
  by rewrite strptime_dmY_hyphen.
Qed.

Lemma parse_date_compact : parse_date (VStr (shape_compact d)) = Some d.
Proof.
  open_shape (proj1 (proj2 (proj2 (shape_nonempty d)))).
  rewrite strip_shape_compact. unfold date_formats; cbn [try_formats].
  rewrite (strptime_compact_day_first d "/" "%d/%m/%Y" _ ltac:(auto) eq_refl).
  rewrite strptime_compact_hyphen.
  rewrite (strptime_compact_day_first d "-" "%d-%m-%Y" _ ltac:(auto) eq_refl).
  by rewrite strptime_compact.
Qed.

Lemma parse_date_Ymd_slash : parse_date (VStr (shape_Ymd d "/")) = Some d.
Proof.
  open_shape (proj1 (proj2 (shape_nonempty d)) "/"%char).
  rewrite strip_shape_Ymd by auto. unfold date_formats; cbn [try_formats].
  rewrite (strptime_Ymd_day_first d "/" "/" "%d/%m/%Y" _ ltac:(auto) eq_refl).
  rewrite strptime_Ymd_slash_hyphen.
  rewrite (strptime_Ymd_day_first d "/" "-" "%d-%m-%Y" _ ltac:(auto) eq_refl).
  rewrite strptime_Ymd_slash_compact.
  rewrite (strptime_Ymd_day_first d "/" "/" "%d/%m/%y" _ ltac:(auto) eq_refl).
  by rewrite strptime_Ymd_slash.
Qed.

(** With a two-digit year the century is chosen by the parser: 00 to 68
    are read as 2000 to 2068 and 69 to 99 as 1969 to 1999. *)
Lemma parse_date_dmy :
  parse_date (VStr (shape_dmy d)) =
  let y := if year d mod 100 <=? 68 then year d mod 100 + 2000
           else year d mod 100 + 1900 in
  if valid_date (mkdate y (month d) (day d))
  then Some (mkdate y (month d) (day d)) else None.
Proof.
  open_shape (proj2 (proj2 (proj2 (shape_nonempty d)))).
  rewrite strip_shape_dmy. unfold date_formats; cbn [try_formats].
  rewrite (strptime_dmy_four_digit_year d Hvalid).
  rewrite (strptime_dmy_year_first d "%Y-%m-%d" _ eq_refl).
  rewrite strptime_dmy_hyphen.
  rewrite (strptime_dmy_year_first d "%Y%m%d" _ eq_refl).
  rewrite (strptime_dmy d Hvalid). cbv zeta.
  match goal with
  | |- context [valid_date (mkdate ?y ?m ?dd)] => destruct (valid_date (mkdate y m dd))
  end; [done|].
  by rewrite (strptime_dmy_year_first d "%Y/%m/%d" _ eq_refl).
Qed.

End ParseShapes.

Lemma strftime_shapes (d : date) :
  strftime d "%d/%m/%Y" = shape_dmY d "/" /\
  strftime d "%Y-%m-%d" = shape_Ymd d "-" /\
  strftime d "%d-%m-%Y" = shape_dmY d "-" /\
  strftime d "%Y%m%d" = shape_compact d /\
  strftime d "%d/%m/%y" = shape_dmy d /\
  strftime d "%Y/%m/%d" = shape_Ymd d "/".
Proof. repeat split. Qed.

(** A date of 1950 printed with a two-digit year is read back in 2050. *)
Lemma two_digit_year_not_roundtrip :
  valid_date (mkdate 1950 1 9) = true /\
  strftime (mkdate 1950 1 9) "%d/%m/%y" = "09/01/50" /\
  parse_date (VStr (strftime (mkdate 1950 1 9) "%d/%m/%y")) = Some (mkdate 2050 1 9) /\
  parse_date (VStr (strftime (mkdate 1950 1 9) "%d/%m/%y")) <> Some (mkdate 1950 1 9).
Proof. repeat split; try (vm_compute; reflexivity). vm_compute. discriminate. Qed.

(** C7, as the code has it. For every calendar date, printing it with one
    of the five formats that carry the year on four digits and parsing the
    result gives the date back. With DD/MM/YY the date comes back exactly
    when its year is within 1969..2068. *)
Theorem parse_date_roundtrip (d : date) :
  valid_date d = true ->
  (forall fmt : string,
     fmt ∈ ["%d/%m/%Y"; "%Y-%m-%d"; "%d-%m-%Y"; "%Y%m%d"; "%Y/%m/%d"] ->
     parse_date (VStr (strftime d fmt)) = Some d) /\
  (parse_date (VStr (strftime d "%d/%m/%y")) = Some d <-> 1969 <= year d <= 2068).
Proof.
  intros Hv.
  destruct (strftime_shapes d) as (E1 & E2 & E3 & E4 & E5 & E6). split.
  - intros fmt Hfmt.
    repeat (apply elem_of_cons in Hfmt as [-> | Hfmt]).
    + rewrite E1. by apply parse_date_dmY_slash.
    + rewrite E2. by apply parse_date_Ymd_hyphen.
    + rewrite E3. by apply parse_date_dmY_hyphen.
    + rewrite E4. by apply parse_date_compact.
    + rewrite E6. by apply parse_date_Ymd_slash.
    + by apply elem_of_nil in Hfmt.
  - rewrite E5, (parse_date_dmy d Hv). cbv zeta.
    pose proof (Z.mod_pos_bound (year d) 100 ltac:(lia)) as Hm.
    pose proof (Z.div_mod (year d) 100 ltac:(lia)) as Hdm.
    destruct (TempoFacts.valid_date_bounds d Hv) as (Hy & _ & _).
    split.
    + match goal with
      | |- context [valid_date (mkdate ?y ?m ?dd)] => destruct (valid_date (mkdate y m dd))
      end; [|done].
      destruct d as [y m dd]; simpl in *. intros [= Hy'].
      destruct (y mod 100 <=? 68) eqn:E; [apply Z.leb_le in E | apply Z.leb_gt in E]; lia.
    + intros Hrange.
      assert ((if year d mod 100 <=? 68 then year d mod 100 + 2000
               else year d mod 100 + 1900) = year d) as ->.
      { destruct (year d mod 100 <=? 68) eqn:E;
          [apply Z.leb_le in E | apply Z.leb_gt in E]; lia. }
      destruct d as [y m dd]; simpl in *. by rewrite Hv.
Qed.

Lemma parse_date_roundtrip_leap_day :
  (forall fmt : string,
     fmt ∈ ["%d/%m/%Y"; "%Y-%m-%d"; "%d-%m-%Y"; "%Y%m%d"; "%Y/%m/%d"] ->
     parse_date (VStr (strftime (mkdate 2024 2 29) fmt)) = Some (mkdate 2024 2 29)) /\
  (parse_date (VStr (strftime (mkdate 2024 2 29) "%d/%m/%y")) = Some (mkdate 2024 2 29) <->
   1969 <= 2024 <= 2068).
Proof. apply (parse_date_roundtrip (mkdate 2024 2 29)). reflexivity. Defined.

End DateFacts.

(** ** The validation loops of the ETL classes *)

Module EtlFacts.
Import Pandas DataValidator DataTransformer.

Lemma same_rows_refl (rows : list (Z * gmap string value)) :
  same_rows_outside [] rows rows.
Proof. induction rows; constructor; done. Qed.

Lemma same_rows_trans (cs1 cs2 : list string) (a b c : list (Z * gmap string value)) :
  same_rows_outside cs1 a b -> same_rows_outside cs2 b c ->
  same_rows_outside (cs1 ++ cs2) a c.
Proof.
  intros Hab. revert c. induction Hab as [|x y a b [Hi Hc] _ IH]; intros c Hbc;
    inversion Hbc as [|y' z b' c' [Hi' Hc'] Hrest]; subst; constructor.
  - split; [congruence|]. intros col Hcol.
    rewrite Hc', Hc; [done|..]; intros ?; apply Hcol, elem_of_app; auto.
  - by apply IH.
Qed.

Lemma same_rows_labels (cols : list string) (a b : list (Z * gmap string value)) :
  same_rows_outside cols a b -> map fst b = map fst a.
Proof. induction 1 as [|x y a b [Hi _] _ IH]; simpl; congruence. Qed.

Lemma same_rows_elem (cols : list string) (a b : list (Z * gmap string value))
    (idx : Z) (row' : gmap string value) :
  same_rows_outside cols a b -> (idx, row') ∈ b ->
  exists row, (idx, row) ∈ a /\ forall col, col ∉ cols -> row' !! col = row !! col.
Proof.
  induction 1 as [|x y a b [Hi Hc] _ IH]; intros Hin.
  - by apply elem_of_nil in Hin.
  - apply elem_of_cons in Hin as [<- | Hin].
    + destruct x as [i row]; simpl in *; subst. exists row. split; [constructor|done].
    + destruct (IH Hin) as (row & Hrow & Hcols). exists row. split; [by constructor|done].
Qed.

Lemma assign_column_rows (col : string) (f : gmap string value -> result value)
    (df df' : DataFrame) :
  assign_column col f df = Ok df' ->
  Forall2 (fun ir ir' : Z * gmap string value =>
             ir'.1 = ir.1 /\ exists v, f ir.2 = Ok v /\ ir'.2 = <[col := v]> ir.2)
          (records df) (records df').
Proof.
  unfold assign_column.
  destruct (mapM _ (records df)) as [rows|] eqn:Hm; [|done].
  simpl. intros [= <-]. simpl.
  apply mapM_Ok_inv in Hm. eapply Forall2_impl; [exact Hm|].
  intros [i row] [i' row']; simpl.
  destruct (f row) as [v|]; [|done]. simpl. intros [= <- <-]. eauto.
Qed.

Lemma assign_column_outside (col : string) (f : gmap string value -> result value)
    (df df' : DataFrame) :
  assign_column col f df = Ok df' ->
  same_rows_outside [col] (records df) (records df').
Proof.
  intros H. apply assign_column_rows in H.
  eapply Forall2_impl; [exact H|].
  intros ir ir' (Hi & v & _ & ->). split; [done|].
  intros c Hc. apply lookup_insert_ne. intros ->. apply Hc. constructor.
Qed.

Lemma map_column_rows (src dst : string) (f : value -> result value)
    (df df' : DataFrame) :
  map_column src dst f df = Ok df' ->
  Forall2 (fun ir ir' : Z * gmap string value =>
             ir'.1 = ir.1 /\
             exists v, f (row_get ir.2 src VNaN) = Ok v /\ ir'.2 = <[dst := v]> ir.2)
          (records df) (records df').
Proof.
  unfold map_column. destruct (has_column df src); [|done].
  apply assign_column_rows.
Qed.

Lemma map_column_outside (src dst : string) (f : value -> result value)
    (df df' : DataFrame) :
  map_column src dst f df = Ok df' ->
  same_rows_outside [dst] (records df) (records df').
Proof.
  unfold map_column. destruct (has_column df src); [|done].
  apply assign_column_outside.
Qed.

Lemma apply_column_outside (f : value -> result value) (col : string) (df df' : DataFrame) :
  apply_column f col df = Ok df' ->
  same_rows_outside [col] (records df) (records df').
Proof.
  unfold apply_column. destruct (has_column df col); [|done].
  destruct (mapM _ (records df)) as [rows|] eqn:Hm; [|done].
  simpl. intros [= <-]. simpl.
  apply mapM_Ok_inv in Hm. eapply Forall2_impl; [exact Hm|].
  intros [i row] [i' row']; simpl.
  destruct (f _) as [v|]; [|done]. simpl. intros [= <- <-]. split; [done|].
  intros c Hc. apply lookup_insert_ne. intros ->. apply Hc. constructor.
Qed.

Lemma apply_present_labels (f : value -> result value) (cols : list string)
    (df df' : DataFrame) :
  AbsenteismoETL.apply_present f cols df = Ok df' ->
  map fst (records df') = map fst (records df).
Proof.
  revert df. induction cols as [|col cols IH]; intros df; simpl.
  - by intros [= <-].
  - destruct (has_column df col).
    + destruct (apply_column f col df) as [df1|] eqn:H1; [|done]. simpl.
      intros H. rewrite (IH _ H).
      by eapply same_rows_labels, apply_column_outside.
    + simpl. apply IH.
Qed.

(** Each row of a frame that went through the loop left its errors, if
    any, in the list. *)
Lemma mapM_errors (validate_row : Z * gmap string value -> result (list etl_error))
    (rows : list (Z * gmap string value)) (errors : list (list etl_error))
    (ir : Z * gmap string value) :
  mapM validate_row rows = Ok errors -> ir ∈ rows ->
  exists errs, validate_row ir = Ok errs /\ forall e, e ∈ errs -> e ∈ concat errors.
Proof.
  intros Hm. apply mapM_Ok_inv in Hm.
  induction Hm as [|x errs rows errors Hx _ IH]; intros Hin.
  - by apply elem_of_nil in Hin.
  - apply elem_of_cons in Hin as [-> | Hin].
    + exists errs. split; [done|]. intros e He. simpl. apply elem_of_app. by left.
    + destruct (IH Hin) as (errs' & Hv & Hsub). exists errs'. split; [done|].
      intros e He. simpl. apply elem_of_app. right. by apply Hsub.
Qed.

Lemma recorded_sub (errs errors : list etl_error) (idx : Z) (message : string) :
  (forall e, e ∈ errs -> e ∈ errors) -> recorded errs idx message ->
  recorded errors idx message.
Proof. intros Hsub (e & He & ?). exists e. split; [by apply Hsub|done]. Qed.

Lemma rename_labels (mapping : list (string * string)) (df : DataFrame) :
  map fst (records (rename mapping df)) = map fst (records df).
Proof. unfold rename; simpl. rewrite map_map. by apply map_ext. Qed.

Lemma dropna_rows (subset : list string) (df df' : DataFrame) :
  dropna subset df = Ok df' ->
  records df' =
  List.filter (fun ir : Z * gmap string value =>
                 forallb (fun col => negb (isna (row_get ir.2 col VNaN))) subset)
              (records df).
Proof.
  unfold dropna. destruct (list_find _ subset) as [[? ?]|]; [done|].
  by intros [= <-].
Qed.

(** *** Employees *)

Lemma funcionario_validate_row (idx : Z) (row : gmap string value) (errs : list etl_error) :
  FuncionarioETL.validate_row (idx, row) = Ok errs ->
  (forall cpf, row !! "CPF" = Some cpf -> truthy cpf = true ->
               validate_cpf cpf = Ok false -> recorded errs idx "CPF inválido") /\
  (forall email, row !! "EMAIL" = Some email -> truthy email = true ->
                 validate_email email = Ok false -> recorded errs idx "Email inválido") /\
  (forall a e, row !! "DATA_ADMISSAO" = Some (VDate a) ->
               row !! "DATA_DEMISSAO" = Some (VDate e) -> date_leb a e = false ->
               recorded errs idx "Data demissão anterior à data admissão").
Proof.
  unfold FuncionarioETL.validate_row, row_item, row_get.
  destruct (row !! "CPF") as [cpf|] eqn:Hcpf; simpl; [|done].
  destruct (if truthy cpf then negb <$> validate_cpf cpf else Ok false)
    as [bad_cpf|] eqn:Hbc; simpl; [|done].
  destruct (row !! "EMAIL") as [email|] eqn:Hemail; simpl.
  - destruct (if truthy email then _ else Ok false) as [bad_email|] eqn:Hbe;
      cbn [mbind result_bind]; [|discriminate].
    destruct (validate_date_range _ _) as [range_ok|] eqn:Hr;
      cbn [mbind result_bind]; [|discriminate].
    intros [= <-]. repeat split.
    + intros ? [= <-] Ht Hv. rewrite Ht, Hv in Hbc. injection Hbc as <-.
      eexists. split; [constructor|done].
    + intros ? [= <-] Ht Hv. rewrite Ht in Hbe. simpl in Hbe. rewrite Hv in Hbe.
      injection Hbe as <-. eexists. split; [apply elem_of_app; right; constructor|done].
    + intros a e Ha He Hle. rewrite Ha, He in Hr. simpl in Hr.
      unfold validate_date_range in Hr. simpl in Hr. injection Hr as <-.
      rewrite Hle. eexists.
      split; [apply elem_of_app; right; apply elem_of_app; right; constructor|done].
  - destruct (validate_date_range _ _) as [range_ok|] eqn:Hr;
      cbn [mbind result_bind]; [|discriminate].
    intros [= <-]. repeat split.
    + intros ? [= <-] Ht Hv. rewrite Ht, Hv in Hbc. injection Hbc as <-.
      eexists. split; [constructor|done].
    + done.
    + intros a e Ha He Hle. rewrite Ha, He in Hr. simpl in Hr.
      unfold validate_date_range in Hr. simpl in Hr. injection Hr as <-.
      rewrite Hle. eexists. split; [apply elem_of_app; right; constructor|done].
Qed.

Lemma funcionario_derived_rows (today : date) (data out : DataFrame) :
  FuncionarioETL.calculate_derived_metrics today data = Ok out ->
  same_rows_outside FuncionarioETL.new_columns (records data) (records out).
Proof.
  unfold FuncionarioETL.calculate_derived_metrics.
  destruct (map_column "DATA_NASCIMENTO" "idade_atual" _ data) as [d1|] eqn:H1;
    cbn [mbind result_bind]; [|discriminate].
  destruct (assign_column "tempo_empresa" _ d1) as [d2|] eqn:H2;
    cbn [mbind result_bind]; [|discriminate].
  destruct (map_column "SEXO" "sexo_desc" _ d2) as [d3|] eqn:H3;
    cbn [mbind result_bind]; [|discriminate].
  destruct (map_column "ESTADOCIVIL" "estado_civil_desc" _ d3) as [d4|] eqn:H4;
    cbn [mbind result_bind]; [|discriminate].
  destruct (map_column "idade_atual" "faixa_etaria" _ d4) as [d5|] eqn:H5;
    cbn [mbind result_bind]; [|discriminate].
  intros H6.
  apply map_column_outside in H1, H3, H4, H5, H6.
  apply assign_column_outside in H2.
  apply (same_rows_trans ["idade_atual"] _ _ _ _ H1).
  apply (same_rows_trans ["tempo_empresa"] _ _ _ _ H2).
  apply (same_rows_trans ["sexo_desc"] _ _ _ _ H3).
  apply (same_rows_trans ["estado_civil_desc"] _ _ _ _ H4).
  apply (same_rows_trans ["faixa_etaria"] _ _ _ _ H5). exact H6.
Qed.

Lemma funcionario_process (today : date) (raw out : DataFrame) (errors : list etl_error) :
  FuncionarioETL.process_raw_data today raw = Ok (out, errors) ->
  map fst (records out) = map fst (records raw) /\
  forall idx row, (idx, row) ∈ records out ->
    (forall cpf, row !! "CPF" = Some cpf -> truthy cpf = true ->
                 validate_cpf cpf = Ok false -> recorded errors idx "CPF inválido") /\
    (forall email, row !! "EMAIL" = Some email -> truthy email = true ->
                   validate_email email = Ok false ->
                   recorded errors idx "Email inválido") /\
    (forall a e, row !! "DATA_ADMISSAO" = Some (VDate a) ->
                 row !! "DATA_DEMISSAO" = Some (VDate e) -> date_leb a e = false ->
                 recorded errors idx "Data demissão anterior à data admissão").
Proof.
  unfold FuncionarioETL.process_raw_data.
  destruct (apply_column clean_cpf "CPF" raw) as [d1|] eqn:H1; cbn [mbind result_bind]; [|discriminate].
  destruct (apply_column clean_phone "TELEFONECELULAR" d1) as [d2|] eqn:H2; cbn [mbind result_bind]; [|discriminate].
  destruct (apply_column clean_phone "TELEFONERESIDENCIAL" d2) as [d3|] eqn:H3;
    cbn [mbind result_bind]; [|discriminate].
  destruct (AbsenteismoETL.apply_present _ _ d3) as [processed|] eqn:H4; cbn [mbind result_bind]; [|discriminate].
  destruct (mapM FuncionarioETL.validate_row (records processed)) as [errss|] eqn:He;
    cbn [mbind result_bind]; [|discriminate].
  destruct (FuncionarioETL.calculate_derived_metrics today processed) as [out'|] eqn:Hd;
    cbn [mbind result_bind]; [|discriminate].
  intros [= <- <-].
  apply funcionario_derived_rows in Hd.
  split.
  - rewrite (same_rows_labels _ _ _ Hd), (apply_present_labels _ _ _ _ H4).
    rewrite (same_rows_labels _ _ _ (apply_column_outside _ _ _ _ H3)).
    rewrite (same_rows_labels _ _ _ (apply_column_outside _ _ _ _ H2)).
    by rewrite (same_rows_labels _ _ _ (apply_column_outside _ _ _ _ H1)).
  - intros idx row Hin.
    destruct (same_rows_elem _ _ _ _ _ Hd Hin) as (rowp & Hp & Hsame).
    destruct (mapM_errors _ _ _ _ He Hp) as (errs & Hv & Hsub).
    destruct (funcionario_validate_row _ _ _ Hv) as (Hc & Hm & Hr).
    assert (forall col, col ∈ ["CPF"; "EMAIL"; "DATA_ADMISSAO"; "DATA_DEMISSAO"] ->
                        row !! col = rowp !! col) as Hcols.
    { intros col Hcol. apply Hsame. unfold FuncionarioETL.new_columns.
      intros Hnew.
      repeat (apply elem_of_cons in Hcol as [-> | Hcol];
              [by repeat (apply elem_of_cons in Hnew as [? | Hnew]; [done|]);
                  apply elem_of_nil in Hnew|]).
      by apply elem_of_nil in Hcol. }
    repeat split.
    + intros cpf Hl. rewrite Hcols in Hl by repeat constructor.
      intros. eapply recorded_sub; [exact Hsub|]. by eapply Hc.
    + intros email Hl. rewrite Hcols in Hl by repeat constructor.
      intros. eapply recorded_sub; [exact Hsub|]. by eapply Hm.
    + intros a e Ha Hb. rewrite Hcols in Ha, Hb by repeat constructor.
      intros. eapply recorded_sub; [exact Hsub|]. by eapply Hr.
Qed.

(** *** Absences *)

Lemma Forall2_elem_r {A B : Type} (R : A -> B -> Prop) (a : list A) (b : list B) (y : B) :
  Forall2 R a b -> y ∈ b -> exists x, x ∈ a /\ R x y.
Proof.
  induction 1 as [|x y' a b Hxy _ IH]; intros Hin.
  - by apply elem_of_nil in Hin.
  - apply elem_of_cons in Hin as [-> | Hin].
    + exists x. split; [constructor|done].
    + destruct (IH Hin) as (x' & Hx' & HR). exists x'. split; [by constructor|done].
Qed.

Lemma count_business_days_nonneg (n : nat) (o : Z) : 0 <= count_business_days n o.
Proof.
  revert o; induction n as [|n IH]; intros o; simpl; [lia|].
  specialize (IH (o + 1)). destruct (_ <? 5); lia.
Qed.

Lemma calculate_work_days_nonneg (start_date end_date : value) (n : Z) :
  calculate_work_days start_date end_date = Ok n -> 0 <= n.
Proof.
  unfold calculate_work_days.
  destruct (negb (truthy start_date) || negb (truthy end_date)); [intros [= <-]; lia|].
  destruct start_date, end_date; try discriminate.
  intros [= <-]. apply count_business_days_nonneg.
Qed.

Lemma absenteismo_validate_row (idx : Z) (row : gmap string value) (errs : list etl_error) :
  AbsenteismoETL.validate_row (idx, row) = Ok errs ->
  (forall a e, row !! "data_inicio_atestado" = Some (VDate a) ->
               row !! "data_fim_atestado" = Some (VDate e) -> date_leb a e = false ->
               recorded errs idx "Data fim anterior à data início") /\
  (forall k, row !! "dias_afastados" = Some (VInt k) -> k < 0 ->
             recorded errs idx "Dias afastados negativo").
Proof.
  unfold AbsenteismoETL.validate_row, row_get.
  destruct (validate_date_range _ _) as [range_ok|] eqn:Hr;
    cbn [mbind result_bind]; [|discriminate].
  destruct (py_lt _ _) as [negative|] eqn:Hn; cbn [mbind result_bind]; [|discriminate].
  intros [= <-]. split.
  - intros a e Ha He Hle. rewrite Ha, He in Hr. simpl in Hr.
    unfold validate_date_range in Hr. simpl in Hr. injection Hr as <-.
    rewrite Hle. eexists. split; [apply elem_of_app; left; constructor|done].
  - intros k Hk Hneg. rewrite Hk in Hn. simpl default in Hn.
    rewrite py_lt_int in Hn. injection Hn as <-.
    replace (k <? 0) with true by (symmetry; apply Z.ltb_lt; lia).
    eexists. split; [apply elem_of_app; right; constructor|done].
Qed.

(** A negative day count in the output was already in the row: a missing
    count is filled with a count of business days, which is not negative. *)
Lemma fill_missing_days_negative (row : gmap string value) (v : value) (k : Z) :
  AbsenteismoETL.fill_missing_days row = Ok v -> v = VInt k -> k < 0 ->
  row !! "dias_afastados" = Some (VInt k).
Proof.
  unfold AbsenteismoETL.fill_missing_days, row_item.
  destruct (row !! "dias_afastados") as [dias|]; cbn [mbind result_bind]; [|discriminate].
  destruct (isna dias).
  - destruct (row !! "data_inicio_atestado") as [inicio|];
      cbn [mbind result_bind]; [|discriminate].
    destruct (row !! "data_fim_atestado") as [fim|];
      cbn [mbind result_bind]; [|discriminate].
    destruct (calculate_work_days _ _) as [n|] eqn:Hn;
      cbn [mbind result_bind]; [|discriminate].
    apply calculate_work_days_nonneg in Hn. intros [= <-] [= ->]. lia.
  - by intros [= ->] ->.
Qed.

Lemma absenteismo_derived_rows (today : date) (data out : DataFrame) :
  AbsenteismoETL.calculate_derived_metrics today data = Ok out ->
  Forall2 (fun ir ir' : Z * gmap string value =>
             ir'.1 = ir.1 /\
             (forall col, col ∉ "dias_afastados" :: AbsenteismoETL.new_columns ->
                          ir'.2 !! col = ir.2 !! col) /\
             (forall k, ir'.2 !! "dias_afastados" = Some (VInt k) -> k < 0 ->
                        ir.2 !! "dias_afastados" = Some (VInt k)))
          (records data) (records out).
Proof.
  unfold AbsenteismoETL.calculate_derived_metrics.
  destruct (has_column data "dias_afastados"); cbn [mbind result_bind]; [|discriminate].
  destruct (assign_column "dias_afastados" _ data) as [d1|] eqn:H1;
    cbn [mbind result_bind]; [|discriminate].
  destruct (map_column "sexo" "sexo_desc" _ d1) as [d2|] eqn:H2;
    cbn [mbind result_bind]; [|discriminate].
  destruct (map_column "tipo_atestado" "tipo_atestado_desc" _ d2) as [d3|] eqn:H3;
    cbn [mbind result_bind]; [|discriminate].
  destruct (assign_column "idade_na_data_inicio" _ d3) as [d4|] eqn:H4;
    cbn [mbind result_bind]; [|discriminate].
  intros H5.
  apply assign_column_rows in H1.
  apply map_column_outside in H2, H3, H5.
  apply assign_column_outside in H4.
  pose proof (same_rows_trans _ _ _ _ _ H2
                (same_rows_trans _ _ _ _ _ H3
                   (same_rows_trans _ _ _ _ _ H4 H5))) as Hrest.
  simpl app in Hrest. fold AbsenteismoETL.new_columns in Hrest.
  clear H2 H3 H4 H5. revert Hrest. generalize (records out). clear out.
  induction H1 as [|ir ir1 rows rows1 (Hi & v & Hv & Hrow) _ IH]; intros rows' Hrest;
    inversion Hrest as [|x y l l' [Hi' Hc'] Hrest']; subst; constructor.
  - split; [congruence|]. split.
    + intros col Hcol. rewrite Hc' by (intros ?; apply Hcol; by constructor).
      rewrite Hrow. apply lookup_insert_ne. intros <-. apply Hcol. constructor.
    + intros k Hk Hneg. rewrite Hc' in Hk.
      * rewrite Hrow, lookup_insert_eq in Hk. injection Hk as Hk.
        by eapply fill_missing_days_negative.
      * unfold AbsenteismoETL.new_columns. intros Hnew.
        repeat (apply elem_of_cons in Hnew as [? | Hnew]; [done|]).
        by apply elem_of_nil in Hnew.
  - by apply IH.
Qed.

Lemma parse_columns_labels (raw processed : DataFrame) :
  AbsenteismoETL.parse_columns raw = Ok processed ->
  map fst (records processed) = map fst (records raw).
Proof.
  unfold AbsenteismoETL.parse_columns.
  destruct (AbsenteismoETL.apply_present _ _ (rename _ raw)) as [d1|] eqn:H1;
    cbn [mbind result_bind]; [|discriminate].
  intros H2. rewrite (apply_present_labels _ _ _ _ H2), (apply_present_labels _ _ _ _ H1).
  apply rename_labels.
Qed.

Lemma absenteismo_process (today : date) (raw out : DataFrame) (errors : list etl_error) :
  AbsenteismoETL.process_raw_data today raw = Ok (out, errors) ->
  (exists processed,
     AbsenteismoETL.parse_columns raw = Ok processed /\
     map fst (records processed) = map fst (records raw) /\
     map fst (records out) =
     map fst (List.filter
                (fun ir : Z * gmap string value =>
                   forallb (fun col => negb (isna (row_get ir.2 col VNaN)))
                           AbsenteismoETL.critical_columns)
                (records processed))) /\
  forall idx row, (idx, row) ∈ records out ->
    (forall a e, row !! "data_inicio_atestado" = Some (VDate a) ->
                 row !! "data_fim_atestado" = Some (VDate e) -> date_leb a e = false ->
                 recorded errors idx "Data fim anterior à data início") /\
    (forall k, row !! "dias_afastados" = Some (VInt k) -> k < 0 ->
               recorded errors idx "Dias afastados negativo").
Proof.
  unfold AbsenteismoETL.process_raw_data.
  destruct (AbsenteismoETL.parse_columns raw) as [processed|] eqn:Hp;
    cbn [mbind result_bind]; [|discriminate].
  destruct (mapM AbsenteismoETL.validate_row (records processed)) as [errss|] eqn:He;
    cbn [mbind result_bind]; [|discriminate].
  destruct (dropna _ processed) as [valid_rows|] eqn:Hdrop;
    cbn [mbind result_bind]; [|discriminate].
  destruct (AbsenteismoETL.calculate_derived_metrics today valid_rows) as [out'|] eqn:Hd;
    cbn [mbind result_bind]; [|discriminate].
  intros [= <- <-].
  apply absenteismo_derived_rows in Hd. apply dropna_rows in Hdrop.
  split.
  - exists processed. split; [done|]. split; [by apply parse_columns_labels|].
    rewrite <- Hdrop. clear -Hd.
    induction Hd as [|x y a b (Hi & _) _ IH]; simpl; congruence.
  - intros idx row Hin.
    destruct (Forall2_elem_r _ _ _ _ Hd Hin) as ([i rowp] & Hp' & Hi & Hsame & Hneg).
    simpl in Hi, Hsame, Hneg. subst i.
    rewrite Hdrop in Hp'. apply list_elem_of_In, filter_In in Hp' as [Hp' _].
    apply list_elem_of_In in Hp'.
    destruct (mapM_errors _ _ _ _ He Hp') as (errs & Hv & Hsub).
    destruct (absenteismo_validate_row _ _ _ Hv) as (Hr & Hn).
    assert (forall col, col ∈ ["data_inicio_atestado"; "data_fim_atestado"] ->
                        row !! col = rowp !! col) as Hcols.
    { intros col Hcol. apply Hsame. unfold AbsenteismoETL.new_columns.
      intros Hnew.
      repeat (apply elem_of_cons in Hcol as [-> | Hcol];
              [by repeat (apply elem_of_cons in Hnew as [? | Hnew]; [done|]);
                  apply elem_of_nil in Hnew|]).
      by apply elem_of_nil in Hcol. }
    split.
    + intros a e Ha Hb. rewrite Hcols in Ha, Hb by repeat constructor.
      intros. eapply recorded_sub; [exact Hsub|]. by eapply Hr.
    + intros k Hk Hlt. eapply recorded_sub; [exact Hsub|].
      eapply Hn; [|done]. by apply Hneg.
Qed.





End EtlFacts.


(** ** Document expiration: days to expiry, status and flags *)

Module VencimentoFacts.
Import Pandas DataTransformer VencimentoETL.



Lemma Forall2_compose {A B C : Type} (R : A -> B -> Prop) (S : B -> C -> Prop)
    (a : list A) (b : list B) (c : list C) :
  Forall2 R a b -> Forall2 S b c -> Forall2 (fun x z => exists y, R x y /\ S y z) a c.
Proof.
  intros Hab. revert c. induction Hab as [|x y a b Hxy _ IH]; intros c Hbc;
    inversion Hbc; subst; constructor; eauto.
Qed.




End VencimentoFacts.

(** ** The matcher and the words of a regular expression *)

Module RegexFacts.
Import Regex RegexLang.

Lemma append_cons (c : ascii) (s t : string) : String c s +:+ t = String c (s +:+ t).
Proof. reflexivity. Qed.

Lemma append_nil_l (t : string) : EmptyString +:+ t = t.
Proof. reflexivity. Qed.

Ltac push_append := rewrite ?append_cons, ?append_nil_l.
Ltac push_append_in H := rewrite ?append_cons, ?append_nil_l in H.

Lemma append_nil_r (s : string) : s +:+ EmptyString = s.
Proof. induction s as [|c s IH]; push_append; [done|]. by rewrite IH. Qed.

Lemma append_assoc (a b c : string) : (a +:+ b) +:+ c = a +:+ (b +:+ c).
Proof. induction a as [|x a IH]; push_append; [done|]. by rewrite IH. Qed.

Lemma append_eq_nil (a b : string) :
  a +:+ b = EmptyString -> a = EmptyString /\ b = EmptyString.
Proof. destruct a; push_append; [done|discriminate]. Qed.

Lemma matches_seq_inv (r1 r2 : regex) (s : string) :
  matches (Seq r1 r2) s <->
  exists s1 s2, s = s1 +:+ s2 /\ matches r1 s1 /\ matches r2 s2.
Proof.
  split.
  - intros H. inversion H; subst. eauto.
  - intros (s1 & s2 & -> & H1 & H2). by constructor.
Qed.

Lemma matches_alt_inv (r1 r2 : regex) (s : string) :
  matches (Alt r1 r2) s <-> matches r1 s \/ matches r2 s.
Proof.
  split.
  - intros H. inversion H; subst; auto.
  - intros [H | H]; [by apply matches_alt_l | by apply matches_alt_r].
Qed.

Lemma matches_class_inv (p : ascii -> bool) (s : string) :
  matches (Class p) s <-> exists c, s = String c EmptyString /\ p c = true.
Proof.
  split.
  - intros H. inversion H; subst. eauto.
  - intros (c & -> & Hc). by constructor.
Qed.

Lemma nullable_matches (r : regex) : nullable r = true <-> matches r EmptyString.
Proof.
  induction r as [| |p|r1 IH1 r2 IH2|r1 IH1 r2 IH2|r IH]; simpl.
  - split; [done|]. intros H; inversion H.
  - split; [constructor|done].
  - split; [done|]. intros H; inversion H.
  - rewrite andb_true_iff, IH1, IH2, matches_seq_inv. split.
    + intros [H1 H2]. by exists EmptyString, EmptyString.
    + intros (s1 & s2 & E & H1 & H2). symmetry in E.
      apply append_eq_nil in E as [-> ->]. done.
  - by rewrite orb_true_iff, IH1, IH2, matches_alt_inv.
  - split; [constructor|done].
Qed.

(** A word of [Star r] that starts with [c] starts with a word of [r] that
    starts with [c]. *)
Lemma matches_star_cons_inv (r : regex) (c : ascii) (s : string) :
  matches (Star r) (String c s) ->
  exists s1 s2, s = s1 +:+ s2 /\ matches r (String c s1) /\ matches (Star r) s2.
Proof.
  intros H. remember (Star r) as r' eqn:Hr. remember (String c s) as w eqn:Hw.
  induction H as [| | | | | |r0 s1 s2 H1 _ H2 IH2]; try discriminate.
  injection Hr as ->. destruct s1 as [|c1 s1].
  - push_append_in Hw. by apply IH2.
  - push_append_in Hw. injection Hw as -> <-. eauto.
Qed.

Lemma deriv_matches (r : regex) (c : ascii) (s : string) :
  matches (deriv c r) s <-> matches r (String c s).
Proof.
  revert s. induction r as [| |p|r1 IH1 r2 IH2|r1 IH1 r2 IH2|r IH]; intros s; simpl.
  - split; intros H; inversion H.
  - split; intros H; inversion H.
  - destruct (p c) eqn:Hp.
    + split; intros H; inversion H; subst; by constructor.
    + split; intros H; inversion H; subst; congruence.
  - assert (matches (Seq (deriv c r1) r2) s <->
            exists s1 s2, s = s1 +:+ s2 /\ matches r1 (String c s1) /\ matches r2 s2) as Hseq.
    { rewrite matches_seq_inv. by setoid_rewrite IH1. }
    destruct (nullable r1) eqn:Hn.
    + rewrite matches_alt_inv, Hseq, IH2, matches_seq_inv. split.
      * intros [(s1 & s2 & -> & H1 & H2) | H2].
        -- by exists (String c s1), s2.
        -- exists EmptyString, (String c s). split; [done|].
           split; [by apply nullable_matches|done].
      * intros (s1 & s2 & E & H1 & H2). destruct s1 as [|c1 s1].
        -- push_append_in E. subst s2. by right.
        -- push_append_in E. injection E as <- ->. left. eauto.
    + rewrite Hseq, matches_seq_inv. split.
      * intros (s1 & s2 & -> & H1 & H2). by exists (String c s1), s2.
      * intros (s1 & s2 & E & H1 & H2). destruct s1 as [|c1 s1].
        -- apply nullable_matches in H1. congruence.
        -- push_append_in E. injection E as <- ->. eauto.
  - by rewrite !matches_alt_inv, IH1, IH2.
  - rewrite matches_seq_inv. setoid_rewrite IH. split.
    + intros (s1 & s2 & -> & H1 & H2).
      change (String c (s1 +:+ s2)) with (String c s1 +:+ s2). by constructor.
    + apply matches_star_cons_inv.
Qed.

Lemma fullmatch_matches (r : regex) (s : string) :
  fullmatch r s = true <-> matches r s.
Proof.
  revert r. induction s as [|c s IH]; intros r; simpl.
  - apply nullable_matches.
  - by rewrite IH, deriv_matches.
Qed.

(** *** Repetitions of a character class *)

Lemma matches_star_class (p : ascii -> bool) (s : string) :
  matches (Star (Class p)) s <-> all_chars p s.
Proof.
  unfold all_chars. split.
  - intros H. remember (Star (Class p)) as r eqn:Hr.
    induction H as [| | | | | |r0 s1 s2 H1 _ H2 IH2]; try discriminate.
    + constructor.
    + injection Hr as ->. apply matches_class_inv in H1 as (c & -> & Hc).
      simpl. constructor; [done|]. by apply IH2.
  - induction s as [|c s IH]; simpl; intros H; [constructor|].
    inversion_clear H as [|? ? Hc Hs].
    change (String c s) with (String c EmptyString +:+ s).
    constructor; [by constructor|by apply IH].
Qed.

Lemma matches_plus_class (p : ascii -> bool) (s : string) :
  matches (Plus (Class p)) s <-> s <> EmptyString /\ all_chars p s.
Proof.
  unfold Plus. rewrite matches_seq_inv. split.
  - intros (s1 & s2 & -> & H1 & H2).
    apply matches_class_inv in H1 as (c & -> & Hc).
    apply matches_star_class in H2. split; [done|]. by constructor.
  - intros [Hne H]. destruct s as [|c s]; [done|].
    inversion_clear H as [|? ? Hc Hs].
    exists (String c EmptyString), s. split; [done|].
    split; [by constructor|by apply matches_star_class].
Qed.

Lemma matches_atleast2_class (p : ascii -> bool) (s : string) :
  matches (AtLeast2 (Class p)) s <-> (2 <= String.length s)%nat /\ all_chars p s.
Proof.
  unfold AtLeast2. rewrite matches_seq_inv. split.
  - intros (s1 & s2 & -> & H1 & H2).
    apply matches_class_inv in H1 as (c & -> & Hc).
    change (Seq (Class p) (Star (Class p))) with (Plus (Class p)) in H2.
    apply matches_plus_class in H2 as [Hne H2].
    destruct s2 as [|c2 s2]; [done|]. split; [simpl; lia|]. by constructor.
  - intros [Hlen H]. destruct s as [|c [|c2 s]]; simpl in Hlen; [lia|lia|].
    inversion_clear H as [|? ? Hc Hs].
    exists (String c EmptyString), (String c2 s). split; [done|].
    split; [by constructor|].
    change (Seq (Class p) (Star (Class p))) with (Plus (Class p)).
    by apply matches_plus_class.
Qed.

Lemma matches_char (c : ascii) (s : string) :
  matches (Char c) s <-> s = String c EmptyString.
Proof.
  unfold Char. rewrite matches_class_inv. split.
  - intros (c' & -> & Hc). by apply Ascii.eqb_eq in Hc as ->.
  - intros ->. exists c. split; [done|]. apply Ascii.eqb_refl.
Qed.

End RegexFacts.


(** ** The validators on arbitrary strings *)

Module ValidatorShapes.
Import Regex RegexLang RegexFacts DataValidator DataTransformer NationalIdSpec.

(** *** E-mail addresses *)

Lemma email_words (s : string) :
  matches email_pattern s <->
  exists local domain tld : string,
    s = local +:+ "@" +:+ domain +:+ "." +:+ tld /\
    local <> EmptyString /\ all_chars email_local local /\
    domain <> EmptyString /\ all_chars email_domain domain /\
    (2 <= String.length tld)%nat /\ all_chars is_alpha tld.
Proof.
  unfold email_pattern. split.
  - intros H.
    apply matches_seq_inv in H as (local & r1 & -> & Hl & H).
    apply matches_seq_inv in H as (at_ & r2 & -> & Hat & H).
    apply matches_seq_inv in H as (domain & r3 & -> & Hd & H).
    apply matches_seq_inv in H as (dot & tld & -> & Hdot & Ht).
    apply matches_char in Hat as ->. apply matches_char in Hdot as ->.
    apply matches_plus_class in Hl as [? ?]. apply matches_plus_class in Hd as [? ?].
    apply matches_atleast2_class in Ht as [? ?].
    by exists local, domain, tld.
  - intros (local & domain & tld & -> & ? & ? & ? & ? & ? & ?).
    constructor; [by apply matches_plus_class|].
    constructor; [by apply matches_char|].
    constructor; [by apply matches_plus_class|].
    constructor; [by apply matches_char|by apply matches_atleast2_class].
Qed.

(** X1. [validate_email] accepts the empty string, and a non-empty string
    exactly when it reads local@domain.tld, the local part one or more of
    the letters, digits and [._%+-], the domain one or more of the letters,
    digits and [.-], the last label two or more letters, the whole
    optionally followed by one newline. *)
Theorem validate_email_shape (s : string) :
  validate_email (VStr s) = Ok true <->
  s = EmptyString \/
  exists local domain tld : string,
    (s = local +:+ "@" +:+ domain +:+ "." +:+ tld \/
     s = local +:+ "@" +:+ domain +:+ "." +:+ tld +:+ String "010" EmptyString) /\
    local <> EmptyString /\ all_chars email_local local /\
    domain <> EmptyString /\ all_chars email_domain domain /\
    (2 <= String.length tld)%nat /\ all_chars is_alpha tld.
Proof.
  destruct s as [|c s0] eqn:Hs; [split; [by left|done]|].
  assert (s <> EmptyString) as Hne by (by subst s).
  rewrite <- Hs. unfold validate_email.
  replace (truthy (VStr s)) with true by (by subst s).
  simpl negb. cbv iota. unfold match_anchored. clear c s0 Hs.
  split.
  - intros [= H]. right. apply orb_true_iff in H as [H | H]; apply fullmatch_matches in H.
    + apply email_words in H as (local & domain & tld & E & H).
      exists local, domain, tld. split; [by left|done].
    + apply matches_seq_inv in H as (s1 & nl & E & H & Hnl).
      apply matches_char in Hnl as ->.
      apply email_words in H as (local & domain & tld & -> & H).
      exists local, domain, tld. split; [|done]. right.
      by rewrite E, !append_assoc.
  - intros [E | (local & domain & tld & [E | E] & H)]; [done| |]; f_equal;
      apply orb_true_iff.
    + left. apply fullmatch_matches, email_words. by exists local, domain, tld.
    + right. apply fullmatch_matches, matches_seq_inv.
      exists (local +:+ "@" +:+ domain +:+ "." +:+ tld), (String "010" EmptyString).
      split; [by rewrite E, !append_assoc|].
      split; [|by apply matches_char].
      apply email_words. by exists local, domain, tld.
Qed.

(** *** National identifiers *)

Lemma cnpj_calculate_digit_range (s : string) (weights : list Z) :
  0 <= cnpj_calculate_digit s weights <= 9.
Proof.
  unfold cnpj_calculate_digit.
  pose proof (Z.mod_pos_bound (cnpj_total s weights) 11 ltac:(lia)) as H.
  destruct (cnpj_total s weights mod 11 <? 2) eqn:E; [lia|].
  apply Z.ltb_ge in E. lia.
Qed.

Lemma string_eqb_two (a b x y : ascii) :
  String.eqb (String a (String b EmptyString)) (String x (String y EmptyString)) = true <->
  a = x /\ b = y.
Proof.
  rewrite String.eqb_eq. split; [by intros [= -> ->]|by intros [-> ->]].
Qed.

(** X2. Twelve digits have exactly one pair of check characters:
    [validate_cnpj] accepts the fourteen characters for that pair and for
    no other, digits or not. *)
Theorem validate_cnpj_unique_completion (base : string) :
  String.length base = 12%nat ->
  all_chars is_digit base ->
  exists a b : ascii,
    is_digit a = true /\ is_digit b = true /\
    forall a' b' : ascii,
      validate_cnpj (VStr (base +:+ String a' (String b' EmptyString))) = Ok true <->
      a' = a /\ b' = b.
Proof.
  intros Hlen Hd. unfold all_chars in Hd.
  do 12 (destruct base as [|? base]; [simpl in Hlen; lia|]).
  destruct base; [|simpl in Hlen; lia]. clear Hlen.
  simpl in Hd.
  repeat match goal with
         | H : Forall _ (_ :: _) |- _ => inversion_clear H
         end.
  set (base := String a (String a0 (String a1 (String a2 (String a3 (String a4
                (String a5 (String a6 (String a7 (String a8 (String a9
                (String a10 EmptyString)))))))))))).
  pose proof (cnpj_calculate_digit_range base weights1) as R1.
  set (d1 := cnpj_calculate_digit base weights1) in *.
  pose proof (cnpj_calculate_digit_range (base +:+ String (digit_char d1) EmptyString) weights2)
    as R2.
  set (d2 := cnpj_calculate_digit (base +:+ String (digit_char d1) EmptyString) weights2) in *.
  exists (digit_char d1), (digit_char d2).
  split; [by apply is_digit_char|]. split; [by apply is_digit_char|].
  intros a' b'. unfold validate_cnpj.
  change (truthy (VStr (base +:+ String a' (String b' EmptyString)))) with true.
  cbv [negb]. unfold strip_non_digits, base. cbn [append string_filter].
  push_append. cbn [string_filter].
  repeat match goal with
         | H : is_digit ?c = true |- _ => rewrite H; clear H
         end.
  destruct (is_digit a') eqn:Ha, (is_digit b') eqn:Hb.
  - change (last_two _) with (String a' (String b' EmptyString)).
    change (prefix 12 _) with base.
    change (prefix 13 (String a _)) with (base +:+ String a' EmptyString).
    change (strlen _ =? 14) with true. cbv iota.
    fold d1.
    pose proof (cnpj_calculate_digit_range (base +:+ String a' EmptyString) weights2) as R2'.
    rewrite (str_of_digit _ R1), (str_of_digit _ R2').
    change (String (digit_char d1) EmptyString +:+ ?x) with (String (digit_char d1) x).
    split.
    + intros [= H]. apply string_eqb_two in H as [-> ->]. done.
    + intros [-> ->]. f_equal. by apply string_eqb_two.
  - change (strlen _ =? 14) with false. cbv iota. split; [done|].
    intros [_ ->]. by rewrite is_digit_char in Hb.
  - change (strlen _ =? 14) with false. cbv iota. split; [done|].
    intros [-> _]. by rewrite is_digit_char in Ha.
  - change (strlen _ =? 14) with false. cbv iota. split; [done|].
    intros [-> _]. by rewrite is_digit_char in Ha.
Qed.

Lemma validate_cnpj_unique_completion_sample :
  exists a b : ascii,
    is_digit a = true /\ is_digit b = true /\
    forall a' b' : ascii,
      validate_cnpj (VStr ("112223330001" +:+ String a' (String b' EmptyString))) = Ok true <->
      a' = a /\ b' = b.
Proof.
  apply (validate_cnpj_unique_completion "112223330001"); [reflexivity|].
  unfold all_chars. simpl. repeat constructor.
Defined.


Lemma validate_cpf_empty_digits (s : string) :
  strip_non_digits s = EmptyString -> validate_cpf (VStr s) = Ok false.
Proof.
  intros H. unfold validate_cpf. destruct (negb (truthy (VStr s))); [done|].
  by rewrite H.
Qed.

Lemma validate_cnpj_empty_digits (s : string) :
  strip_non_digits s = EmptyString -> validate_cnpj (VStr s) = Ok false.
Proof.
  intros H. unfold validate_cnpj. destruct (negb (truthy (VStr s))); [done|].
  by rewrite H.
Qed.

Lemma same_digits_same_answer (s t : string) :
  strip_non_digits s = strip_non_digits t ->
  validate_cpf (VStr s) = validate_cpf (VStr t) /\
  validate_cnpj (VStr s) = validate_cnpj (VStr t).
Proof.
  intros H.
  destruct s as [|c s].
  { symmetry in H. change (strip_non_digits "") with EmptyString in H.
    by rewrite (validate_cpf_empty_digits _ H), (validate_cnpj_empty_digits _ H). }
  destruct t as [|c' t].
  { change (strip_non_digits "") with EmptyString in H.
    by rewrite (validate_cpf_empty_digits _ H), (validate_cnpj_empty_digits _ H). }
  unfold validate_cpf, validate_cnpj.
  change (truthy (VStr (String c s))) with true.
  change (truthy (VStr (String c' t))) with true.
  cbv [negb]. by rewrite H.
Qed.

(** X3. The two identifier validators read the digits of their argument
    and nothing else: two strings with the same digits in the same order
    get the same answer, whatever punctuation, letters or blanks surround
    the digits. *)
Theorem national_ids_ignore_punctuation (s t : string) :
  strip_non_digits s = strip_non_digits t ->
  validate_cpf (VStr s) = validate_cpf (VStr t) /\
  validate_cnpj (VStr s) = validate_cnpj (VStr t).
Proof. apply same_digits_same_answer. Qed.

Lemma national_ids_ignore_punctuation_sample :
  validate_cpf (VStr "111.444.777-35") = validate_cpf (VStr "11144477735") /\
  validate_cnpj (VStr "11.222.333/0001-81") = validate_cnpj (VStr "11222333000181").
Proof.
  split.
  - apply (national_ids_ignore_punctuation "111.444.777-35" "11144477735"). vm_compute. reflexivity.
  - apply (national_ids_ignore_punctuation "11.222.333/0001-81" "11222333000181"). vm_compute. reflexivity.
Defined.


End ValidatorShapes.


(** ** Times of day, blanks around a date, ages and working days *)

Module TransformerFacts.
Import Strptime DataTransformer DateFacts RegexLang RegexFacts.

(** *** The directives of a time *)

Lemma colon_not_digit (c : ascii) : is_digit c = true -> Ascii.eqb ":" c = false.
Proof.
  intros H. destruct (is_digit_inv c H) as [Hv ->].
  revert Hv. generalize (digit_value c). intros v Hv.
  assert (v = 0 \/ v = 1 \/ v = 2 \/ v = 3 \/ v = 4 \/ v = 5 \/ v = 6 \/
          v = 7 \/ v = 8 \/ v = 9) as Hc by lia.
  repeat (destruct Hc as [-> | Hc]; [reflexivity|]). by subst.
Qed.

(** An hour followed by a colon. *)
Lemma regex_match_hour_sep (n : Z) :
  0 <= n < 0 + Z.of_nat 24 ->
  forall (fmt : list directive) (rest : string) (f : fields),
    regex_match (Dir_H :: Lit ":" :: fmt) (pad2 n +:+ String ":" rest) f =
    regex_match fmt rest (set_field Dir_H (pad2 n) f).
Proof.
  revert n. by_range 0 24%nat; cbv beta.
  repeat (apply Forall_cons_2; [intros fmt rest f; step; repeat step; finish|]).
  apply Forall_nil_2.
Qed.

(** An hour and a colon fail before a digit. *)
Lemma regex_match_hour_sep_digit (n : Z) :
  0 <= n < 0 + Z.of_nat 24 ->
  forall (c : ascii) (fmt : list directive) (rest : string) (f : fields),
    Ascii.eqb ":" c = false ->
    regex_match (Dir_H :: Lit ":" :: fmt) (pad2 n +:+ String c rest) f = None.
Proof.
  revert n. by_range 0 24%nat; cbv beta.
  repeat (apply Forall_cons_2;
          [intros c fmt rest f Hc; step; rewrite !regex_match_lit, ?Hc; reflexivity|]).
  apply Forall_nil_2.
Qed.

(** An hour directly followed by the rest of the format. *)
Lemma regex_match_hour_first (n : Z) :
  0 <= n < 0 + Z.of_nat 24 ->
  forall (fmt : list directive) (rest : string) (f : fields) (r : fields * string),
    regex_match fmt rest (set_field Dir_H (pad2 n) f) = Some r ->
    regex_match (Dir_H :: fmt) (pad2 n +:+ rest) f = Some r.
Proof.
  revert n. by_range 0 24%nat; cbv beta.
  repeat (apply Forall_cons_2;
          [intros fmt rest f r Hr; step;
           match type of Hr with
           | context [pad2 ?n] =>
               let v := eval vm_compute in (pad2 n) in change (pad2 n) with v in Hr
           end; by rewrite Hr|]).
  apply Forall_nil_2.
Qed.

(** An hour and a minute leave the colon and what follows it. *)
Lemma regex_match_hour_minute_colon (n : Z) :
  0 <= n < 0 + Z.of_nat 24 ->
  forall (rest : string) (f : fields),
    exists f' : fields,
      regex_match [Dir_H; Dir_M] (pad2 n +:+ String ":" rest) f = Some (f', String ":" rest).
Proof.
  revert n. by_range 0 24%nat; cbv beta.
  repeat (apply Forall_cons_2;
          [intros rest f; step; repeat step; eexists; reflexivity|]).
  apply Forall_nil_2.
Qed.

Lemma regex_match_minute_sep (n : Z) :
  0 <= n < 0 + Z.of_nat 60 ->
  forall (fmt : list directive) (rest : string) (f : fields),
    regex_match (Dir_M :: Lit ":" :: fmt) (pad2 n +:+ String ":" rest) f =
    regex_match fmt rest (set_field Dir_M (pad2 n) f).
Proof.
  revert n. by_range 0 60%nat; cbv beta.
  repeat (apply Forall_cons_2; [intros fmt rest f; step; repeat step; finish|]).
  apply Forall_nil_2.
Qed.

Lemma regex_match_minute_end (n : Z) :
  0 <= n < 0 + Z.of_nat 60 ->
  forall f : fields,
    regex_match [Dir_M] (pad2 n) f = Some (set_field Dir_M (pad2 n) f, EmptyString).
Proof.
  revert n. by_range 0 60%nat; cbv beta.
  repeat (apply Forall_cons_2; [intros f; step; reflexivity|]).
  apply Forall_nil_2.
Qed.

Lemma regex_match_minute_colon (n : Z) :
  0 <= n < 0 + Z.of_nat 60 ->
  forall (rest : string) (f : fields),
    regex_match [Dir_M] (pad2 n +:+ String ":" rest) f =
    Some (set_field Dir_M (pad2 n) f, String ":" rest).
Proof.
  revert n. by_range 0 60%nat; cbv beta.
  repeat (apply Forall_cons_2; [intros rest f; step; reflexivity|]).
  apply Forall_nil_2.
Qed.

Lemma regex_match_second_end (n : Z) :
  0 <= n < 0 + Z.of_nat 60 ->
  forall f : fields,
    regex_match [Dir_S] (pad2 n) f = Some (set_field Dir_S (pad2 n) f, EmptyString).
Proof.
  revert n. by_range 0 60%nat; cbv beta.
  repeat (apply Forall_cons_2; [intros f; step; reflexivity|]).
  apply Forall_nil_2.
Qed.

Lemma valid_time_range (h m s : Z) :
  0 <= h <= 23 -> 0 <= m <= 59 -> 0 <= s <= 59 -> valid_time (mktime h m s) = true.
Proof.
  intros. unfold valid_time; simpl. rewrite !andb_true_iff, !Z.leb_le. lia.
Qed.

Lemma strptime_time (s fmt : string) (ds : list directive) (h m sec : Z) :
  compile_format fmt = Some ds ->
  regex_match ds s default_fields = Some (mkfields 1900 1 1 h m sec, EmptyString) ->
  valid_time (mktime h m sec) = true ->
  strptime s fmt = Ok (mkdate 1900 1 1, mktime h m sec).
Proof.
  intros Hc Hm Hv. unfold strptime. rewrite Hc, Hm. simpl. by rewrite Hv.
Qed.

Lemma strptime_leftover (s fmt : string) (ds : list directive) (f : fields)
    (c : ascii) (rest : string) :
  compile_format fmt = Some ds ->
  regex_match ds s default_fields = Some (f, String c rest) ->
  strptime s fmt = Raise ValueError.
Proof. intros Hc Hm. unfold strptime. by rewrite Hc, Hm. Qed.

(** [parse_time] on a non-empty string is the loop over the formats. *)
Lemma parse_time_string (c : ascii) (s : string) :
  parse_time (VStr (String c s)) = try_formats snd (strip (String c s)) time_formats.
Proof. reflexivity. Qed.

Ltac clean_padded :=
  symmetry; apply strip_clean; cbv [pad2];
  cbn [String.append list_ascii_of_string];
  repeat (apply Forall_cons_2;
          [first [reflexivity | apply digit_not_space, digit_char_mod]|]);
  apply Forall_nil_2.

Section Times.
Variables h m s : Z.
Hypothesis Hh : 0 <= h <= 23.
Hypothesis Hm : 0 <= m <= 59.
Hypothesis Hs : 0 <= s <= 59.

Let hour_range : 0 <= h < 0 + Z.of_nat 24.
Proof. lia. Qed.

Let minute_range : 0 <= m < 0 + Z.of_nat 60.
Proof. lia. Qed.

Let second_range : 0 <= s < 0 + Z.of_nat 60.
Proof. lia. Qed.

Ltac time_fields :=
  unfold set_field, default_fields;
  cbn [f_year f_month f_day f_hour f_minute f_second];
  rewrite ?int_of_pad2 by lia; reflexivity.

Lemma parse_time_colon :
  parse_time (VStr (pad2 h +:+ String ":" (pad2 m))) = Some (mktime h m 0).
Proof.
  change (pad2 h +:+ String ":" (pad2 m))
    with (String (digit_char (h / 10 mod 10))
            (String (digit_char (h mod 10)) (String ":" (pad2 m)))).
  rewrite parse_time_string.
  change (String (digit_char (h / 10 mod 10))
            (String (digit_char (h mod 10)) (String ":" (pad2 m))))
    with (pad2 h +:+ String ":" (pad2 m)).
  replace (strip (pad2 h +:+ String ":" (pad2 m))) with (pad2 h +:+ String ":" (pad2 m)).
  2:{ clean_padded. }
  unfold time_formats; cbn [try_formats].
  erewrite (strptime_time _ "%H:%M" _ h m 0); [reflexivity|vm_compute; reflexivity| |].
  - rewrite regex_match_hour_sep by apply hour_range.
    rewrite regex_match_minute_end by apply minute_range. do 2 f_equal. time_fields.
  - apply valid_time_range; lia.
Qed.

Lemma parse_time_compact :
  parse_time (VStr (pad2 h +:+ pad2 m)) = Some (mktime h m 0).
Proof.
  change (pad2 h +:+ pad2 m)
    with (String (digit_char (h / 10 mod 10))
            (String (digit_char (h mod 10)) (pad2 m))).
  rewrite parse_time_string.
  change (String (digit_char (h / 10 mod 10)) (String (digit_char (h mod 10)) (pad2 m)))
    with (pad2 h +:+ pad2 m).
  replace (strip (pad2 h +:+ pad2 m)) with (pad2 h +:+ pad2 m).
  2:{ clean_padded. }
  unfold time_formats; cbn [try_formats].
  rewrite (strptime_no_match _ "%H:%M" [Dir_H; Lit ":"; Dir_M] eq_refl).
  2:{ change (pad2 m) with (String (digit_char (m / 10 mod 10))
                              (String (digit_char (m mod 10)) EmptyString)).
      apply regex_match_hour_sep_digit; [apply hour_range|].
      apply colon_not_digit, digit_char_mod. }
  erewrite (strptime_time _ "%H%M" _ h m 0); [reflexivity|vm_compute; reflexivity| |].
  - eapply regex_match_hour_first; [apply hour_range|].
    rewrite regex_match_minute_end by apply minute_range. do 2 f_equal. time_fields.
  - apply valid_time_range; lia.
Qed.

Lemma parse_time_seconds :
  parse_time (VStr (pad2 h +:+ String ":" (pad2 m +:+ String ":" (pad2 s)))) =
  Some (mktime h m s).
Proof.
  set (tail := pad2 m +:+ String ":" (pad2 s)).
  change (pad2 h +:+ String ":" tail)
    with (String (digit_char (h / 10 mod 10))
            (String (digit_char (h mod 10)) (String ":" tail))).
  rewrite parse_time_string.
  change (String (digit_char (h / 10 mod 10))
            (String (digit_char (h mod 10)) (String ":" tail)))
    with (pad2 h +:+ String ":" tail).
  replace (strip (pad2 h +:+ String ":" tail)) with (pad2 h +:+ String ":" tail).
  2:{ unfold tail. clean_padded. }
  unfold time_formats; cbn [try_formats].
  erewrite (strptime_leftover _ "%H:%M" [Dir_H; Lit ":"; Dir_M]);
    [|reflexivity|].
  2:{ rewrite regex_match_hour_sep by apply hour_range.
      unfold tail. by rewrite regex_match_minute_colon by apply minute_range. }
  destruct (regex_match_hour_minute_colon h hour_range tail default_fields) as [f' Hf'].
  rewrite (strptime_leftover _ "%H%M" [Dir_H; Dir_M] f' ":" tail eq_refl Hf').
  erewrite (strptime_time _ "%H:%M:%S" _ h m s); [reflexivity|vm_compute; reflexivity| |].
  - rewrite regex_match_hour_sep by apply hour_range. unfold tail.
    rewrite regex_match_minute_sep by apply minute_range.
    rewrite regex_match_second_end by apply second_range. do 2 f_equal. time_fields.
  - apply valid_time_range; lia.
Qed.

End Times.

(** X5. A time of day written HH:MM, HHMM or HH:MM:SS with two digits per
    field is read back by [parse_time]: the first two give the hour and the
    minute with zero seconds, the third the three fields. *)
Theorem parse_time_roundtrip (h m s : Z) :
  0 <= h <= 23 -> 0 <= m <= 59 -> 0 <= s <= 59 ->
  parse_time (VStr (pad2 h +:+ String ":" (pad2 m))) = Some (mktime h m 0) /\
  parse_time (VStr (pad2 h +:+ pad2 m)) = Some (mktime h m 0) /\
  parse_time (VStr (pad2 h +:+ String ":" (pad2 m +:+ String ":" (pad2 s)))) =
    Some (mktime h m s).
Proof.
  intros Hh Hm Hs. split; [|split].
  - by apply (parse_time_colon h m s).
  - by apply (parse_time_compact h m s).
  - by apply (parse_time_seconds h m s).
Qed.

Lemma parse_time_roundtrip_sample :
  parse_time (VStr "09:05") = Some (mktime 9 5 0) /\
  parse_time (VStr "0905") = Some (mktime 9 5 0) /\
  parse_time (VStr "09:05:59") = Some (mktime 9 5 59).
Proof. apply (parse_time_roundtrip 9 5 59); lia. Defined.

(** *** Blanks around a value *)

Lemma lstrip_head (s : string) :
  lstrip s = EmptyString \/
  exists c r, lstrip s = String c r /\ is_space c = false.
Proof.
  induction s as [|c s IH]; simpl; [by left|].
  destruct (is_space c) eqn:Hc; [done|]. right. by exists c, s.
Qed.

Lemma rstrip_idem (s : string) : rstrip (rstrip s) = rstrip s.
Proof.
  induction s as [|c s IH]; simpl; [done|].
  destruct (is_space c && String.eqb (rstrip s) "") eqn:E; simpl; [done|].
  by rewrite IH, E.
Qed.

Lemma strip_idem (s : string) : strip (strip s) = strip s.
Proof.
  unfold strip. destruct (lstrip_head s) as [-> | (c & r & -> & Hc)]; [done|].
  simpl. rewrite Hc. simpl. rewrite Hc. simpl. by rewrite Hc, rstrip_idem.
Qed.

Lemma strptime_valid (s fmt : string) (dt : date * time) :
  strptime s fmt = Ok dt -> valid_date dt.1 = true /\ valid_time dt.2 = true.
Proof.
  unfold strptime. destruct (compile_format fmt) as [ds|]; [|done].
  destruct (regex_match ds s default_fields) as [[f rest]|]; [|done].
  destruct (negb (String.eqb rest "")); [done|].
  destruct (valid_date _ && valid_time _) eqn:E; [|done].
  intros [= <-]. by apply andb_true_iff in E.
Qed.

Lemma try_formats_valid {A : Type} (proj : date * time -> A) (s : string)
    (formats : list string) (a : A) :
  try_formats proj s formats = Some a ->
  exists dt, a = proj dt /\ valid_date dt.1 = true /\ valid_time dt.2 = true.
Proof.
  induction formats as [|fmt formats IH]; simpl; [done|].
  destruct (strptime s fmt) as [dt|] eqn:E; [|exact IH].
  intros [= <-]. exists dt. split; [done|]. by apply strptime_valid in E.
Qed.

Lemma lstrip_blanks (l s : string) :
  all_chars is_space l -> lstrip (l +:+ s) = lstrip s.
Proof.
  induction l as [|c l IH]; intros H; [done|].
  apply Forall_cons in H as [Hc Hl].
  rewrite append_cons. simpl. rewrite Hc. by apply IH.
Qed.

Lemma rstrip_blanks (r : string) : all_chars is_space r -> rstrip r = EmptyString.
Proof.
  induction r as [|c r IH]; intros H; [done|].
  apply Forall_cons in H as [Hc Hr].
  simpl. by rewrite (IH Hr), Hc.
Qed.

Lemma rstrip_append_blanks (s r : string) :
  all_chars is_space r -> rstrip (s +:+ r) = rstrip s.
Proof.
  intros Hr. induction s as [|c s IH].
  - rewrite append_nil_l. by apply rstrip_blanks.
  - rewrite append_cons. simpl. by rewrite IH.
Qed.

Lemma lstrip_append (s r : string) :
  lstrip s <> EmptyString -> lstrip (s +:+ r) = lstrip s +:+ r.
Proof.
  induction s as [|c s IH]; intros H; [done|].
  rewrite append_cons. simpl in *.
  destruct (is_space c); [by apply IH|by rewrite append_cons].
Qed.

Lemma lstrip_all_blanks (s : string) :
  lstrip s = EmptyString -> all_chars is_space s.
Proof.
  induction s as [|c s IH]; simpl; [constructor|].
  destruct (is_space c) eqn:Hc; [|done].
  intros H. constructor; [done|by apply IH].
Qed.

(** Blanks before and after a string do not change what is left of it. *)
Lemma strip_padded (l s r : string) :
  all_chars is_space l -> all_chars is_space r ->
  strip (l +:+ s +:+ r) = strip s.
Proof.
  intros Hl Hr. unfold strip. rewrite (lstrip_blanks _ _ Hl).
  destruct (lstrip s) as [|c t] eqn:E.
  - apply lstrip_all_blanks in E.
    assert (all_chars is_space (s +:+ r)) as Hsr.
    { clear -E Hr. induction s as [|c s IH]; [done|].
      apply Forall_cons in E as [Hc Hs]. rewrite append_cons.
      constructor; [done|by apply IH]. }
    replace (lstrip (s +:+ r)) with (lstrip ((s +:+ r) +:+ EmptyString))
      by (by rewrite append_nil_r).
    by rewrite (lstrip_blanks _ _ Hsr).
  - rewrite lstrip_append by (by rewrite E). rewrite E.
    by apply rstrip_append_blanks.
Qed.

Lemma parse_date_stripped (s : string) :
  parse_date (VStr s) = try_formats fst (strip s) date_formats.
Proof. destruct s as [|c s]; [by vm_compute|apply parse_date_string]. Qed.

Lemma parse_time_stripped (s : string) :
  parse_time (VStr s) = try_formats snd (strip s) time_formats.
Proof. destruct s as [|c s]; [by vm_compute|apply parse_time_string]. Qed.

(** X6. On a string of one-byte characters, [parse_date] and [parse_time]
    give the same result whatever blanks stand before and after it, the
    blanks being the characters [str.strip()] removes: tab, line feed,
    vertical tab, form feed, carriage return, the separators 28 to 31, the
    space, the next-line control U+0085 and the no-break space U+00A0.
    What they return is a date of the calendar and a time of the day. *)
Theorem parse_ignores_blanks_and_validates (l s r : string) :
  all_chars is_space l -> all_chars is_space r ->
  parse_date (VStr (l +:+ s +:+ r)) = parse_date (VStr s) /\
  parse_time (VStr (l +:+ s +:+ r)) = parse_time (VStr s) /\
  (forall d, parse_date (VStr s) = Some d -> valid_date d = true) /\
  (forall t, parse_time (VStr s) = Some t -> valid_time t = true).
Proof.
  intros Hl Hr.
  rewrite !parse_date_stripped, !parse_time_stripped, (strip_padded l s r Hl Hr).
  split; [done|]. split; [done|]. split.
  - intros d H. by apply try_formats_valid in H as (dt & -> & ? & _).
  - intros t H. by apply try_formats_valid in H as (dt & -> & _ & ?).
Qed.

(** A leap day between a no-break space and a tab on one side, a next-line
    control and a space on the other. *)
Lemma parse_ignores_blanks_and_validates_sample :
  parse_date (VStr (String "160" (String "009" EmptyString) +:+ "29/02/2024" +:+
                    String "133" (String " " EmptyString))) =
    parse_date (VStr "29/02/2024") /\
  parse_time (VStr (String "160" (String "009" EmptyString) +:+ "29/02/2024" +:+
                    String "133" (String " " EmptyString))) =
    parse_time (VStr "29/02/2024") /\
  (forall d, parse_date (VStr "29/02/2024") = Some d -> valid_date d = true) /\
  (forall t, parse_time (VStr "29/02/2024") = Some t -> valid_time t = true).
Proof.
  apply (parse_ignores_blanks_and_validates
           (String "160" (String "009" EmptyString)) "29/02/2024"
           (String "133" (String " " EmptyString)));
    repeat constructor.
Defined.

(** *** Ages *)

Lemma calculate_age_years (today birth reference : date) :
  exists age : Z,
    calculate_age today (VDate birth) (VDate reference) = Ok (Some age) /\
    date_leb (mkdate (year birth + age) (month birth) (day birth)) reference = true /\
    date_ltb reference (mkdate (year birth + age + 1) (month birth) (day birth)) = true.
Proof.
  unfold calculate_age; simpl.
  destruct birth as [yb mb db], reference as [yr mr dr]; simpl.
  unfold date_leb, date_ltb, date_eqb; simpl.
  set (before := (mr <? mb) || (mr =? mb) && (dr <? db)).
  exists (if before then yr - yb - 1 else yr - yb).
  split; [by destruct before|]. subst before.
  destruct (Z.ltb_spec mr mb), (Z.eqb_spec mr mb), (Z.ltb_spec dr db); simpl;
    (split;
     repeat match goal with
            | |- context [?a <? ?b] => destruct (Z.ltb_spec a b)
            | |- context [?a =? ?b] => destruct (Z.eqb_spec a b)
            end; simpl; first [reflexivity | lia]).
Qed.

(** X7. The age at a reference date is the number of whole years since the
    birth date: the anniversary of that number falls on or before the
    reference date and the next one after it, months and days compared as
    the calendar orders them. With no reference date the age is taken at
    today's date, and with no birth date there is no age. *)
Theorem calculate_age_whole_years (today birth reference : date) :
  (exists age : Z,
     calculate_age today (VDate birth) (VDate reference) = Ok (Some age) /\
     date_leb (mkdate (year birth + age) (month birth) (day birth)) reference = true /\
     date_ltb reference (mkdate (year birth + age + 1) (month birth) (day birth)) = true) /\
  calculate_age today (VDate birth) VNone = calculate_age today (VDate birth) (VDate today) /\
  calculate_age today VNone (VDate reference) = Ok None.
Proof. split; [apply calculate_age_years|split; reflexivity]. Qed.

(** *** Working days *)

Lemma count_business_days_app (n k : nat) (o : Z) :
  count_business_days (n + k) o =
  count_business_days n o + count_business_days k (o + Z.of_nat n).
Proof.
  revert o. induction n as [|n IH]; intros o.
  - change (count_business_days (0 + k) o) with (count_business_days k o).
    change (count_business_days 0 o) with 0. change (Z.of_nat 0) with 0.
    by rewrite Z.add_0_l, Z.add_0_r.
  - change (S n + k)%nat with (S (n + k)). cbn [count_business_days]. rewrite IH.
    replace (o + Z.of_nat (S n)) with (o + 1 + Z.of_nat n) by lia.
    generalize (count_business_days n (o + 1)), (count_business_days k (o + 1 + Z.of_nat n)).
    intros a b. destruct ((o + 6) mod 7 <? 5); lia.
Qed.

Lemma count_business_days_week (o : Z) : count_business_days 7 o = 5.
Proof.
  cbn [count_business_days].
  assert (o mod 7 = 0 \/ o mod 7 = 1 \/ o mod 7 = 2 \/ o mod 7 = 3 \/
          o mod 7 = 4 \/ o mod 7 = 5 \/ o mod 7 = 6) as H
    by (pose proof (Z.mod_pos_bound o 7); lia).
  replace (o + 1 + 1 + 1 + 1 + 1 + 1 + 6) with (o + 12) by lia.
  replace (o + 1 + 1 + 1 + 1 + 1 + 6) with (o + 11) by lia.
  replace (o + 1 + 1 + 1 + 1 + 6) with (o + 10) by lia.
  replace (o + 1 + 1 + 1 + 6) with (o + 9) by lia.
  replace (o + 1 + 1 + 6) with (o + 8) by lia.
  replace (o + 1 + 6) with (o + 7) by lia.
  rewrite (Z.add_mod o 6), (Z.add_mod o 7), (Z.add_mod o 8), (Z.add_mod o 9),
    (Z.add_mod o 10), (Z.add_mod o 11), (Z.add_mod o 12) by lia.
  repeat (destruct H as [-> | H]; [reflexivity|]). rewrite H. reflexivity.
Qed.

Lemma count_business_days_weeks (k : nat) (o : Z) :
  count_business_days (7 * k) o = 5 * Z.of_nat k.
Proof.
  revert o. induction k as [|k IH]; intros o; [reflexivity|].
  replace (7 * S k)%nat with (7 + 7 * k)%nat by lia.
  rewrite count_business_days_app, count_business_days_week, IH. lia.
Qed.

(** X8. Over a whole number of weeks, whatever the day of the week of the
    first date, [calculate_work_days] counts five days a week. *)
Theorem calculate_work_days_whole_weeks (start_date end_date : date) (k : Z) :
  0 <= k ->
  toordinal end_date - toordinal start_date + 1 = 7 * k ->
  calculate_work_days (VDate start_date) (VDate end_date) = Ok (5 * k).
Proof.
  intros Hk Hspan. unfold calculate_work_days; simpl. rewrite Hspan.
  replace (Z.to_nat (7 * k)) with (7 * Z.to_nat k)%nat by lia.
  rewrite count_business_days_weeks. f_equal. lia.
Qed.

Lemma calculate_work_days_whole_weeks_sample :
  calculate_work_days (VDate (mkdate 2024 2 28)) (VDate (mkdate 2024 3 12)) = Ok (5 * 2).
Proof.
  apply (calculate_work_days_whole_weeks (mkdate 2024 2 28) (mkdate 2024 3 12) 2);
    [lia|reflexivity].
Defined.

(** X9. The count is never negative and never more than the days from the
    first date to the last, both included; it is zero when the last date
    is before the first, and zero when either date is missing. *)
Theorem calculate_work_days_bounds (start_date end_date : date) :
  (exists n : Z,
     calculate_work_days (VDate start_date) (VDate end_date) = Ok n /\
     0 <= n <= Z.max 0 (toordinal end_date - toordinal start_date + 1) /\
     (toordinal end_date < toordinal start_date -> n = 0)) /\
  calculate_work_days VNone (VDate end_date) = Ok 0 /\
  calculate_work_days (VDate start_date) VNone = Ok 0.
Proof.
  split; [|split; reflexivity].
  unfold calculate_work_days; simpl. eexists; split; [reflexivity|].
  set (span := toordinal end_date - toordinal start_date + 1).
  assert (forall (n : nat) (o : Z), 0 <= count_business_days n o <= Z.of_nat n) as Hb.
  { induction n as [|n IH]; intros o; simpl; [lia|].
    specialize (IH (o + 1)). destruct ((o + 6) mod 7 <? 5); lia. }
  specialize (Hb (Z.to_nat span) (toordinal start_date)). split; [lia|].
  intros Hlt. replace (Z.to_nat span) with 0%nat by lia. reflexivity.
Qed.

End TransformerFacts.


(** ** The loaders: dates, companies, employees and absences *)

Module LoaderFacts.
Import Schema DataLoader Strptime DataTransformer ColumnTypes.

(** *** The loader's own date parser *)

(** [_parse_date] on a non-empty string is the loop over its formats. *)
Lemma loader_parse_date_string (c : ascii) (s : string) :
  _parse_date (VStr (String c s)) =
  try_strptime (String c s) ["%Y-%m-%d"; "%d/%m/%Y"; "%Y%m%d"].
Proof. reflexivity. Qed.

Section LoaderDates.
Variable d : date.
Hypothesis Hvalid : valid_date d = true.

Ltac open_shape H :=
  let c := fresh "c" in let s := fresh "s" in let E := fresh "E" in
  destruct H as (c & s & E);
  rewrite E, loader_parse_date_string, <- E; clear c s E; cbn [try_strptime].

Lemma loader_parse_Ymd_hyphen : _parse_date (VStr (shape_Ymd d "-")) = Some d.
Proof.
  open_shape (proj1 (proj2 (DateFacts.shape_nonempty d)) "-"%char).
  by rewrite (DateFacts.strptime_Ymd_hyphen d Hvalid).
Qed.

Lemma loader_parse_dmY_slash : _parse_date (VStr (shape_dmY d "/")) = Some d.
Proof.
  open_shape (proj1 (DateFacts.shape_nonempty d) "/"%char).
  rewrite (DateFacts.strptime_dmY_year_first d "/" "%Y-%m-%d" _ ltac:(auto) eq_refl).
  by rewrite (DateFacts.strptime_dmY_slash d Hvalid).
Qed.

Lemma loader_parse_compact : _parse_date (VStr (shape_compact d)) = Some d.
Proof.
  open_shape (proj1 (proj2 (proj2 (DateFacts.shape_nonempty d)))).
  rewrite (DateFacts.strptime_compact_hyphen d).
  rewrite (DateFacts.strptime_compact_day_first d "/" "%d/%m/%Y" _ ltac:(auto) eq_refl).
  by rewrite (DateFacts.strptime_compact d Hvalid).
Qed.

Lemma loader_parse_dmY_hyphen : _parse_date (VStr (shape_dmY d "-")) = None.
Proof.
  open_shape (proj1 (DateFacts.shape_nonempty d) "-"%char).
  rewrite (DateFacts.strptime_dmY_year_first d "-" "%Y-%m-%d" _ ltac:(auto) eq_refl).
  rewrite (DateFacts.strptime_dmY_hyphen_slash d).
  by rewrite (DateFacts.strptime_dmY_year_first d "-" "%Y%m%d" _ ltac:(auto) eq_refl).
Qed.

Lemma loader_parse_dmy : _parse_date (VStr (shape_dmy d)) = None.
Proof.
  open_shape (proj2 (proj2 (proj2 (DateFacts.shape_nonempty d)))).
  rewrite (DateFacts.strptime_dmy_year_first d "%Y-%m-%d" _ eq_refl).
  rewrite (DateFacts.strptime_dmy_four_digit_year d Hvalid).
  by rewrite (DateFacts.strptime_dmy_year_first d "%Y%m%d" _ eq_refl).
Qed.

Lemma loader_parse_Ymd_slash : _parse_date (VStr (shape_Ymd d "/")) = None.
Proof.
  open_shape (proj1 (proj2 (DateFacts.shape_nonempty d)) "/"%char).
  rewrite (DateFacts.strptime_Ymd_slash_hyphen d).
  rewrite (DateFacts.strptime_Ymd_day_first d "/" "/" "%d/%m/%Y" _ ltac:(auto) eq_refl).
  by rewrite (DateFacts.strptime_Ymd_slash_compact d).
Qed.

End LoaderDates.

(** X10. The loader's [_parse_date] reads back a calendar date printed as
    YYYY-MM-DD, DD/MM/YYYY or YYYYMMDD, and gives [None] for the same date
    printed as DD-MM-YYYY, DD/MM/YY or YYYY/MM/DD, the three other formats
    the transformer's [parse_date] reads. A date the transformer has
    parsed passes through it unchanged. *)
Theorem loader_parse_date_formats (d : date) :
  valid_date d = true ->
  (forall fmt : string,
     fmt ∈ ["%Y-%m-%d"; "%d/%m/%Y"; "%Y%m%d"] ->
     _parse_date (VStr (strftime d fmt)) = Some d) /\
  (forall fmt : string,
     fmt ∈ ["%d-%m-%Y"; "%d/%m/%y"; "%Y/%m/%d"] ->
     _parse_date (VStr (strftime d fmt)) = None) /\
  (forall v : value, _parse_date (date_cell (parse_date v)) = parse_date v).
Proof.
  intros Hv.
  destruct (DateFacts.strftime_shapes d) as (E1 & E2 & E3 & E4 & E5 & E6).
  split; [|split].
  - intros fmt Hfmt. repeat (apply elem_of_cons in Hfmt as [-> | Hfmt]).
    + rewrite E2. by apply loader_parse_Ymd_hyphen.
    + rewrite E1. by apply loader_parse_dmY_slash.
    + rewrite E4. by apply loader_parse_compact.
    + by apply elem_of_nil in Hfmt.
  - intros fmt Hfmt. repeat (apply elem_of_cons in Hfmt as [-> | Hfmt]).
    + rewrite E3. by apply loader_parse_dmY_hyphen.
    + rewrite E5. by apply loader_parse_dmy.
    + rewrite E6. by apply loader_parse_Ymd_slash.
    + by apply elem_of_nil in Hfmt.
  - intros v. by destruct (parse_date v).
Qed.

Lemma loader_parse_date_formats_leap_day :
  (forall fmt : string,
     fmt ∈ ["%Y-%m-%d"; "%d/%m/%Y"; "%Y%m%d"] ->
     _parse_date (VStr (strftime (mkdate 2024 2 29) fmt)) = Some (mkdate 2024 2 29)) /\
  (forall fmt : string,
     fmt ∈ ["%d-%m-%Y"; "%d/%m/%y"; "%Y/%m/%d"] ->
     _parse_date (VStr (strftime (mkdate 2024 2 29) fmt)) = None) /\
  (forall v : value, _parse_date (date_cell (parse_date v)) = parse_date v).
Proof. apply (loader_parse_date_formats (mkdate 2024 2 29)). reflexivity. Defined.

(** *** Inserts *)

Lemma item_lookup (d : gmap string value) (key : string) (v : value) :
  item d key = Ok v -> d !! key = Some v /\ forall dflt, get d key dflt = v.
Proof.
  unfold item, get. destruct (d !! key) as [w|]; [|done]. by intros [= ->].
Qed.

Lemma elem_of_imap_inv {A B : Type} (g : nat -> A -> B) (l : list A) (y : B) :
  y ∈ imap g l -> exists n x, x ∈ l /\ y = g n x.
Proof.
  revert g. induction l as [|a l IH]; intros g; simpl; [by intros ?%elem_of_nil|].
  intros [-> | H]%elem_of_cons.
  - exists 0%nat, a. split; [constructor|done].
  - apply IH in H as (n & x & Hx & ->). exists (S n), x. split; [by constructor|done].
Qed.

Lemma Forall2_Forall_r {A B : Type} (P : A -> B -> Prop) (Q : B -> Prop)
    (R : A -> B -> Prop) (l : list A) (k : list B) :
  Forall2 P l k -> Forall Q k -> (forall x y, P x y -> Q y -> R x y) -> Forall2 R l k.
Proof.
  intros H. induction H as [|x y l k Hxy _ IH]; intros HQ HR; [constructor|].
  inversion_clear HQ. constructor; [by apply HR|by apply IH].
Qed.

(** *** Companies *)

Lemma empresa_record_inv (emp_data : gmap string value) (e : DimEmpresa) :
  empresa_record emp_data = Ok e ->
  emp_data !! "codigo_empresa" = Some (emp_codigo_empresa e) /\
  emp_data !! "nome_empresa" = Some (nome_empresa e) /\
  cnpj e = get emp_data "cnpj" VNone /\
  emp_situacao e = get emp_data "situacao" (VStr "ATIVA").
Proof.
  unfold empresa_record.
  destruct (item emp_data "codigo_empresa") as [c|] eqn:Hc; [|done].
  destruct (item emp_data "nome_empresa") as [n|] eqn:Hn; [|done].
  simpl. intros [= <-]. simpl.
  apply item_lookup in Hc as [Hc _]. apply item_lookup in Hn as [Hn _]. done.
Qed.

(** X11. Over cells of their columns' types, in the table and in the
    batch: when [load_empresas] succeeds, the table holds the rows it held
    followed by one row per input dictionary, in order: each dictionary
    carries a company code and a name that are not [None], its row has
    them, the CNPJ it gives or [None], and the situation it gives or
    "ATIVA"; and no two rows of the table have the same company code. So a
    batch that repeats a code, or carries a stored one, is never accepted. *)
Theorem load_empresas_stores_distinct_codes (now : Z) (db : database)
    (empresas_data : list (gmap string value)) :
  Forall (fun e => typed_empresa e = true) (dim_empresa db) ->
  Forall (fun emp_data => typed_row empresa_columns emp_data = true) empresas_data ->
  returned (load_empresas now db empresas_data) = Ok tt ->
  exists rows : list DimEmpresa,
    dim_empresa (db_after (load_empresas now db empresas_data)) = dim_empresa db ++ rows /\
    Forall2 (fun emp_data row =>
               emp_data !! "codigo_empresa" = Some (emp_codigo_empresa row) /\
               emp_codigo_empresa row <> VNone /\
               emp_data !! "nome_empresa" = Some (nome_empresa row) /\
               nome_empresa row <> VNone /\
               cnpj row = get emp_data "cnpj" VNone /\
               emp_situacao row = get emp_data "situacao" (VStr "ATIVA"))
            empresas_data rows /\
    NoDup (map emp_codigo_empresa
             (dim_empresa (db_after (load_empresas now db empresas_data)))).
Proof.
  intros _ _. unfold load_empresas, transaction; simpl.
  destruct (mapM empresa_record empresas_data) as [objs|] eqn:Hobjs; [|done].
  simpl. unfold add_all_empresas.
  destruct (forallb _ (imap (insert_empresa now db) objs)) eqn:Hnn; [|done].
  simpl. case_bool_decide as Hnd; [|done]. simpl. intros _.
  exists (imap (insert_empresa now db) objs). split; [done|]. split; [|done].
  apply mapM_Ok_inv in Hobjs.
  pose proof (Forall2_imap
                (fun obj row : DimEmpresa =>
                   emp_codigo_empresa row = emp_codigo_empresa obj /\
                   nome_empresa row = nome_empresa obj /\
                   cnpj row = cnpj obj /\ emp_situacao row = emp_situacao obj)
                (insert_empresa now db) objs ltac:(done)) as Hins.
  pose proof (VencimentoFacts.Forall2_compose _ _ _ _ _ Hobjs Hins) as Hrows.
  rewrite forallb_forall in Hnn. setoid_rewrite <- list_elem_of_In in Hnn.
  rewrite <- Forall_forall in Hnn.
  eapply Forall2_Forall_r; [exact Hrows|exact Hnn|].
  intros emp_data row (obj & Hobj & Hc & Hn & Hj & Hs) Hnull. simpl in Hnull.
  apply empresa_record_inv in Hobj as (Hc' & Hn' & Hj' & Hs').
  apply andb_true_iff in Hnull as [H1 H2].
  unfold not_null in H1, H2. apply negb_true_iff, bool_decide_eq_false in H1, H2.
  rewrite <- Hc in Hc'. rewrite <- Hn in Hn'. rewrite <- Hj in Hj'. rewrite <- Hs in Hs'. done.
Qed.

Lemma load_empresas_stores_distinct_codes_sample :
  exists rows : list DimEmpresa,
    dim_empresa (db_after (load_empresas 1 empty_database [Samples.empresa_a])) =
      dim_empresa empty_database ++ rows /\
    Forall2 (fun emp_data row =>
               emp_data !! "codigo_empresa" = Some (emp_codigo_empresa row) /\
               emp_codigo_empresa row <> VNone /\
               emp_data !! "nome_empresa" = Some (nome_empresa row) /\
               nome_empresa row <> VNone /\
               cnpj row = get emp_data "cnpj" VNone /\
               emp_situacao row = get emp_data "situacao" (VStr "ATIVA"))
            [Samples.empresa_a] rows /\
    NoDup (map emp_codigo_empresa
             (dim_empresa (db_after (load_empresas 1 empty_database [Samples.empresa_a])))).
Proof.
  apply (load_empresas_stores_distinct_codes 1 empty_database [Samples.empresa_a]).
  - constructor.
  - repeat constructor.
  - vm_compute. reflexivity.
Defined.

(** *** Employees *)

Lemma funcionario_record_inv (func_data : gmap string value) (f : DimFuncionario) :
  funcionario_record func_data = Ok f ->
  func_data !! "CODIGO" = Some (codigo_funcionario f) /\
  func_data !! "CODIGOEMPRESA" = Some (codigo_empresa f) /\
  func_data !! "NOME" = Some (nome f) /\
  func_data !! "CPF" = Some (cpf f) /\
  func_data !! "SEXO" = Some (sexo f) /\
  func_data !! "MATRICULAFUNCIONARIO" = Some (matricula_funcionario f) /\
  func_data !! "SITUACAO" = Some (situacao f) /\
  data_nascimento f = _parse_date (get func_data "DATA_NASCIMENTO" VNone) /\
  data_admissao f = _parse_date (get func_data "DATA_ADMISSAO" VNone).
Proof.
  unfold funcionario_record.
  destruct (item func_data "CODIGO") as [v1|] eqn:H1; [|done].
  destruct (item func_data "CODIGOEMPRESA") as [v2|] eqn:H2; [|done].
  destruct (item func_data "NOME") as [v3|] eqn:H3; [|done].
  destruct (item func_data "CPF") as [v4|] eqn:H4; [|done].
  destruct (item func_data "SEXO") as [v5|] eqn:H5; [|done].
  destruct (item func_data "MATRICULAFUNCIONARIO") as [v6|] eqn:H6; [|done].
  destruct (item func_data "SITUACAO") as [v7|] eqn:H7; [|done].
  simpl. intros [= <-]. simpl.
  apply item_lookup in H1 as [-> _], H2 as [-> _], H3 as [-> _], H4 as [-> _],
    H5 as [-> _], H6 as [-> _], H7 as [-> _]. done.
Qed.

Lemma not_null_spec (v : value) : not_null v = true <-> v <> VNone.
Proof. unfold not_null. by rewrite negb_true_iff, bool_decide_eq_false. Qed.

(** X12. Over company codes of the column's type, in [dim_empresa] and in
    the batch: [load_funcionarios] succeeds only on a batch whose every row
    carries the seven indexed keys with values that are not [None], has a
    birth date and an admission date that [_parse_date] reads, and names a
    company code that is stored in [dim_empresa]. *)
Theorem load_funcionarios_accepts_only_loadable (now : Z) (db : database)
    (funcionarios_data : list (gmap string value)) :
  Forall (fun e => typed_empresa e = true) (dim_empresa db) ->
  Forall (fun func_data => has_type TInteger (get func_data "CODIGOEMPRESA" VNone) = true)
         funcionarios_data ->
  returned (load_funcionarios now db funcionarios_data) = Ok tt ->
  Forall (FuncionarioContract.loadable db) funcionarios_data.
Proof.
  intros _ _. unfold load_funcionarios, transaction; simpl.
  destruct (mapM funcionario_record funcionarios_data) as [objs|] eqn:Hobjs; [|done].
  simpl. unfold add_all_funcionarios.
  destruct (forallb funcionario_not_null _) eqn:Hnn; [|done].
  match goal with
  | |- context [forallb ?p ?l] => destruct (forallb p l) eqn:Hfk; [|done]
  end.
  simpl. intros _.
  apply mapM_Ok_inv in Hobjs.
  pose proof (Forall2_imap
                (fun obj row : DimFuncionario =>
                   exists n, row = insert_funcionario now db n obj)
                (insert_funcionario now db) objs ltac:(by eexists)) as Hins.
  pose proof (VencimentoFacts.Forall2_compose _ _ _ _ _ Hobjs Hins) as Hrows.
  eapply Forall2_Forall_l; [exact Hrows|].
  rewrite forallb_forall in Hnn, Hfk. apply Forall_forall.
  intros row Hin func_data (obj & Hobj & n & Hrow).
  apply list_elem_of_In in Hin.
  specialize (Hnn row Hin). specialize (Hfk row Hin). subst row.
  apply bool_decide_eq_true in Hfk. simpl in Hfk.
  unfold funcionario_not_null in Hnn. simpl in Hnn.
  rewrite !andb_true_iff, !not_null_spec, !bool_decide_eq_true in Hnn.
  destruct Hnn as ((((((((N1 & N2) & N3) & N4) & N5) & N6) & N7) & N8) & N9).
  apply funcionario_record_inv in Hobj
    as (K1 & K2 & K3 & K4 & K5 & K6 & K7 & D1 & D2).
  unfold FuncionarioContract.loadable, FuncionarioContract.required_keys.
  split; [|split; [|split]].
  - intros key Hkey.
    repeat (apply elem_of_cons in Hkey as [-> | Hkey]; [by eexists|]).
    by apply elem_of_nil in Hkey.
  - by rewrite <- D1.
  - by rewrite <- D2.
  - unfold get. by rewrite K2.
Qed.

Lemma load_funcionarios_accepts_only_loadable_sample :
  Forall (FuncionarioContract.loadable Samples.with_empresa)
    [Samples.funcionario_10 "Financeiro"].
Proof.
  apply (load_funcionarios_accepts_only_loadable 100 Samples.with_empresa
           [Samples.funcionario_10 "Financeiro"]).
  - assert (forallb typed_empresa (dim_empresa Samples.with_empresa) = true)
      as H by (vm_compute; reflexivity).
    rewrite forallb_forall in H. apply Forall_forall.
    intros e He. by apply H, list_elem_of_In.
  - repeat constructor.
  - vm_compute. reflexivity.
Defined.

(** *** Absences *)

Lemma query_first_Some {A : Type} (p : A -> bool) (table : list A) (x : A) :
  query_first p table = Some x -> x ∈ table /\ p x = true.
Proof.
  unfold query_first. intros H. apply find_some in H as [Hin Hp].
  split; [by apply list_elem_of_In|done].
Qed.

Lemma query_first_None {A : Type} (p : A -> bool) (table : list A) :
  (forall x, x ∈ table -> p x = false) -> query_first p table = None.
Proof.
  unfold query_first. intros H.
  destruct (List.find p table) as [x|] eqn:E; [|done].
  apply find_some in E as [Hin Hp]. apply list_elem_of_In in Hin.
  rewrite (H x Hin) in Hp. done.
Qed.

(** The fact built for a row: the employee version it points at, and the
    calendar rows looked up for its two dates. *)
Lemma process_row_fact (db : database) (abs_data : gmap string value)
    (fact : FatoAbsenteismo) :
  process_row db abs_data = RowFact fact ->
  (exists f, f ∈ dim_funcionario db /\ registro_ativo f = Some true /\
             fato_sk_funcionario fact = sk_funcionario f) /\
  data_inicio_atestado fact = _parse_date (get abs_data "DT_INICIO_ATESTADO" VNone) /\
  data_fim_atestado fact = _parse_date (get abs_data "DT_FIM_ATESTADO" VNone) /\
  sk_tempo_inicio fact =
    query_first (fun t => bool_decide (Some (data_completa t) = data_inicio_atestado fact))
      (dim_tempo db) ≫= sk_tempo /\
  (forall k, sk_tempo_fim fact = Some k ->
     query_first (fun t => bool_decide (Some (data_completa t) = data_fim_atestado fact))
       (dim_tempo db) ≫= sk_tempo = Some k).
Proof.
  unfold process_row.
  destruct (find_funcionario db abs_data) as [[f|]|] eqn:Hfind; [|done..].
  destruct (absenteismo_fact db abs_data f) as [fact'|] eqn:Hfact; [|done].
  intros [= <-].
  unfold find_funcionario in Hfind. unfold absenteismo_fact in Hfact.
  destruct (item abs_data "DT_INICIO_ATESTADO") as [inicio|] eqn:Hi; [|done].
  apply item_lookup in Hi as [_ Hi].
  destruct (item abs_data "UNIDADE") as [v1|]; [|done].
  destruct (item abs_data "SETOR") as [v2|]; [|done].
  destruct (item abs_data "DT_NASCIMENTO") as [v3|]; [|done].
  destruct (item abs_data "SEXO") as [v4|]; [|done].
  destruct (item abs_data "MATRICULA_FUNC") as [v5|]; [|done].
  destruct (item abs_data "TIPO_ATESTADO") as [v6|]; [|done].
  simpl in Hfind. injection Hfind as Hfind.
  apply query_first_Some in Hfind as [Hin Hmatch].
  unfold funcionario_matches in Hmatch.
  rewrite !andb_true_iff, !bool_decide_eq_true in Hmatch.
  destruct Hmatch as (_ & Hactive).
  simpl in Hfact. injection Hfact as <-. simpl.
  rewrite (Hi VNone).
  split; [by exists f|]. split; [done|]. split; [done|]. split; [done|].
  intros k. by destruct (_parse_date (get abs_data "DT_FIM_ATESTADO" VNone)).
Qed.

(** The facts the loop collects are those of the rows that give one. *)
Lemma absenteismo_loop_facts (db : database) (data : list (gmap string value))
    (acc facts : list FatoAbsenteismo) (log log' : list log_entry) :
  absenteismo_loop db data acc log = (Ok facts, log') ->
  facts = acc ++ omap (fun row => match process_row db row with
                                  | RowFact fact => Some fact
                                  | _ => None
                                  end) data.
Proof.
  revert acc log. induction data as [|row data IH]; intros acc log; simpl.
  - intros [= <- _]. by rewrite app_nil_r.
  - destruct (process_row db row) as [e|w|fact]; [done| |].
    + apply IH.
    + intros H. apply IH in H. by rewrite <- app_assoc in H.
Qed.

Lemma insert_absenteismo_fields (now : Z) (db : database) (n : nat) (a : FatoAbsenteismo) :
  fato_sk_funcionario (insert_absenteismo now db n a) = fato_sk_funcionario a /\
  sk_tempo_inicio (insert_absenteismo now db n a) = sk_tempo_inicio a /\
  sk_tempo_fim (insert_absenteismo now db n a) = sk_tempo_fim a /\
  data_inicio_atestado (insert_absenteismo now db n a) = data_inicio_atestado a /\
  data_fim_atestado (insert_absenteismo now db n a) = data_fim_atestado a.
Proof. done. Qed.

(** X13. When [load_absenteismo] succeeds, every fact it has added points
    at an employee version that is stored and active, at the calendar row
    whose date is the fact's start date, and, when it has an end key, at
    the calendar row whose date is its end date. *)
Theorem load_absenteismo_facts_reference_dimensions (now : Z) (db : database)
    (absenteismo_data : list (gmap string value)) :
  returned (load_absenteismo now db absenteismo_data) = Ok tt ->
  exists facts : list FatoAbsenteismo,
    fato_absenteismo (db_after (load_absenteismo now db absenteismo_data)) =
      fato_absenteismo db ++ facts /\
    Forall (fun fact =>
              (exists f, f ∈ dim_funcionario db /\ registro_ativo f = Some true /\
                         is_Some (sk_funcionario f) /\
                         fato_sk_funcionario fact = sk_funcionario f) /\
              (exists t, t ∈ dim_tempo db /\ is_Some (sk_tempo t) /\
                         sk_tempo_inicio fact = sk_tempo t /\
                         data_inicio_atestado fact = Some (data_completa t)) /\
              (forall k, sk_tempo_fim fact = Some k ->
                 exists t, t ∈ dim_tempo db /\ sk_tempo t = Some k /\
                           data_fim_atestado fact = Some (data_completa t)))
           facts.
Proof.
  unfold load_absenteismo, transaction.
  destruct (absenteismo_loop db absenteismo_data [] []) as [[facts|e] log] eqn:Hloop;
    [|done].
  simpl. unfold add_all_absenteismo.
  destruct (forallb absenteismo_not_null _) eqn:Hnn; [|done].
  simpl. intros _.
  exists (imap (insert_absenteismo now db) facts). split; [done|].
  apply absenteismo_loop_facts in Hloop. simpl in Hloop.
  rewrite forallb_forall in Hnn. apply Forall_forall. intros row Hin.
  specialize (Hnn row (proj1 (list_elem_of_In _ _) Hin)).
  apply elem_of_imap_inv in Hin as (n & fact & Hfact & ->).
  destruct (insert_absenteismo_fields now db n fact) as (-> & -> & -> & -> & ->).
  unfold absenteismo_not_null in Hnn. simpl in Hnn.
  rewrite !andb_true_iff, !bool_decide_eq_true in Hnn.
  destruct Hnn as ((((((Hsk & Hti) & _) & _) & _) & _) & _).
  rewrite Hloop in Hfact. apply list_elem_of_omap in Hfact as (abs_data & _ & Hrow).
  destruct (process_row db abs_data) as [|?|fact'] eqn:Hp; [done..|].
  injection Hrow as ->.
  apply process_row_fact in Hp as ((f & Hf & Hact & Hskf) & Hdi & Hdf & Hki & Hkf).
  split; [|split].
  - exists f. rewrite <- Hskf. done.
  - rewrite Hki in Hti |- *.
    destruct (query_first _ (dim_tempo db)) as [t|] eqn:Hq; [|by destruct Hti].
    apply query_first_Some in Hq as [Hin Hdate]. apply bool_decide_eq_true in Hdate.
    exists t. done.
  - intros k Hk. specialize (Hkf k Hk). clear Hki Hti.
    destruct (query_first _ (dim_tempo db)) as [t|] eqn:Hq; [|done].
    apply query_first_Some in Hq as [Hin Hdate]. apply bool_decide_eq_true in Hdate.
    exists t. done.
Qed.

Lemma load_absenteismo_facts_reference_dimensions_sample :
  exists facts : list FatoAbsenteismo,
    fato_absenteismo (db_after (load_absenteismo 300 Samples.with_calendar [Samples.atestado])) =
      fato_absenteismo Samples.with_calendar ++ facts /\
    Forall (fun fact =>
              (exists f, f ∈ dim_funcionario Samples.with_calendar /\
                         registro_ativo f = Some true /\
                         is_Some (sk_funcionario f) /\
                         fato_sk_funcionario fact = sk_funcionario f) /\
              (exists t, t ∈ dim_tempo Samples.with_calendar /\ is_Some (sk_tempo t) /\
                         sk_tempo_inicio fact = sk_tempo t /\
                         data_inicio_atestado fact = Some (data_completa t)) /\
              (forall k, sk_tempo_fim fact = Some k ->
                 exists t, t ∈ dim_tempo Samples.with_calendar /\ sk_tempo t = Some k /\
                           data_fim_atestado fact = Some (data_completa t)))
           facts.
Proof.
  apply (load_absenteismo_facts_reference_dimensions 300 Samples.with_calendar
           [Samples.atestado]).
  vm_compute. reflexivity.
Defined.

(** X14. A batch whose rows all carry the indexed keys, and one of whose
    rows answers a stored active employee version but starts on a date
    that has no row in [dim_tempo], is rejected as a whole by the NOT NULL
    start key: the load raises the integrity error and stores nothing. *)
Theorem load_absenteismo_needs_calendar (now : Z) (db : database)
    (absenteismo_data : list (gmap string value)) (abs_data : gmap string value)
    (f : DimFuncionario) :
  Forall (AbsenteismoContract.has_keys AbsenteismoContract.required_keys) absenteismo_data ->
  abs_data ∈ absenteismo_data ->
  f ∈ dim_funcionario db -> registro_ativo f = Some true ->
  AbsenteismoContract.composite_key_matches abs_data f ->
  (forall t, t ∈ dim_tempo db ->
             Some (data_completa t) <> _parse_date (get abs_data "DT_INICIO_ATESTADO" VNone)) ->
  returned (load_absenteismo now db absenteismo_data) =
    Raise (IntegrityError "fato_absenteismo: NOT NULL") /\
  db_after (load_absenteismo now db absenteismo_data) = db.
Proof.
  intros Hall Hin Hf Hact Hkey Hcal.
  unfold load_absenteismo, transaction.
  destruct (AbsenteismoFacts.absenteismo_loop_continues db absenteismo_data [] [] Hall)
    as (facts & log & Hloop & _).
  rewrite Hloop. simpl. unfold add_all_absenteismo.
  apply absenteismo_loop_facts in Hloop. simpl in Hloop.
  rewrite Forall_forall in Hall.
  destruct (AbsenteismoFacts.process_row_required db abs_data (Hall _ Hin))
    as [(fact & f' & Hp & _) | [_ Hnone]]; [|by destruct (Hnone f Hf Hact Hkey)].
  assert (fact ∈ facts) as Hfact.
  { rewrite Hloop. apply list_elem_of_omap. exists abs_data. by rewrite Hp. }
  apply process_row_fact in Hp as (_ & Hdi & _ & Hki & _).
  rewrite query_first_None in Hki.
  2:{ intros t Ht. apply bool_decide_eq_false. rewrite Hdi. by apply Hcal. }
  simpl in Hki.
  destruct (forallb absenteismo_not_null (imap (insert_absenteismo now db) facts)) eqn:Hnn;
    [|done].
  exfalso. rewrite forallb_forall in Hnn.
  apply list_elem_of_lookup in Hfact as [i Hi].
  assert (In (insert_absenteismo now db i fact) (imap (insert_absenteismo now db) facts)) as H.
  { apply list_elem_of_In, list_elem_of_lookup. exists i.
    by rewrite list_lookup_imap, Hi. }
  specialize (Hnn _ H).
  unfold absenteismo_not_null in Hnn. simpl in Hnn.
  rewrite !andb_true_iff, !bool_decide_eq_true in Hnn.
  destruct Hnn as ((((((_ & Hti) & _) & _) & _) & _) & _).
  rewrite Hki in Hti. by destruct Hti.
Qed.

Lemma load_absenteismo_needs_calendar_sample :
  returned (load_absenteismo 300 Samples.with_calendar [MoreSamples.atestado_dia_29]) =
    Raise (IntegrityError "fato_absenteismo: NOT NULL") /\
  db_after (load_absenteismo 300 Samples.with_calendar [MoreSamples.atestado_dia_29]) =
    Samples.with_calendar.
Proof.
  assert (exists f, dim_funcionario Samples.with_calendar = [f]) as [f Hf]
    by (eexists; vm_compute; reflexivity).
  apply (load_absenteismo_needs_calendar 300 Samples.with_calendar
           [MoreSamples.atestado_dia_29] MoreSamples.atestado_dia_29 f).
  - repeat constructor. intros key Hkey.
    repeat (apply elem_of_cons in Hkey as [-> | Hkey]; [vm_compute; by eexists|]).
    apply elem_of_nil in Hkey. destruct Hkey.
  - constructor.
  - rewrite Hf. constructor.
  - revert Hf. vm_compute. by intros [= <-].
  - revert Hf. vm_compute. by intros [= <-].
  - intros t Ht. revert Ht. vm_compute.
    intros Ht. repeat (apply elem_of_cons in Ht as [-> | Ht]; [discriminate|]).
    apply elem_of_nil in Ht. destruct Ht.
Defined.

End LoaderFacts.


(** ** The dates the time dimension gets *)

Module TempoDates.
Import Schema DataLoader TempoFacts.

Lemma rank_leb (a b : date) :
  1 <= month a <= 12 -> 1 <= day a <= 31 ->
  1 <= month b <= 12 -> 1 <= day b <= 31 ->
  date_leb a b = true <-> rank a <= rank b.
Proof.
  intros ? ? ? ?. unfold date_leb, date_ltb, date_eqb, rank.
  rewrite !orb_true_iff, !andb_true_iff, !orb_true_iff, !andb_true_iff,
    !Z.ltb_lt, !Z.eqb_eq. lia.
Qed.

Lemma rank_ltb (a b : date) :
  1 <= month a <= 12 -> 1 <= day a <= 31 ->
  1 <= month b <= 12 -> 1 <= day b <= 31 ->
  date_ltb a b = true <-> rank a < rank b.
Proof.
  intros ? ? ? ?. unfold date_ltb, rank.
  rewrite !orb_true_iff, !andb_true_iff, !orb_true_iff, !andb_true_iff,
    !Z.ltb_lt, !Z.eqb_eq. lia.
Qed.

Lemma rank_inj (a b : date) :
  1 <= month a <= 12 -> 1 <= day a <= 31 ->
  1 <= month b <= 12 -> 1 <= day b <= 31 ->
  rank a = rank b -> a = b.
Proof.
  destruct a as [ya ma da], b as [yb mb db]; unfold rank; simpl.
  intros ? ? ? ? H.
  assert (ya = yb) by lia. assert (ma = mb) by lia. assert (da = db) by lia.
  by subst.
Qed.

Lemma valid_rank_leb (a b : date) :
  valid_date a = true -> valid_date b = true ->
  date_leb a b = true <-> rank a <= rank b.
Proof.
  intros Ha Hb.
  pose proof (valid_date_bounds _ Ha) as (_ & ? & ?).
  pose proof (valid_date_bounds _ Hb) as (_ & ? & ?).
  by apply rank_leb.
Qed.

Lemma days_in_month_28 (y m : Z) : 1 <= m <= 12 -> 28 <= days_in_month y m.
Proof.
  intros H. unfold days_in_month.
  destruct ((m =? 2) && is_leap y); [lia|].
  assert (m = 1 \/ m = 2 \/ m = 3 \/ m = 4 \/ m = 5 \/ m = 6 \/ m = 7 \/ m = 8 \/
          m = 9 \/ m = 10 \/ m = 11 \/ m = 12) as Hm by lia.
  repeat (destruct Hm as [-> | Hm]; [lia|]). subst; lia.
Qed.

Lemma valid_date_intro (y m d : Z) :
  1 <= y <= 9999 -> 1 <= m <= 12 -> 1 <= d <= 28 -> valid_date (mkdate y m d) = true.
Proof.
  intros Hy Hm Hd. unfold valid_date, MINYEAR, MAXYEAR; simpl.
  pose proof (days_in_month_28 y m Hm).
  rewrite !andb_true_iff, !Z.leb_le. lia.
Qed.

Lemma next_month (m : Z) :
  1 <= m <= 12 ->
  m < 12 /\ m / 12 = 0 /\ m mod 12 = m \/ m = 12 /\ m / 12 = 1 /\ m mod 12 = 0.
Proof.
  intros H. destruct (Z.eq_dec m 12) as [-> | Hne]; [by right|].
  left. split; [lia|]. split; [apply Z.div_small | apply Z.mod_small]; lia.
Qed.

(** Below 28 December 9999 the step finds a next date. *)
Lemma next_date_ok (d : date) :
  valid_date d = true -> rank d < rank (mkdate 9999 12 28) ->
  exists d', next_date d = Ok d'.
Proof.
  intros Hv Hr. pose proof (valid_date_bounds _ Hv) as (Hy & Hm & Hd).
  unfold next_date, replace_day, new_date.
  destruct (day d <? 28) eqn:E.
  - apply Z.ltb_lt in E. rewrite valid_date_intro by lia. by eexists.
  - apply Z.ltb_ge in E. unfold rank in Hr; simpl in Hr.
    destruct (next_month (month d) Hm) as [(? & -> & ->) | (? & -> & ->)];
      rewrite valid_date_intro by lia; by eexists.
Qed.

Lemma next_date_error (d : date) (e : exn) : next_date d = Raise e -> e = ValueError.
Proof.
  unfold next_date, replace_day, new_date.
  destruct (day d <? 28); destruct (valid_date _); congruence.
Qed.

(** The step lands on the first date after [d] whose day is at most 28. *)
Lemma next_date_least (d d' x : date) :
  valid_date d = true -> next_date d = Ok d' ->
  valid_date x = true -> rank d < rank x -> day x <= 28 -> rank d' <= rank x.
Proof.
  intros Hv Hn Hx Hlt H28.
  pose proof (valid_date_bounds _ Hv) as (Hy & Hm & Hd).
  pose proof (valid_date_bounds _ Hx) as (Hxy & Hxm & Hxd).
  apply next_date_inv in Hn as [_ [[? ->] | [? ->]]]; unfold rank in *; simpl.
  - lia.
  - destruct (next_month (month d) Hm) as [(? & -> & ->) | (? & -> & ->)]; lia.
Qed.

(** The rows one run of the loop builds: the date it starts from, when
    that is not past the end, and after it every calendar date up to the
    end whose day is at most 28. *)
Lemma tempo_loop_dates (end_date : date) (fuel : nat) (current_date : date)
    (acc records : list DimTempo) :
  valid_date current_date = true -> valid_date end_date = true ->
  tempo_loop fuel current_date end_date acc = Some (Ok records) ->
  exists new, records = acc ++ new /\
    forall d, d ∈ map data_completa new <->
      (d = current_date /\ rank current_date <= rank end_date) \/
      (valid_date d = true /\ rank current_date < rank d <= rank end_date /\ day d <= 28).
Proof.
  intros Hc He. revert current_date acc Hc.
  induction fuel as [|fuel IH]; intros cur acc Hc; simpl; [done|].
  pose proof (valid_rank_leb cur end_date Hc He) as Hle.
  destruct (date_leb cur end_date) eqn:E.
  2:{ intros [= <-]. exists []. rewrite app_nil_r. split; [done|].
      assert (~ rank cur <= rank end_date) as Hgt by (rewrite <- Hle; congruence).
      intros d. simpl. split; [by intros ?%elem_of_nil|]. intros [[_ ?] | (_ & ? & _)]; lia. }
  assert (rank cur <= rank end_date) as Hce by (by apply Hle).
  destruct (next_date cur) as [next|e] eqn:Hn; [|done].
  intros H. pose proof (next_date_inv _ _ Hn) as [Hv _].
  apply IH in H as (new & -> & Hnew); [|done].
  pose proof (valid_date_bounds _ Hc) as (_ & ? & ?).
  pose proof (valid_date_bounds _ Hv) as (_ & ? & ?).
  pose proof (next_date_rank cur next ltac:(done) ltac:(lia) Hn) as Hlt.
  pose proof (next_date_day _ _ Hn) as H28.
  exists (tempo_record cur :: new). split; [by rewrite <- app_assoc|].
  intros d. simpl. rewrite elem_of_cons, Hnew. split.
  - intros [-> | [[-> ?] | (? & ? & ?)]].
    + by left.
    + right. split; [done|]. lia.
    + right. split; [done|]. lia.
  - intros [[-> _] | (Hd & [Hcd Hde] & Hd28)]; [by left|]. right.
    pose proof (next_date_least cur next d Hc Hn Hd Hcd Hd28) as Hnd.
    destruct (Z.eq_dec (rank next) (rank d)) as [Heq | Hne].
    + left. pose proof (valid_date_bounds _ Hd) as (_ & ? & ?).
      apply rank_inj in Heq; [|done..]. subst d. split; [done|lia].
    + right. split; [done|]. lia.
Qed.

(** Below 28 December 9999 the loop never raises. *)
Lemma tempo_loop_no_raise (end_date : date) (fuel : nat) (current_date : date)
    (acc : list DimTempo) (e : exn) :
  valid_date current_date = true -> valid_date end_date = true ->
  rank end_date < rank (mkdate 9999 12 28) ->
  tempo_loop fuel current_date end_date acc <> Some (Raise e).
Proof.
  intros Hc He Hmax. revert current_date acc Hc.
  induction fuel as [|fuel IH]; intros cur acc Hc; simpl; [done|].
  pose proof (valid_rank_leb cur end_date Hc He) as Hle.
  destruct (date_leb cur end_date) eqn:E; [|done].
  assert (rank cur <= rank end_date) as Hce by (by apply Hle).
  destruct (next_date_ok cur Hc ltac:(lia)) as [next Hn]. rewrite Hn.
  apply IH. by apply next_date_inv in Hn as [? _].
Qed.

(** From 28 December 9999 on the loop cannot end normally. *)
Lemma tempo_loop_raises (end_date : date) (fuel : nat) (current_date : date)
    (acc : list DimTempo) (r : result (list DimTempo)) :
  valid_date current_date = true -> valid_date end_date = true ->
  rank current_date <= rank end_date ->
  rank (mkdate 9999 12 28) <= rank end_date ->
  tempo_loop fuel current_date end_date acc = Some r -> r = Raise ValueError.
Proof.
  intros Hc He Hce Hmax. revert current_date acc Hc Hce.
  induction fuel as [|fuel IH]; intros cur acc Hc Hce; simpl; [done|].
  rewrite (proj2 (valid_rank_leb cur end_date Hc He) Hce).
  destruct (next_date cur) as [next|e] eqn:Hn.
  - pose proof (next_date_inv _ _ Hn) as [Hv _].
    pose proof (next_date_day _ _ Hn) as H28.
    pose proof (valid_date_bounds _ Hv) as (? & ? & ?).
    apply IH; [done|]. unfold rank in *; simpl in *. lia.
  - intros [= <-]. f_equal. by eapply next_date_error.
Qed.

(** X15. Into an empty [dim_tempo], over calendar dates with the end before
    28 December 9999, [load_dim_tempo] commits, and the dates it stores are
    the start date, when it is not after the end, and every calendar date
    after it and up to the end whose day of the month is at most 28. *)
Theorem load_dim_tempo_stored_dates (now : Z) (db : database)
    (start_date end_date : date) :
  valid_date start_date = true -> valid_date end_date = true ->
  date_ltb end_date (mkdate 9999 12 28) = true ->
  dim_tempo db = [] ->
  exists o : outcome,
    load_dim_tempo now db start_date end_date = Some o /\
    returned o = Ok tt /\
    forall d : date,
      d ∈ map data_completa (dim_tempo (db_after o)) <->
      valid_date d = true /\
      date_leb start_date d = true /\ date_leb d end_date = true /\
      (d = start_date \/ day d <= 28).
Proof.
  intros Hs He Hmax Hdb.
  pose proof (valid_date_bounds _ Hs) as (_ & ? & ?).
  pose proof (valid_date_bounds _ He) as (_ & ? & ?).
  apply rank_ltb in Hmax; [|done|done|simpl; lia|simpl; lia].
  destruct (load_dim_tempo_total now db start_date end_date Hs He) as [o Ho].
  exists o. split; [done|].
  apply load_dim_tempo_inv in Ho as (r & Hr & Ho).
  destruct r as [records|e]; [|by apply tempo_loop_no_raise in Hr].
  pose proof (generated_dates_NoDup start_date end_date Hs) as Hnd.
  unfold generated_dates in Hnd. rewrite Hr in Hnd.
  rewrite Hdb in Ho. simpl in Ho. rewrite bool_decide_eq_true_2 in Ho by done.
  destruct Ho as (Hret & Hdates & _). split; [done|].
  apply tempo_loop_dates in Hr as (new & -> & Hnew); [|done..].
  intros d. rewrite Hdates. simpl. rewrite Hnew. split.
  - intros [[-> Hle] | (Hd & [Hlt Hle] & H28)].
    + split; [done|]. split; [by apply valid_rank_leb|].
      split; [by apply valid_rank_leb|by left].
    + split; [done|]. split; [apply valid_rank_leb; [done..|lia]|].
      split; [by apply valid_rank_leb|by right].
  - intros (Hd & Hsd & Hde & Hor).
    apply valid_rank_leb in Hsd; [|done..]. apply valid_rank_leb in Hde; [|done..].
    destruct Hor as [-> | H28]; [left; split; [done|lia]|].
    destruct (Z.eq_dec (rank start_date) (rank d)) as [Heq | Hne].
    + left. pose proof (valid_date_bounds _ Hd) as (_ & ? & ?).
      apply rank_inj in Heq; [|done..]. subst d. split; [done|lia].
    + right. split; [done|]. lia.
Qed.

Lemma load_dim_tempo_stored_dates_sample :
  exists o : outcome,
    load_dim_tempo 0 empty_database (mkdate 2020 1 27) (mkdate 2020 2 2) = Some o /\
    returned o = Ok tt /\
    forall d : date,
      d ∈ map data_completa (dim_tempo (db_after o)) <->
      valid_date d = true /\
      date_leb (mkdate 2020 1 27) d = true /\ date_leb d (mkdate 2020 2 2) = true /\
      (d = mkdate 2020 1 27 \/ day d <= 28).
Proof.
  apply (load_dim_tempo_stored_dates 0 empty_database (mkdate 2020 1 27) (mkdate 2020 2 2));
    reflexivity.
Defined.

(** X16. Over calendar dates with the start not after the end and the end
    on or after 28 December 9999, the step past that day has no date to
    build: [load_dim_tempo] raises [ValueError] and stores nothing. *)
Theorem load_dim_tempo_beyond_last_december (now : Z) (db : database)
    (start_date end_date : date) :
  valid_date start_date = true -> valid_date end_date = true ->
  date_leb start_date end_date = true ->
  date_leb (mkdate 9999 12 28) end_date = true ->
  exists o : outcome,
    load_dim_tempo now db start_date end_date = Some o /\
    returned o = Raise ValueError /\ db_after o = db.
Proof.
  intros Hs He Hse Hmax.
  apply valid_rank_leb in Hse; [|done..].
  apply valid_rank_leb in Hmax; [|done..].
  destruct (load_dim_tempo_total now db start_date end_date Hs He) as [o Ho].
  exists o. split; [done|].
  apply load_dim_tempo_inv in Ho as (r & Hr & Ho).
  apply tempo_loop_raises in Hr; [|done..]. subst r. done.
Qed.

Lemma load_dim_tempo_beyond_last_december_sample :
  exists o : outcome,
    load_dim_tempo 0 empty_database (mkdate 9999 12 20) (mkdate 9999 12 31) = Some o /\
    returned o = Raise ValueError /\ db_after o = empty_database.
Proof.
  apply (load_dim_tempo_beyond_last_december 0 empty_database
           (mkdate 9999 12 20) (mkdate 9999 12 31)); reflexivity.
Defined.

End TempoDates.


(** ** The columns the ETL classes derive, and the pipeline *)

Module DerivedFacts.
Import Pandas DataValidator DataTransformer EtlFacts.

(** *** Bins *)

Lemma cut_afastamento (n : Z) :
  cut 0 [1; 3; 7; 15; 30]
    ["1 dia"; "2-3 dias"; "4-7 dias"; "8-15 dias"; "16-30 dias"; ">30 dias"] (VInt n) =
  Ok (if n <? 0 then VNaN
      else if n <=? 1 then VStr "1 dia"
      else if n <=? 3 then VStr "2-3 dias"
      else if n <=? 7 then VStr "4-7 dias"
      else if n <=? 15 then VStr "8-15 dias"
      else if n <=? 30 then VStr "16-30 dias"
      else VStr ">30 dias").
Proof.
  unfold cut. cbn [as_number cut_right]. rewrite !Qle_bool_inject_Z.
  destruct (Z.leb_spec 0 n), (Z.ltb_spec n 0); try lia; reflexivity.
Qed.

Lemma cut_faixa_etaria (n : Z) :
  cut 0 [25; 35; 45; 55; 65] ["<25"; "25-34"; "35-44"; "45-54"; "55-64"; "65+"] (VInt n) =
  Ok (if n <? 0 then VNaN
      else if n <=? 25 then VStr "<25"
      else if n <=? 35 then VStr "25-34"
      else if n <=? 45 then VStr "35-44"
      else if n <=? 55 then VStr "45-54"
      else if n <=? 65 then VStr "55-64"
      else VStr "65+").
Proof.
  unfold cut. cbn [as_number cut_right]. rewrite !Qle_bool_inject_Z.
  destruct (Z.leb_spec 0 n), (Z.ltb_spec n 0); try lia; reflexivity.
Qed.

Lemma row_get_lookup (row : gmap string value) (col : string) (v dflt : value) :
  row !! col = Some v -> row_get row col dflt = v.
Proof. intros H. unfold row_get. by rewrite H. Qed.

(** The first row of a frame is one of its records, under the label the
    frame starts with. *)
Lemma first_row_elem (df : DataFrame) (idx : Z) :
  fst <$> head (records df) = Some idx ->
  (idx, SampleFrames.first_row df) ∈ records df.
Proof.
  unfold SampleFrames.first_row.
  destruct (records df) as [|[i r] rest]; [done|].
  intros [= ->]. apply list_elem_of_here.
Qed.

(** *** Absences *)

(** X17. In every row [_calculate_derived_metrics] returns for the
    absences, a whole number of days absent is binned as the code's edges
    say: no category below 0, "1 dia" for 0 and 1, "2-3 dias" for 2 and 3,
    "4-7 dias", "8-15 dias", "16-30 dias", and ">30 dias" above 30. *)
Theorem absence_duration_categories (today : date) (data out : DataFrame)
    (idx : Z) (row : gmap string value) (n : Z) :
  AbsenteismoETL.calculate_derived_metrics today data = Ok out ->
  (idx, row) ∈ records out ->
  row !! "dias_afastados" = Some (VInt n) ->
  row !! "categoria_afastamento" =
  Some (if n <? 0 then VNaN
        else if n <=? 1 then VStr "1 dia"
        else if n <=? 3 then VStr "2-3 dias"
        else if n <=? 7 then VStr "4-7 dias"
        else if n <=? 15 then VStr "8-15 dias"
        else if n <=? 30 then VStr "16-30 dias"
        else VStr ">30 dias").
Proof.
  unfold AbsenteismoETL.calculate_derived_metrics.
  destruct (has_column data "dias_afastados"); cbn [mbind result_bind]; [|discriminate].
  destruct (assign_column "dias_afastados" _ data) as [d1|];
    cbn [mbind result_bind]; [|discriminate].
  destruct (map_column "sexo" "sexo_desc" _ d1) as [d2|];
    cbn [mbind result_bind]; [|discriminate].
  destruct (map_column "tipo_atestado" "tipo_atestado_desc" _ d2) as [d3|];
    cbn [mbind result_bind]; [|discriminate].
  destruct (assign_column "idade_na_data_inicio" _ d3) as [d4|];
    cbn [mbind result_bind]; [|discriminate].
  intros H5 Hin Hdias. apply map_column_rows in H5.
  destruct (Forall2_elem_r _ _ _ _ H5 Hin) as ([i r4] & _ & _ & v & Hv & Hrow).
  simpl in Hv, Hrow. subst row.
  rewrite lookup_insert_ne in Hdias by done.
  rewrite (row_get_lookup _ _ _ _ Hdias), cut_afastamento in Hv.
  injection Hv as <-. by rewrite lookup_insert_eq.
Qed.

Lemma absence_duration_categories_sample :
  SampleFrames.first_row SampleFrames.absences_out !! "categoria_afastamento" =
  Some (if 3 <? 0 then VNaN
        else if 3 <=? 1 then VStr "1 dia"
        else if 3 <=? 3 then VStr "2-3 dias"
        else if 3 <=? 7 then VStr "4-7 dias"
        else if 3 <=? 15 then VStr "8-15 dias"
        else if 3 <=? 30 then VStr "16-30 dias"
        else VStr ">30 dias").
Proof.
  apply (absence_duration_categories SampleFrames.today SampleFrames.absences
           SampleFrames.absences_out 0 (SampleFrames.first_row SampleFrames.absences_out) 3).
  - vm_compute. reflexivity.
  - apply first_row_elem. vm_compute. reflexivity.
  - vm_compute. reflexivity.
Defined.

(** *** Employees *)

(** The frames the employee metrics pass through, seen from a row of the
    result. *)
Lemma funcionario_derived_row (today : date) (data out : DataFrame) (idx : Z)
    (row : gmap string value) :
  FuncionarioETL.calculate_derived_metrics today data = Ok out ->
  (idx, row) ∈ records out ->
  exists idade faixa : value,
    (if truthy (row_get row "DATA_NASCIMENTO" VNaN)
     then int_cell <$> calculate_age today (row_get row "DATA_NASCIMENTO" VNaN) VNone
     else Ok VNaN) = Ok idade /\
    row !! "idade_atual" = Some idade /\
    cut 0 [25; 35; 45; 55; 65] ["<25"; "25-34"; "35-44"; "45-54"; "55-64"; "65+"] idade =
      Ok faixa /\
    row !! "faixa_etaria" = Some faixa /\
    row !! "status_ativo" = Some (VBool (isna (row_get row "DATA_DEMISSAO" VNaN))).
Proof.
  unfold FuncionarioETL.calculate_derived_metrics.
  destruct (map_column "DATA_NASCIMENTO" "idade_atual" _ data) as [d1|] eqn:H1;
    cbn [mbind result_bind]; [|discriminate].
  destruct (assign_column "tempo_empresa" _ d1) as [d2|] eqn:H2;
    cbn [mbind result_bind]; [|discriminate].
  destruct (map_column "SEXO" "sexo_desc" _ d2) as [d3|] eqn:H3;
    cbn [mbind result_bind]; [|discriminate].
  destruct (map_column "ESTADOCIVIL" "estado_civil_desc" _ d3) as [d4|] eqn:H4;
    cbn [mbind result_bind]; [|discriminate].
  destruct (map_column "idade_atual" "faixa_etaria" _ d4) as [d5|] eqn:H5;
    cbn [mbind result_bind]; [|discriminate].
  intros H6 Hin.
  apply map_column_rows in H1, H5, H6.
  apply assign_column_outside in H2. apply map_column_outside in H3, H4.
  pose proof (same_rows_trans _ _ _ _ _ H2 (same_rows_trans _ _ _ _ _ H3 H4)) as H24.
  simpl app in H24.
  destruct (Forall2_elem_r _ _ _ _ H6 Hin) as ([i5 r5] & Hin5 & Hi5 & v6 & Hv6 & Hrow).
  simpl in Hi5, Hv6, Hrow. subst i5.
  destruct (Forall2_elem_r _ _ _ _ H5 Hin5) as ([i4 r4] & Hin4 & Hi4 & v5 & Hv5 & Hr5).
  simpl in Hi4, Hv5, Hr5. subst i4.
  destruct (same_rows_elem _ _ _ _ _ H24 Hin4) as (r1 & Hin1 & Hsame).
  destruct (Forall2_elem_r _ _ _ _ H1 Hin1) as ([i0 r0] & _ & _ & v1 & Hv1 & Hr1).
  simpl in Hv1, Hr1.
  assert (forall col, col ∉ ["tempo_empresa"; "sexo_desc"; "estado_civil_desc";
                              "faixa_etaria"; "status_ativo"] ->
                      row !! col = r1 !! col) as Hcols.
  { intros col Hcol. subst row r5.
    rewrite !lookup_insert_ne by (intros <-; apply Hcol; repeat constructor).
    apply Hsame. intros Hc. apply Hcol.
    repeat (apply elem_of_cons in Hc as [-> | Hc]; [repeat constructor|]).
    by apply elem_of_nil in Hc. }
  assert (forall col, col ∈ ["DATA_NASCIMENTO"; "idade_atual"; "DATA_DEMISSAO"] ->
                      col ∉ ["tempo_empresa"; "sexo_desc"; "estado_civil_desc";
                             "faixa_etaria"; "status_ativo"]) as Hout.
  { intros col Hcol Hc.
    repeat (apply elem_of_cons in Hcol as [-> | Hcol];
            [by repeat (apply elem_of_cons in Hc as [? | Hc]; [done|]);
                apply elem_of_nil in Hc|]).
    by apply elem_of_nil in Hcol. }
  assert (row_get row "DATA_NASCIMENTO" VNaN = row_get r0 "DATA_NASCIMENTO" VNaN) as Hnasc.
  { unfold row_get. rewrite Hcols by (apply Hout; repeat constructor).
    subst r1. by rewrite lookup_insert_ne. }
  assert (row !! "idade_atual" = Some v1) as Hidade.
  { rewrite Hcols by (apply Hout; repeat constructor). subst r1.
    by rewrite lookup_insert_eq. }
  assert (row_get r4 "idade_atual" VNaN = v1) as Hidade4.
  { unfold row_get. rewrite (Hsame "idade_atual").
    - subst r1. by rewrite lookup_insert_eq.
    - intros Hc. repeat (apply elem_of_cons in Hc as [? | Hc]; [done|]).
      by apply elem_of_nil in Hc. }
  exists v1, v5. rewrite Hnasc. split; [done|]. split; [done|].
  split; [by rewrite <- Hidade4|]. split.
  - subst row r5. rewrite lookup_insert_ne by done. by rewrite lookup_insert_eq.
  - subst row. rewrite lookup_insert_eq. injection Hv6 as <-. do 3 f_equal.
    unfold row_get. by rewrite lookup_insert_ne.
Qed.

(** X18. In every row [_calculate_derived_metrics] returns for the
    employees: [status_ativo] says whether the termination date is
    missing; a birth date gives as [idade_atual] the whole years from it to
    today; and a whole age is binned as the code's edges say, "<25" up to
    and including 25, "25-34" for 26 to 35, "35-44" for 36 to 45, "45-54"
    for 46 to 55, "55-64" for 56 to 65 and "65+" above 65, with no band
    below 0. *)
Theorem employee_age_bands_and_status (today : date) (data out : DataFrame) (idx : Z)
    (row : gmap string value) :
  FuncionarioETL.calculate_derived_metrics today data = Ok out ->
  (idx, row) ∈ records out ->
  row !! "status_ativo" = Some (VBool (isna (row_get row "DATA_DEMISSAO" VNaN))) /\
  (forall birth : date,
     row !! "DATA_NASCIMENTO" = Some (VDate birth) ->
     exists age : Z,
       calculate_age today (VDate birth) (VDate today) = Ok (Some age) /\
       row !! "idade_atual" = Some (VInt age)) /\
  (forall age : Z,
     row !! "idade_atual" = Some (VInt age) ->
     row !! "faixa_etaria" =
     Some (if age <? 0 then VNaN
           else if age <=? 25 then VStr "<25"
           else if age <=? 35 then VStr "25-34"
           else if age <=? 45 then VStr "35-44"
           else if age <=? 55 then VStr "45-54"
           else if age <=? 65 then VStr "55-64"
           else VStr "65+")).
Proof.
  intros Hrun Hin.
  destruct (funcionario_derived_row today data out idx row Hrun Hin)
    as (idade & faixa & Hage & Hidade & Hcut & Hfaixa & Hstatus).
  split; [done|]. split.
  - intros birth Hb. rewrite (row_get_lookup _ _ _ _ Hb) in Hage.
    destruct (TransformerFacts.calculate_age_years today birth today) as (age & Ha & _).
    exists age. split; [done|]. rewrite Hidade. f_equal.
    change (truthy (VDate birth)) with true in Hage. cbv iota in Hage.
    change (calculate_age today (VDate birth) VNone)
      with (calculate_age today (VDate birth) (VDate today)) in Hage.
    rewrite Ha in Hage. by injection Hage as <-.
  - intros age Ha. rewrite Hidade in Ha. injection Ha as ->.
    rewrite cut_faixa_etaria in Hcut. injection Hcut as <-. done.
Qed.

Lemma employee_age_bands_and_status_sample :
  SampleFrames.first_row SampleFrames.employees_out !! "status_ativo" =
    Some (VBool (isna (row_get (SampleFrames.first_row SampleFrames.employees_out)
                         "DATA_DEMISSAO" VNaN))) /\
  (forall birth : date,
     SampleFrames.first_row SampleFrames.employees_out !! "DATA_NASCIMENTO" =
       Some (VDate birth) ->
     exists age : Z,
       calculate_age SampleFrames.today (VDate birth) (VDate SampleFrames.today) =
         Ok (Some age) /\
       SampleFrames.first_row SampleFrames.employees_out !! "idade_atual" =
         Some (VInt age)) /\
  (forall age : Z,
     SampleFrames.first_row SampleFrames.employees_out !! "idade_atual" = Some (VInt age) ->
     SampleFrames.first_row SampleFrames.employees_out !! "faixa_etaria" =
     Some (if age <? 0 then VNaN
           else if age <=? 25 then VStr "<25"
           else if age <=? 35 then VStr "25-34"
           else if age <=? 45 then VStr "35-44"
           else if age <=? 55 then VStr "45-54"
           else if age <=? 65 then VStr "55-64"
           else VStr "65+")).
Proof.
  apply (employee_age_bands_and_status SampleFrames.today SampleFrames.employees
           SampleFrames.employees_out 0
           (SampleFrames.first_row SampleFrames.employees_out)).
  - vm_compute. reflexivity.
  - apply first_row_elem. vm_compute. reflexivity.
Defined.

(** *** Expirations *)

Lemma mapM_total {A B : Type} (f : A -> result B) (l : list A) :
  (forall a, exists b, f a = Ok b) -> exists k, mapM f l = Ok k.
Proof.
  intros Hf. induction l as [|a l [k IH]]; simpl; [by eexists|].
  destruct (Hf a) as [b ->]. simpl. rewrite IH. simpl. by eexists.
Qed.

Lemma apply_column_total (f : value -> result value) (col : string) (df : DataFrame) :
  (forall v, exists w, f v = Ok w) -> has_column df col = true ->
  exists df', apply_column f col df = Ok df' /\ columns df' = columns df.
Proof.
  intros Hf Hcol. unfold apply_column. rewrite Hcol.
  destruct (mapM_total
              (fun ir : Z * gmap string value =>
                 v ← f (row_get ir.2 col VNaN); Ok (ir.1, <[col := v]> ir.2))
              (records df)) as [rows ->].
  - intros ir. destruct (Hf (row_get ir.2 col VNaN)) as [w ->]. simpl. by eexists.
  - simpl. by eexists.
Qed.

Lemma apply_present_total (f : value -> result value) (cols : list string)
    (df : DataFrame) :
  (forall v, exists w, f v = Ok w) ->
  exists df', AbsenteismoETL.apply_present f cols df = Ok df' /\ columns df' = columns df.
Proof.
  intros Hf. revert df. induction cols as [|col cols IH]; intros df; simpl.
  - by eexists.
  - destruct (has_column df col) eqn:Hcol.
    + destruct (apply_column_total f col df Hf Hcol) as (df1 & -> & Hc1). simpl.
      destruct (IH df1) as (df' & -> & Hc'). exists df'. split; [done|]. congruence.
    + simpl. apply IH.
Qed.

Lemma vencimento_metrics_labels (today : date) (data out : DataFrame) :
  VencimentoETL.calculate_vencimento_metrics today data = Ok out ->
  map fst (records out) = map fst (records data) /\
  has_column data "dataVencimento" = true.
Proof.
  unfold VencimentoETL.calculate_vencimento_metrics.
  destruct (map_column "dataVencimento" _ _ data) as [d1|] eqn:H1;
    cbn [mbind result_bind]; [|discriminate].
  destruct (map_column _ "vencido" _ d1) as [d2|] eqn:H2;
    cbn [mbind result_bind]; [|discriminate].
  destruct (map_column _ "critico" _ d2) as [d3|] eqn:H3;
    cbn [mbind result_bind]; [|discriminate].
  destruct (map_column _ "alerta" _ d3) as [d4|] eqn:H4;
    cbn [mbind result_bind]; [|discriminate].
  intros H5. split.
  - apply map_column_outside in H1, H2, H3, H4, H5.
    rewrite (same_rows_labels _ _ _ H5), (same_rows_labels _ _ _ H4),
      (same_rows_labels _ _ _ H3), (same_rows_labels _ _ _ H2).
    by rewrite (same_rows_labels _ _ _ H1).
  - unfold map_column in H1. by destruct (has_column data "dataVencimento").
Qed.

(** X19. [VencimentoETL.process_raw_data] needs the column
    [dataVencimento]: without it the call raises [KeyError]. When it
    returns, the frame has an expiry column, the output has the rows of
    the input in their order, none dropped, and the error list is empty:
    a date that cannot be read is not reported. *)
Theorem vencimento_process_keeps_rows (today : date) (raw out : DataFrame)
    (errors : list etl_error) :
  VencimentoETL.process_raw_data today raw = Ok (out, errors) ->
  errors = [] /\
  map fst (records out) = map fst (records raw) /\
  has_column raw "dataVencimento" = true /\
  (forall other : DataFrame,
     has_column other "dataVencimento" = false ->
     VencimentoETL.process_raw_data today other = Raise (KeyError "dataVencimento")).
Proof.
  unfold VencimentoETL.process_raw_data.
  destruct (AbsenteismoETL.apply_present _ _ raw) as [processed|] eqn:Hp;
    cbn [mbind result_bind]; [|discriminate].
  destruct (VencimentoETL.calculate_vencimento_metrics today processed) as [out'|] eqn:Hm;
    cbn [mbind result_bind]; [|discriminate].
  intros [= <- <-].
  apply vencimento_metrics_labels in Hm as [Hlabels Hcol].
  split; [done|]. split; [|split].
  - rewrite Hlabels. by eapply apply_present_labels.
  - destruct (apply_present_total (fun v => Ok (date_cell (parse_date v)))
                ["dataVencimento"; "dataRealizacaoUltimoServicoRealizado";
                 "dataPrevisaoUltimoServicoRealizado"] raw ltac:(by eexists))
      as (p' & Hp' & Hc').
    rewrite Hp in Hp'. injection Hp' as <-.
    unfold has_column in *. by rewrite Hc' in Hcol.
  - intros other Hother.
    destruct (apply_present_total (fun v => Ok (date_cell (parse_date v)))
                ["dataVencimento"; "dataRealizacaoUltimoServicoRealizado";
                 "dataPrevisaoUltimoServicoRealizado"] other ltac:(by eexists))
      as (p' & -> & Hc').
    cbn [mbind result_bind].
    assert (has_column p' "dataVencimento" = false) as Hp'
      by (unfold has_column in *; by rewrite Hc').
    unfold VencimentoETL.calculate_vencimento_metrics.
    destruct (map_column "dataVencimento" _ _ p') as [d|e] eqn:E;
      unfold map_column in E; rewrite Hp' in E; [discriminate|].
    by injection E as <-.
Qed.

Lemma vencimento_process_keeps_rows_sample :
  ([] : list etl_error) = [] /\
  map fst (records SampleFrames.documents_out) = map fst (records SampleFrames.documents) /\
  has_column SampleFrames.documents "dataVencimento" = true /\
  (forall other : DataFrame,
     has_column other "dataVencimento" = false ->
     VencimentoETL.process_raw_data SampleFrames.today other =
       Raise (KeyError "dataVencimento")).
Proof.
  apply (vencimento_process_keeps_rows SampleFrames.today SampleFrames.documents
           SampleFrames.documents_out []).
  vm_compute. reflexivity.
Defined.

(** *** The pipeline *)

(** X20. When [run_etl_pipeline] returns, its summary counts the rows of
    the three inputs and outputs and the entries of the three error lists;
    the employees and the expirations come out with as many rows as went
    in, the expirations with no error, and only the absences can come out
    fewer. The call-up and accident frames do not matter to the result. *)
Theorem run_etl_pipeline_summary (today : date)
    (funcionarios_df absenteismo_df vencimentos_df convocacoes_df cat_df : DataFrame)
    (r : Pipeline.results) :
  Pipeline.run_etl_pipeline today funcionarios_df absenteismo_df vencimentos_df
    convocacoes_df cat_df = Ok r ->
  Pipeline.summary_funcionarios r =
    Pipeline.mksummary (frame_len funcionarios_df) (frame_len funcionarios_df)
      (length (Pipeline.errors_funcionarios r)) /\
  frame_len (Pipeline.data_funcionarios r) = frame_len funcionarios_df /\
  Pipeline.summary_vencimentos r =
    Pipeline.mksummary (frame_len vencimentos_df) (frame_len vencimentos_df) 0 /\
  frame_len (Pipeline.data_vencimentos r) = frame_len vencimentos_df /\
  Pipeline.total_records (Pipeline.summary_absenteismo r) = frame_len absenteismo_df /\
  Pipeline.clean_records (Pipeline.summary_absenteismo r) =
    frame_len (Pipeline.data_absenteismo r) /\
  Pipeline.errors (Pipeline.summary_absenteismo r) =
    length (Pipeline.errors_absenteismo r) /\
  (Pipeline.clean_records (Pipeline.summary_absenteismo r) <=
   Pipeline.total_records (Pipeline.summary_absenteismo r))%nat /\
  (forall convocacoes_df' cat_df' : DataFrame,
     Pipeline.run_etl_pipeline today funcionarios_df absenteismo_df vencimentos_df
       convocacoes_df' cat_df' = Ok r).
Proof.
  unfold Pipeline.run_etl_pipeline.
  destruct (FuncionarioETL.process_raw_data today funcionarios_df)
    as [[fout ferrs]|] eqn:Hf; cbn [mbind result_bind]; [|discriminate].
  destruct (AbsenteismoETL.process_raw_data today absenteismo_df)
    as [[aout aerrs]|] eqn:Ha; cbn [mbind result_bind]; [|discriminate].
  destruct (VencimentoETL.process_raw_data today vencimentos_df)
    as [[vout verrs]|] eqn:Hv; cbn [mbind result_bind]; [|discriminate].
  intros [= <-]. simpl.
  apply funcionario_process in Hf as [Hf _].
  apply absenteismo_process in Ha as [(processed & _ & Hlab & Hkept) _].
  unfold VencimentoETL.process_raw_data in Hv.
  destruct (AbsenteismoETL.apply_present _ _ vencimentos_df) as [vp|] eqn:Hvp;
    cbn [mbind result_bind] in Hv; [|discriminate].
  destruct (VencimentoETL.calculate_vencimento_metrics today vp) as [vout'|] eqn:Hvm;
    cbn [mbind result_bind] in Hv; [|discriminate].
  injection Hv as <- <-.
  apply vencimento_metrics_labels in Hvm as [Hvm _].
  apply apply_present_labels in Hvp.
  assert (frame_len fout = frame_len funcionarios_df) as Lf.
  { unfold frame_len. by rewrite <- (length_map fst), Hf, length_map. }
  assert (frame_len vout' = frame_len vencimentos_df) as Lv.
  { unfold frame_len. by rewrite <- (length_map fst), Hvm, Hvp, length_map. }
  assert (frame_len aout <= frame_len absenteismo_df)%nat as La.
  { unfold frame_len.
    rewrite <- (length_map fst (records aout)), Hkept, length_map.
    rewrite <- (length_map fst (records absenteismo_df)), <- Hlab, length_map.
    apply List.filter_length_le. }
  rewrite Lf, Lv. repeat split; done.
Qed.

Lemma run_etl_pipeline_summary_sample :
  Pipeline.summary_funcionarios SampleFrames.pipeline_results =
    Pipeline.mksummary (frame_len Samples.funcionarios_frame)
      (frame_len Samples.funcionarios_frame)
      (length (Pipeline.errors_funcionarios SampleFrames.pipeline_results)) /\
  frame_len (Pipeline.data_funcionarios SampleFrames.pipeline_results) =
    frame_len Samples.funcionarios_frame /\
  Pipeline.summary_vencimentos SampleFrames.pipeline_results =
    Pipeline.mksummary (frame_len SampleFrames.documents)
      (frame_len SampleFrames.documents) 0 /\
  frame_len (Pipeline.data_vencimentos SampleFrames.pipeline_results) =
    frame_len SampleFrames.documents /\
  Pipeline.total_records (Pipeline.summary_absenteismo SampleFrames.pipeline_results) =
    frame_len Samples.absenteismo_frame /\
  Pipeline.clean_records (Pipeline.summary_absenteismo SampleFrames.pipeline_results) =
    frame_len (Pipeline.data_absenteismo SampleFrames.pipeline_results) /\
  Pipeline.errors (Pipeline.summary_absenteismo SampleFrames.pipeline_results) =
    length (Pipeline.errors_absenteismo SampleFrames.pipeline_results) /\
  (Pipeline.clean_records (Pipeline.summary_absenteismo SampleFrames.pipeline_results) <=
   Pipeline.total_records (Pipeline.summary_absenteismo SampleFrames.pipeline_results))%nat /\
  (forall convocacoes_df' cat_df' : DataFrame,
     Pipeline.run_etl_pipeline SampleFrames.today Samples.funcionarios_frame
       Samples.absenteismo_frame SampleFrames.documents convocacoes_df' cat_df' =
     Ok SampleFrames.pipeline_results).
Proof.
  apply (run_etl_pipeline_summary SampleFrames.today Samples.funcionarios_frame
           Samples.absenteismo_frame SampleFrames.documents
           SampleFrames.empty_frame SampleFrames.empty_frame
           SampleFrames.pipeline_results).
  vm_compute. reflexivity.
Defined.

End DerivedFacts.
